(** * StoryForge: pipeline, session and tool-dispatch core

    A shallow embedding of the orchestration core of the StoryForge writer
    (session_manager.py, orchestrator.py, the agent loops of
    agents/planner_agent.py, agents/qa_agent.py, agents/consistency_agent.py
    and the retry classifier of main.py), with the properties its
    specification states about them.

    Conventions of the embedding.
    - Python [str] is [string]; the model is exact on ASCII text (bytes
      above 127 are taken as neither letter, digit nor white space).
    - Python dicts with a fixed set of keys are records whose optional
      keys are [option] fields; [d.get(k, v)] is [default v (k d)].
    - Everything outside the process (the model endpoint, the tools and
      the file system they touch, the environment checks) is an oracle
      threaded through an abstract world: [World -> A * World].
    - Writing the session file is taken to succeed ([_save_session] logs
      and swallows a failed write). *)

From Stdlib Require Import Ascii String QArith Qpower.
From stdpp Require Import gmap strings list sorting.

Local Open Scope Z_scope.

(** ** Python string primitives *)

Module PyStr.

Definition code (c : ascii) : nat := nat_of_ascii c.

(** [str.isspace] on a single ASCII character: TAB..CR, FS..US, SPACE.
    The same class is [\s] of the [re] module on [str] patterns. *)
Definition isspace (c : ascii) : bool :=
  let n := code c in
  ((9 <=? n)%nat && (n <=? 13)%nat) || ((28 <=? n)%nat && (n <=? 32)%nat).

(** [\d] restricted to ASCII. *)
Definition isdigit (c : ascii) : bool :=
  let n := code c in (48 <=? n)%nat && (n <=? 57)%nat.

Definition lower_char (c : ascii) : ascii :=
  let n := code c in
  if (65 <=? n)%nat && (n <=? 90)%nat then ascii_of_nat (n + 32) else c.

(** [s.lower()] *)
Fixpoint lower (s : string) : string :=
  match s with
  | EmptyString => EmptyString
  | String c s' => String (lower_char c) (lower s')
  end.

(** [s.startswith(p)] *)
Fixpoint startswith (p s : string) : bool :=
  match p, s with
  | EmptyString, _ => true
  | String a p', String b s' => if Ascii.eqb a b then startswith p' s' else false
  | String _ _, EmptyString => false
  end.

(** [needle in hay] *)
Fixpoint contains (needle hay : string) : bool :=
  startswith needle hay ||
  match hay with
  | EmptyString => false
  | String _ hay' => contains needle hay'
  end.

(** [s.lstrip()] and [s.lstrip('-')] *)
Fixpoint lstrip_by (p : ascii -> bool) (s : string) : string :=
  match s with
  | EmptyString => EmptyString
  | String c s' => if p c then lstrip_by p s' else s
  end.

(** [s.rstrip()] *)
Fixpoint rstrip_by (p : ascii -> bool) (s : string) : string :=
  match s with
  | EmptyString => EmptyString
  | String c s' =>
      match rstrip_by p s' with
      | EmptyString => if p c then EmptyString else String c EmptyString
      | t => String c t
      end
  end.

(** [s.strip()] *)
Definition strip (s : string) : string := rstrip_by isspace (lstrip_by isspace s).

Definition is_dash (c : ascii) : bool := Ascii.eqb c "-".

(** [s.split('\n')]: always at least one piece. *)
Fixpoint split_lines (s : string) : list string :=
  match s with
  | EmptyString => [EmptyString]
  | String c s' =>
      if Ascii.eqb c "010" then EmptyString :: split_lines s'
      else match split_lines s' with
           | [] => [String c EmptyString]
           | l :: ls => String c l :: ls
           end
  end.

(** Every character of [s] satisfies [p]. *)
Fixpoint all_chars (p : ascii -> bool) (s : string) : bool :=
  match s with
  | EmptyString => true
  | String c s' => p c && all_chars p s'
  end.

(** Truth value of a string: non-empty. *)
Definition truthy (s : string) : bool :=
  match s with EmptyString => false | _ => true end.

(** [int(s)] for a string of ASCII digits, most significant first. *)
Fixpoint int_acc (acc : Z) (s : string) : Z :=
  match s with
  | EmptyString => acc
  | String c s' => int_acc (10 * acc + (Z.of_nat (code c) - 48)) s'
  end.

Definition int_of_digits (s : string) : Z := int_acc 0 s.

(** The newline character as a string. *)
Definition nl : string := String "010" EmptyString.

(** [str(x)] of a value that is [None] or a string, as an f-string
    prints it. *)
Definition str_of_opt (o : option string) : string := default "None" o.

End PyStr.

(** ** The fragment of [re] the agents use

    Every pattern of the agents is a literal, followed by greedy classes
    and a capture; none of them needs backtracking inside one attempt
    (the class that ends a greedy run is disjoint from what follows it),
    so an attempt at one position is a deterministic scan, and
    [re.search] is the leftmost position where the attempt succeeds. *)

Module Re.
Import PyStr.

(** One literal at the start of [s]; the rest of [s] on success. *)
Fixpoint lit (p s : string) : option string :=
  match p, s with
  | EmptyString, _ => Some s
  | String a p', String b s' => if Ascii.eqb a b then lit p' s' else None
  | String _ _, EmptyString => None
  end.

(** The same under [re.IGNORECASE] (ASCII letters). *)
Fixpoint lit_ci (p s : string) : option string :=
  match p, s with
  | EmptyString, _ => Some s
  | String a p', String b s' =>
      if Ascii.eqb (lower_char a) (lower_char b) then lit_ci p' s' else None
  | String _ _, EmptyString => None
  end.

(** A greedy run [c*]: the run and what follows it. *)
Fixpoint span (p : ascii -> bool) (s : string) : string * string :=
  match s with
  | EmptyString => (EmptyString, EmptyString)
  | String c s' =>
      if p c then let '(r, t) := span p s' in (String c r, t)
      else (EmptyString, s)
  end.

(** [$] without [re.MULTILINE]: the end of the text, or just before a
    newline that ends the text. *)
Definition at_end (s : string) : bool :=
  match s with
  | EmptyString => true
  | String c EmptyString => Ascii.eqb c "010"
  | _ => false
  end.

(** The lazy [(.*?)] under [re.DOTALL], up to the first place where
    [stop] holds; [stop] holds at the end of the text. *)
Fixpoint lazy_until (stop : string -> bool) (s : string) : string :=
  if stop s then EmptyString
  else match s with
       | EmptyString => EmptyString
       | String c s' => String c (lazy_until stop s')
       end.

(** [re.search]: the attempt [m] at every position, left to right,
    the end of the text included. *)
Fixpoint search {A} (m : string -> option A) (s : string) : option A :=
  match m s with
  | Some r => Some r
  | None =>
      match s with
      | EmptyString => None
      | String _ s' => search m s'
      end
  end.

(** Some position of [s] satisfies [p] (any position, not the first). *)
Fixpoint anywhere (p : string -> bool) (s : string) : bool :=
  p s || match s with
         | EmptyString => false
         | String _ s' => anywhere p s'
         end.

End Re.

(** ** main.py: classification of provider errors and the retry loop *)

Module Retry.
Import PyStr.

(** An attribute of an exception object that may hold an HTTP status. *)
Inductive Attr :=
| Absent                 (* [hasattr] is false *)
| NotInt                 (* present, [int(...)] raises TypeError/ValueError *)
| IntVal (n : Z).        (* present, [int(...)] gives [n] *)

Record Exc := {
  exc_status_code : Attr;
  exc_status : Attr;
  exc_http_status : Attr;
  exc_str : string        (* [str(exc)] *)
}.

(** The probing loop over ("status_code", "status", "http_status"):
    the first attribute that converts wins. *)
Fixpoint probe (attrs : list Attr) : option Z :=
  match attrs with
  | [] => None
  | IntVal n :: _ => Some n
  | _ :: rest => probe rest
  end.

Definition status_in (sc : option Z) (l : list Z) : bool :=
  match sc with
  | Some n => existsb (Z.eqb n) l
  | None => false
  end.

Definition network_hints : list string :=
  [ "timeout"; "timed out"; "connection reset"; "temporarily unavailable";
    "connection aborted"; "connection refused"; "server disconnected" ].

Definition hard_rate_limit (message : string) : bool :=
  contains "rate limit" message &&
  (contains "exceeded" message || contains "too many" message).

Definition status_of (exc : Exc) : option Z :=
  probe [exc_status_code exc; exc_status exc; exc_http_status exc].

(** [is_transient_error(exc, status)] *)
Definition is_transient_error (exc : Exc) (status : option Z) : bool :=
  let status_code :=
    match status with
    | Some n => Some n
    | None => status_of exc
    end in
  let message := lower (exc_str exc) in
  if status_in status_code [400; 401; 403] then false
  else if status_in status_code [429] then
    if hard_rate_limit message then false else true
  else if match status_code with
          | Some n => negb (n =? 0)%Z && (400 <=? n)%Z && (n <? 500)%Z
          | None => false
          end then false
  else if status_in status_code [408; 500; 502; 503; 504] then true
  else if existsb (fun h => contains h message) network_hints then true
  else false.



(** Sample exceptions: an HTTP status on [status_code] and a message. *)
Definition http_error (n : Z) (msg : string) : Exc :=
  {| exc_status_code := IntVal n; exc_status := Absent;
     exc_http_status := Absent; exc_str := msg |}.



(** What one pass of the body of
    [for attempt in range(1, max_attempts + 1)] does. *)
Inductive Attempt :=
| Broke                 (* the call returned and the body ends in [break] *)
| Continued             (* the call returned and the body ends without [break] *)
| Failed (e : Exc).     (* the body raised [e] *)





End Retry.

(** ** Python values and dicts *)

Module Py.
Import PyStr.

(** The values the stage results and the session hold. *)
Inductive Value :=
| VNone
| VBool (b : bool)
| VInt (n : Z)
| VStr (s : string)
| VList (l : list string)
| VConfig (c : gmap string string).

(** A result dict: [{"success": True, "score": 72, ...}] *)
Abbreviation Dict := (gmap string Value).

Definition dict_of (kvs : list (string * Value)) : Dict := list_to_map kvs.

(** Python truth value. *)
Definition truth (v : Value) : bool :=
  match v with
  | VNone => false
  | VBool b => b
  | VInt n => negb (n =? 0)%Z
  | VStr s => truthy s
  | VList l => match l with [] => false | _ => true end
  | VConfig c => negb (bool_decide (c = ∅))
  end.

(** [d.get(k, dflt)] and [d.get(k)] *)
Definition get (d : Dict) (k : string) (dflt : Value) : Value := default dflt (d !! k).
Definition get_none (d : Dict) (k : string) : Value := default VNone (d !! k).

(** [a and b] *)
Definition py_and (a b : Value) : Value := if truth a then b else a.
(** [not a] *)
Definition py_not (a : Value) : Value := VBool (negb (truth a)).

(** The result of an operation that may raise. *)
Inductive Outcome (A : Type) :=
| Returned (a : A)
| Raised (msg : string).
Arguments Returned {A} a.
Arguments Raised {A} msg.

End Py.

(** ** Conversations *)

Module Chat.
Import Py.

Inductive Role := System | User | Assistant | Tool.

(** A tool call of a model response: [tc.id], [tc.function.name],
    [tc.function.arguments]. *)
Record ToolCall := {
  tc_id : string;
  tc_name : string;
  tc_arguments : string
}.

(** One entry of the [messages] list. *)
Record Message := {
  role : Role;
  content : string;
  tool_calls : list ToolCall;
  tool_call_id : option string;
  name : option string
}.

Definition system_msg (text : string) : Message :=
  {| role := System; content := text; tool_calls := [];
     tool_call_id := None; name := None |}.
Definition user_msg (text : string) : Message :=
  {| role := User; content := text; tool_calls := [];
     tool_call_id := None; name := None |}.
Definition assistant_msg (text : string) (tcs : list ToolCall) : Message :=
  {| role := Assistant; content := text; tool_calls := tcs;
     tool_call_id := None; name := None |}.
Definition tool_msg (tc : ToolCall) (text : string) : Message :=
  {| role := Tool; content := text; tool_calls := [];
     tool_call_id := Some (tc_id tc); name := Some (tc_name tc) |}.

(** [response.choices[0].message]: [content] may be [None];
    [getattr(message, "tool_calls", None) or []] is the list. *)
Record ModelMessage := {
  mm_content : option string;
  mm_tool_calls : list ToolCall
}.

(** [message.content or ""] *)
Definition content_or_empty (m : ModelMessage) : string := default "" (mm_content m).

(** The keyword arguments of [chat.completions.create] that vary
    between call sites. *)
Record CallParams := {
  with_tools : bool;
  temperature : Q;
  max_tokens : option Z
}.

Definition is_tool_msg_for (id : string) (m : Message) : bool :=
  match role m, tool_call_id m with
  | Tool, Some i => String.eqb i id
  | _, _ => false
  end.

End Chat.

(** ** Parsing the completion reports (qa_agent.py, consistency_agent.py) *)

Module Report.
Import PyStr Re Py.

(** The list comprehension shared by the four list fields:
    [[line.strip().lstrip('-').strip() for line in text.split('\n')
      if line.strip() and line.strip().startswith('-')]] *)
Definition bullet_lines (text : string) : list string :=
  map (fun line => strip (lstrip_by is_dash (strip line)))
      (List.filter (fun line => truthy (strip line) && startswith "-" (strip line))
                   (split_lines text)).

(** [Score:\s*(\d+)] at the start of [s]: group 1. *)
Definition score_attempt (s : string) : option string :=
  match lit "Score:" s with
  | Some r =>
      let '(_, r1) := span isspace r in
      let '(d, _) := span isdigit r1 in
      if truthy d then Some d else None
  | None => None
  end.

(** [Issues:(.*?)(?:Suggestions:|Approved:|$)] with DOTALL: group 1. *)
Definition issues_attempt (s : string) : option string :=
  match lit "Issues:" s with
  | Some r =>
      Some (lazy_until (fun t => startswith "Suggestions:" t
                                 || startswith "Approved:" t || at_end t) r)
  | None => None
  end.

(** [Suggestions:(.*?)(?:Approved:|$)] with DOTALL: group 1. *)
Definition suggestions_attempt (s : string) : option string :=
  match lit "Suggestions:" s with
  | Some r => Some (lazy_until (fun t => startswith "Approved:" t || at_end t) r)
  | None => None
  end.

(** [Approved:\s*(Yes|No)] with IGNORECASE: group 1, as written in
    the text. *)
Definition approved_attempt (s : string) : option string :=
  match lit_ci "Approved:" s with
  | Some r =>
      let '(_, r1) := span isspace r in
      match lit_ci "Yes" r1 with
      | Some _ => Some (String.substring 0 3 r1)
      | None =>
          match lit_ci "No" r1 with
          | Some _ => Some (String.substring 0 2 r1)
          | None => None
          end
      end
  | None => None
  end.

(** [approved_match.group(1).lower() == "yes"] *)
Definition says_yes (group1 : string) : bool := String.eqb (lower group1) "yes".

(** [QualityAssuranceAgent._parse_qa_result(content)], with
    [self.quality_threshold]. *)
Definition parse_qa_result (quality_threshold : Z) (content : string) : Dict :=
  let score :=
    match search score_attempt content with
    | Some d => int_of_digits d
    | None => 0
    end in
  let issues :=
    match search issues_attempt content with
    | Some t => bullet_lines t
    | None => []
    end in
  let suggestions :=
    match search suggestions_attempt content with
    | Some t => bullet_lines t
    | None => []
    end in
  let approved :=
    match search approved_attempt content with
    | Some g => says_yes g
    | None => (quality_threshold <=? score)%Z
    end in
  dict_of [ ("score", VInt score); ("issues", VList issues);
            ("suggestions", VList suggestions); ("approved", VBool approved);
            ("raw_review", VStr content) ].

(** [Errors:\s*(\d+)(.*?)(?:Warnings:|Approved:|$)] with DOTALL:
    groups 1 and 2. *)
Definition errors_attempt (s : string) : option (string * string) :=
  match lit "Errors:" s with
  | Some r =>
      let '(_, r1) := span isspace r in
      let '(d, r2) := span isdigit r1 in
      if truthy d
      then Some (d, lazy_until (fun t => startswith "Warnings:" t
                                         || startswith "Approved:" t || at_end t) r2)
      else None
  | None => None
  end.

(** [Warnings:\s*(\d+)(.*?)(?:Approved:|$)] with DOTALL: groups 1 and 2. *)
Definition warnings_attempt (s : string) : option (string * string) :=
  match lit "Warnings:" s with
  | Some r =>
      let '(_, r1) := span isspace r in
      let '(d, r2) := span isdigit r1 in
      if truthy d
      then Some (d, lazy_until (fun t => startswith "Approved:" t || at_end t) r2)
      else None
  | None => None
  end.

(** [ConsistencyAgent._parse_consistency_result(content)] *)
Definition parse_consistency_result (content : string) : Dict :=
  let '(approved0, errors) :=
    match search errors_attempt content with
    | Some (d, errors_text) =>
        if (0 <? int_of_digits d)%Z then (false, bullet_lines errors_text)
        else (true, [])
    | None => (true, [])
    end in
  let warnings :=
    match search warnings_attempt content with
    | Some (_, warnings_text) => bullet_lines warnings_text
    | None => []
    end in
  let approved :=
    match search approved_attempt content with
    | Some g => says_yes g
    | None => approved0
    end in
  dict_of [ ("errors", VList errors); ("warnings", VList warnings);
            ("approved", VBool approved); ("raw_report", VStr content) ].

(** Occurrences anywhere in a text, for stating what a report says. *)
Definition approval_line (yes : bool) (t : string) : bool :=
  match approved_attempt t with
  | Some g => Bool.eqb (says_yes g) yes
  | None => false
  end.

(** The same, said without the matcher: [t] begins with "Approved:" in
    any case, then white space, then "Yes" (or "No") in any case. *)
Definition begins_with_approval (yes : bool) (t : string) : Prop :=
  exists head ws word rest,
    t = head +:+ ws +:+ word +:+ rest /\
    lower head = "approved:" /\
    all_chars isspace ws = true /\
    lower word = (if yes then "yes" else "no").

Definition positive_error_count (t : string) : bool :=
  match errors_attempt t with
  | Some (d, _) => (0 <? int_of_digits d)%Z
  | None => false
  end.

(** The same, said without the matcher: [t] begins with "Errors:",
    white space, and a run of digits (as long as it can be) whose
    value is positive. *)
Definition begins_with_positive_errors (t : string) : Prop :=
  exists ws digits rest,
    t = "Errors:" +:+ ws +:+ digits +:+ rest /\
    all_chars isspace ws = true /\
    digits <> "" /\ all_chars isdigit digits = true /\
    match rest with EmptyString => True | String c _ => isdigit c = false end /\
    (0 < int_of_digits digits)%Z.

End Report.

(** ** The stage loops of the agents *)

Module Agents.
Import PyStr Re Py Chat Report.

(** The prompt texts, opaque to the control flow. *)
Record Prompts := {
  brainstorm_system : string;
  arc_system : string;
  arc_user : string -> string;                  (* concept *)
  beats_system : string;
  beats_user : Z -> option string -> string;    (* count, series arc *)
  planning_system : string;
  planning_user : string -> string -> string;   (* concept, request *)
  critique_prompt : string;
  qa_system : string;
  qa_user : Value -> string -> string;          (* project path, file *)
  revision_system : Dict -> string;             (* review result *)
  revision_user : Value -> string -> string;
  consistency_system : string;
  consistency_user : Value -> string;
  fix_system : Dict -> string;                  (* validation result *)
  fix_user : Value -> string;
  fix_retry_user : Value -> string              (* remaining errors *)
}.

(** [(\d+)[-\s]*(episode)] at the start of [s]: group 1. *)
Definition episode_attempt (s : string) : option string :=
  let '(d, r) := span isdigit s in
  if truthy d then
    let '(_, r1) := span (fun c => is_dash c || isspace c) r in
    match lit "episode" r1 with
    | Some _ => Some d
    | None => None
    end
  else None.

(** [Active project:\s*'([^']+)'] at the start of [s]: group 1. *)
Definition active_project_attempt (s : string) : option string :=
  match lit "Active project:" s with
  | Some r =>
      let '(_, r1) := span isspace r in
      match lit "'" r1 with
      | Some r2 =>
          let '(p, r3) := span (fun c => negb (Ascii.eqb c "'")) r2 in
          if truthy p then
            match lit "'" r3 with
            | Some _ => Some p
            | None => None
            end
          else None
      | None => None
      end
  | None => None
  end.

(** The state of a [QualityAssuranceAgent] that its methods change. *)
Record QAAgent := {
  quality_threshold : Z;
  iteration_count : Z;
  score_progression : list Value
}.

(** [QualityAssuranceAgent.__init__] *)
Definition new_qa_agent : QAAgent :=
  {| quality_threshold := 90; iteration_count := 0; score_progression := [] |}.

(** [_get_context_aware_threshold(phase, iteration)] *)
Definition get_context_aware_threshold (phase : string) (iteration : Z) : Z :=
  let base :=
    if String.eqb phase "draft" then 70
    else if String.eqb phase "revision" then 80
    else if String.eqb phase "final" then 90
    else 80 in
  Z.min (base + iteration * 5) 90.

Section Loops.
Context {World Args : Type}.
(** [json.loads]: [None] when it raises. *)
Variable json_loads : string -> option Args.
(** [self.client.chat.completions.create(...)] followed by
    [response.choices[0].message]. *)
Variable chat_create :
  CallParams -> list Message -> World -> Outcome ModelMessage * World.
(** [self.tool_map.get(func_name)]; a tool is called with the
    decoded arguments as keywords and returns a string or raises. *)
Variable tool_map : string -> option (Args -> World -> Outcome string * World).
Variable prompts : Prompts.

(** A model that answers every call and never writes [sentinel]. *)
Definition never_says (sentinel : string) : Prop :=
  forall p messages w, exists m w',
    chat_create p messages w = (Returned m, w') /\
    contains sentinel (content_or_empty m) = false.

Definition loop_params (t : Q) : CallParams :=
  {| with_tools := true; temperature := t; max_tokens := Some 4096 |}.

(** The body of [for tc in tool_calls:].  The five loops differ in
    two places: only the planner tracks the project path
    ([track]), and the remediation loops only log a tool that
    raises ([report = false]).  The state is the message list and
    [self.project_path]. *)
Definition run_tool_call (track report : bool) (tc : ToolCall)
    (st : list Message * Value) (w : World) : (list Message * Value) * World :=
  let '(messages, project_path) := st in
  match json_loads (tc_arguments tc) with
  | None => (st, w)                                   (* except: continue *)
  | Some args =>
      match tool_map (tc_name tc) with
      | None => (st, w)                               (* unknown tool *)
      | Some tool_func =>
          match tool_func args w with
          | (Returned result, w') =>
              let project_path' :=
                if track && String.eqb (tc_name tc) "create_project"
                   && contains "Active project:" result
                then match search active_project_attempt result with
                     | Some p => VStr p
                     | None => project_path
                     end
                else project_path in
              ((messages ++ [tool_msg tc result], project_path'), w')
          | (Raised e, w') =>
              if report
              then ((messages ++ [tool_msg tc ("ERROR: " +:+ e)], project_path), w')
              else (st, w')
          end
      end
  end.

Fixpoint run_tool_calls (track report : bool) (tcs : list ToolCall)
    (st : list Message * Value) (w : World) : (list Message * Value) * World :=
  match tcs with
  | [] => (st, w)
  | tc :: rest =>
      let '(st', w') := run_tool_call track report tc st w in
      run_tool_calls track report rest st' w'
  end.

(** *** PlannerAgent *)

(** [_brainstorm_concepts]: the content of the answer (it may be
    [None]), or the prompt when the call raises. *)
Definition brainstorm_concepts (user_prompt : string) (w : World)
    : option string * World :=
  match chat_create {| with_tools := false; temperature := 8 # 10;
                       max_tokens := Some 1000 |}
          [system_msg (brainstorm_system prompts); user_msg user_prompt] w with
  | (Returned m, w') => (mm_content m, w')
  | (Raised _, w') => (Some user_prompt, w')
  end.

Definition hierarchical_unavailable : string :=
  "Hierarchical planning unavailable, proceeding with standard planning.".

(** [_hierarchical_planning] *)
Definition hierarchical_planning (concept user_prompt : string) (w : World)
    : option string * World :=
  match chat_create {| with_tools := false; temperature := 6 # 10;
                       max_tokens := Some 500 |}
          [system_msg (arc_system prompts); user_msg (arc_user prompts concept)] w with
  | (Raised _, w1) => (Some hierarchical_unavailable, w1)
  | (Returned m1, w1) =>
      let series_arc := mm_content m1 in
      match search episode_attempt (lower user_prompt) with
      | Some d =>
          let count := int_of_digits d in
          match chat_create {| with_tools := false; temperature := 6 # 10;
                               max_tokens := Some 800 |}
                  [system_msg (beats_system prompts);
                   user_msg (beats_user prompts count series_arc)] w1 with
          | (Raised _, w2) => (Some hierarchical_unavailable, w2)
          | (Returned m2, w2) =>
              (Some (str_of_opt series_arc +:+ nl +:+ nl +:+ str_of_opt (mm_content m2)), w2)
          end
      | None => (series_arc, w1)
      end
  end.

(** [_critique_and_refine(messages)] *)
Definition critique_and_refine (messages : list Message) (w : World)
    : option string * World :=
  match chat_create {| with_tools := true; temperature := 5 # 10;
                       max_tokens := Some 2000 |}
          (messages ++ [user_msg (critique_prompt prompts)]) w with
  | (Returned m, w') => (mm_content m, w')
  | (Raised _, w') => (None, w')
  end.

Definition planner_max_iterations : nat := 10.

(** The result of a planning loop that used all its iterations. *)
Definition planning_exhausted : Dict :=
  dict_of [ ("success", VBool false);
            ("error", VStr "Max planning iterations reached without completion");
            ("iterations", VInt (Z.of_nat planner_max_iterations)) ].

(** The planning loop of [plan], from iteration [iteration] with
    [fuel] iterations left. *)
Fixpoint plan_loop (fuel iteration : nat) (messages : list Message)
    (project_path : Value) (w : World) : Dict * World :=
  match fuel with
  | O =>
      (dict_of [ ("success", VBool false);
                 ("error", VStr "Max planning iterations reached without completion");
                 ("iterations", VInt (Z.of_nat planner_max_iterations)) ], w)
  | S fuel' =>
      match chat_create (loop_params (7 # 10)) messages w with
      | (Raised e, w1) =>
          (dict_of [ ("success", VBool false); ("error", VStr e);
                     ("iterations", VInt (Z.of_nat iteration)) ], w1)
      | (Returned message, w1) =>
          let content := content_or_empty message in
          if contains "PLANNING COMPLETE" content then
            let '(critique_result, w2) := critique_and_refine messages w1 in
            let content' :=
              match critique_result with
              | Some c => if truthy c then c else content
              | None => content
              end in
            (dict_of [ ("success", VBool true); ("project_path", project_path);
                       ("message", VStr content');
                       ("iterations", VInt (Z.of_nat iteration)) ], w2)
          else
            let messages1 :=
              messages ++ [assistant_msg content (mm_tool_calls message)] in
            let '((messages2, project_path2), w2) :=
              run_tool_calls true true (mm_tool_calls message)
                             (messages1, project_path) w1 in
            plan_loop fuel' (S iteration) messages2 project_path2 w2
      end
  end.

(** [PlannerAgent.plan(user_prompt)] on a fresh agent.  It raises
    when the brainstorm answer has no content (the slice
    [best_concept[:100]] of [None]). *)
Definition plan (user_prompt : string) (w : World) : Outcome Dict * World :=
  let '(best_concept, w1) := brainstorm_concepts user_prompt w in
  match best_concept with
  | None => (Raised "'NoneType' object is not subscriptable", w1)
  | Some concept =>
      let '(hierarchical_plan, w2) := hierarchical_planning concept user_prompt w1 in
      let concept' :=
        concept +:+ nl +:+ nl +:+ "=== HIERARCHICAL STRUCTURE ===" +:+ nl
                +:+ str_of_opt hierarchical_plan in
      let messages :=
        [system_msg (planning_system prompts);
         user_msg (planning_user prompts concept' user_prompt)] in
      let '(d, w3) := plan_loop planner_max_iterations 1 messages VNone w2 in
      (Returned d, w3)
  end.

(** *** QualityAssuranceAgent *)

Definition qa_max_iterations : nat := 5.

Definition qa_incomplete : Dict :=
  dict_of [ ("score", VInt 50);
            ("issues", VList ["Review incomplete - max iterations reached"]);
            ("suggestions", VList ["Manual review recommended"]);
            ("approved", VBool false) ].

(** The review loop of [review_content]: [inl] is the early
    [return] of the [except] branch, [inr] is [review_result] after
    the loop ([None] when no iteration saw the sentinel). *)
Fixpoint review_loop (threshold : Z) (fuel : nat) (messages : list Message)
    (w : World) : (Dict + option Dict) * World :=
  match fuel with
  | O => (inr None, w)
  | S fuel' =>
      match chat_create (loop_params (3 # 10)) messages w with
      | (Raised e, w1) =>
          (inl (dict_of [ ("success", VBool false); ("error", VStr e);
                          ("score", VInt 0) ]), w1)
      | (Returned message, w1) =>
          let content := content_or_empty message in
          if contains "QA REVIEW COMPLETE" content then
            (inr (Some (parse_qa_result threshold content)), w1)
          else
            let messages1 :=
              messages ++ [assistant_msg content (mm_tool_calls message)] in
            let '((messages2, _), w2) :=
              run_tool_calls false true (mm_tool_calls message)
                             (messages1, VNone) w1 in
            review_loop threshold fuel' messages2 w2
      end
  end.

(** [review_content(project_path, file_path, phase)] *)
Definition review_content (agent : QAAgent) (project_path : Value)
    (file_path phase : string) (w : World) : (Dict * QAAgent) * World :=
  let count := iteration_count agent + 1 in
  let threshold := get_context_aware_threshold phase count in
  let agent1 :=
    {| quality_threshold := threshold; iteration_count := count;
       score_progression := score_progression agent |} in
  let messages :=
    [system_msg (qa_system prompts);
     user_msg (qa_user prompts project_path file_path)] in
  match review_loop threshold qa_max_iterations messages w with
  | (inl failed, w') => ((failed, agent1), w')
  | (inr review_result, w') =>
      let review_result1 := default qa_incomplete review_result in
      let review_result2 := <["success" := VBool true]> review_result1 in
      (* enable_progression_analysis: _track_review_progression *)
      let agent2 :=
        {| quality_threshold := threshold; iteration_count := count;
           score_progression :=
             score_progression agent ++ [get review_result2 "score" (VInt 0)] |} in
      ((review_result2, agent2), w')
  end.

(** The revision loop of [revise_if_needed]. *)
Fixpoint revise_loop (fuel iteration : nat) (messages : list Message)
    (w : World) : Dict * World :=
  match fuel with
  | O => (dict_of [ ("revised", VBool false);
                    ("reason", VStr "Max iterations reached") ], w)
  | S fuel' =>
      match chat_create (loop_params (7 # 10)) messages w with
      | (Raised e, w1) =>
          (dict_of [ ("revised", VBool false); ("error", VStr e) ], w1)
      | (Returned message, w1) =>
          let content := content_or_empty message in
          if contains "REVISION COMPLETE" content then
            (dict_of [ ("revised", VBool true);
                       ("iterations", VInt (Z.of_nat iteration)) ], w1)
          else
            let messages1 :=
              messages ++ [assistant_msg content (mm_tool_calls message)] in
            let '((messages2, _), w2) :=
              run_tool_calls false false (mm_tool_calls message)
                             (messages1, VNone) w1 in
            revise_loop fuel' (S iteration) messages2 w2
      end
  end.

Definition revise_max_iterations : nat := 3.

(** [revise_if_needed(project_path, review_result, file_path)]; the
    subscripts [review_result["approved"]], [["score"]],
    [["issues"]], [["suggestions"]] raise KeyError on a result
    without them. *)
Definition revise_if_needed (project_path : Value) (review_result : Dict)
    (file_path : string) (w : World) : Outcome Dict * World :=
  match review_result !! "approved" with
  | None => (Raised "'approved'", w)
  | Some approved =>
      if truth approved then
        (Returned (dict_of [ ("revised", VBool false);
                             ("reason", VStr "Quality score meets threshold") ]), w)
      else
        match review_result !! "score", review_result !! "issues",
              review_result !! "suggestions" with
        | None, _, _ => (Raised "'score'", w)
        | Some _, None, _ => (Raised "'issues'", w)
        | Some _, Some _, None => (Raised "'suggestions'", w)
        | Some _, Some _, Some _ =>
            let messages :=
              [system_msg (revision_system prompts review_result);
               user_msg (revision_user prompts project_path file_path)] in
            let '(d, w') := revise_loop revise_max_iterations 1 messages w in
            (Returned d, w')
        end
  end.

(** *** ConsistencyAgent *)

Definition consistency_max_iterations : nat := 8.

Definition consistency_incomplete : Dict :=
  dict_of [ ("errors", VList ["Validation incomplete - max iterations reached"]);
            ("warnings", VList []);
            ("approved", VBool false) ].

(** The loop of [validate_consistency], as [review_loop]. *)
Fixpoint validate_loop (fuel : nat) (messages : list Message) (w : World)
    : (Dict + option Dict) * World :=
  match fuel with
  | O => (inr None, w)
  | S fuel' =>
      match chat_create (loop_params (2 # 10)) messages w with
      | (Raised e, w1) =>
          (inl (dict_of [ ("success", VBool false); ("error", VStr e) ]), w1)
      | (Returned message, w1) =>
          let content := content_or_empty message in
          if contains "CONSISTENCY CHECK COMPLETE" content then
            (inr (Some (parse_consistency_result content)), w1)
          else
            let messages1 :=
              messages ++ [assistant_msg content (mm_tool_calls message)] in
            let '((messages2, _), w2) :=
              run_tool_calls false true (mm_tool_calls message)
                             (messages1, VNone) w1 in
            validate_loop fuel' messages2 w2
      end
  end.

(** [validate_consistency(project_path)] *)
Definition validate_consistency (project_path : Value) (w : World)
    : Dict * World :=
  let messages :=
    [system_msg (consistency_system prompts);
     user_msg (consistency_user prompts project_path)] in
  match validate_loop consistency_max_iterations messages w with
  | (inl failed, w') => (failed, w')
  | (inr validation_result, w') =>
      (<["success" := VBool true]> (default consistency_incomplete validation_result), w')
  end.

(** The fix loop of [fix_if_needed]; a KeyError on the verification
    result is caught by the loop's own [except]. *)
Fixpoint fix_loop (project_path : Value) (fuel iteration : nat)
    (messages : list Message) (w : World) : Dict * World :=
  match fuel with
  | O => (dict_of [ ("fixed", VBool false);
                    ("reason", VStr "Max iterations reached") ], w)
  | S fuel' =>
      match chat_create (loop_params (3 # 10)) messages w with
      | (Raised e, w1) =>
          (dict_of [ ("fixed", VBool false); ("error", VStr e) ], w1)
      | (Returned message, w1) =>
          let content := content_or_empty message in
          if contains "CONSISTENCY FIXES COMPLETE" content then
            let '(verify_result, w2) := validate_consistency project_path w1 in
            match verify_result !! "approved" with
            | None =>
                (dict_of [ ("fixed", VBool false); ("error", VStr "'approved'") ], w2)
            | Some approved =>
                if truth approved then
                  (dict_of [ ("fixed", VBool true);
                             ("iterations", VInt (Z.of_nat iteration)) ], w2)
                else
                  match verify_result !! "errors" with
                  | None =>
                      (dict_of [ ("fixed", VBool false);
                                 ("error", VStr "'errors'") ], w2)
                  | Some remaining =>
                      fix_loop project_path fuel' (S iteration)
                        (messages ++ [user_msg (fix_retry_user prompts remaining)]) w2
                  end
            end
          else
            let messages1 :=
              messages ++ [assistant_msg content (mm_tool_calls message)] in
            let '((messages2, _), w2) :=
              run_tool_calls false false (mm_tool_calls message)
                             (messages1, VNone) w1 in
            fix_loop project_path fuel' (S iteration) messages2 w2
      end
  end.

Definition fix_max_iterations : nat := 10.

(** [fix_if_needed(project_path, validation_result)] *)
Definition fix_if_needed (project_path : Value) (validation_result : Dict)
    (w : World) : Outcome Dict * World :=
  match validation_result !! "approved" with
  | None => (Raised "'approved'", w)
  | Some approved =>
      if truth approved then
        (Returned (dict_of [ ("fixed", VBool false);
                             ("reason", VStr "No consistency errors found") ]), w)
      else
        match validation_result !! "errors" with
        | None => (Raised "'errors'", w)
        | Some _ =>
            let messages :=
              [system_msg (fix_system prompts validation_result);
               user_msg (fix_user prompts project_path)] in
            let '(d, w') := fix_loop project_path fix_max_iterations 1 messages w in
            (Returned d, w')
        end
  end.

End Loops.
End Agents.

(** ** session_manager.py *)

Module Sessions.
Import PyStr Py.

(** The session dict. *)
Record Session := {
  session_id : string;
  user_prompt : string;
  created_at : string;
  updated_at : string;
  status : string;
  current_stage : string;
  completed_stages : list string;
  project_path : Value;
  results : gmap string Dict;      (* a stage maps to [None] when absent *)
  qa_iterations : Z;
  final_score : Value;
  error : option string
}.

(** A [SessionManager], with the files of its [.sessions] directory:
    [disk] is what the files hold now, [journal] is every write of a
    session file so far, oldest first. *)
Record Manager := {
  current_session : option Session;
  session_file : option string;
  disk : gmap string Session;
  journal : list (string * Session)
}.

Definition STAGES : list string :=
  ["settings"; "planning"; "writing"; "qa"; "consistency"].

(** [SessionManager(output_dir)] over the files already there. *)
Definition new_manager (files : gmap string Session) : Manager :=
  {| current_session := None; session_file := None; disk := files;
     journal := [] |}.

(** A new [SessionManager] over the same directory. *)
Definition restart (m : Manager) : Manager :=
  {| current_session := None; session_file := None; disk := disk m;
     journal := journal m |}.

Definition file_of (id : string) : string := "session_" +:+ id +:+ ".json".

(** [x in l] on lists of strings. *)
Definition mem (x : string) (l : list string) : bool := existsb (String.eqb x) l.

(** [l.index(x)]; [None] is the ValueError. *)
Fixpoint index_of (x : string) (l : list string) : option nat :=
  match l with
  | [] => None
  | y :: l' => if String.eqb x y then Some O else option_map S (index_of x l')
  end.

(** [_save_session] *)
Definition save_session (m : Manager) : Manager :=
  match current_session m, session_file m with
  | Some s, Some f =>
      {| current_session := current_session m; session_file := session_file m;
         disk := <[f := s]> (disk m); journal := journal m ++ [(f, s)] |}
  | _, _ => m
  end.

Definition with_session (m : Manager) (s : Session) : Manager :=
  {| current_session := Some s; session_file := session_file m;
     disk := disk m; journal := journal m |}.

Section Clock.
Context {World : Type}.
(** [datetime.now().strftime("%Y%m%d_%H%M%S")] and
    [datetime.now().isoformat()] *)
Variable now_id : World -> string * World.
Variable now_iso : World -> string * World.

(** [create_session(user_prompt)] *)
Definition create_session (prompt : string) (m : Manager) (w : World)
    : Session * Manager * World :=
  let '(id, w1) := now_id w in
  let '(created, w2) := now_iso w1 in
  let '(updated, w3) := now_iso w2 in
  let s :=
    {| session_id := id; user_prompt := prompt;
       created_at := created; updated_at := updated;
       status := "in_progress"; current_stage := "settings";
       completed_stages := []; project_path := VNone; results := ∅;
       qa_iterations := 0; final_score := VNone; error := None |} in
  let m1 :=
    {| current_session := Some s; session_file := Some (file_of id);
       disk := disk m; journal := journal m |} in
  (s, save_session m1, w3).

(** [update_stage(stage, result, success)] *)
Definition update_stage (stage : string) (result : Dict) (success : Value)
    (m : Manager) (w : World) : Outcome Manager * World :=
  match current_session m with
  | None => (Returned m, w)
  | Some s =>
      let '(t, w1) := now_iso w in
      let results1 := <[stage := result]> (results s) in
      let advanced :=
        if truth success then
          let completed :=
            if mem stage (completed_stages s) then completed_stages s
            else completed_stages s ++ [stage] in
          match index_of stage STAGES with
          | None => None
          | Some stage_index =>
              if (stage_index <? length STAGES - 1)%nat
              then Some (completed,
                         default "" (STAGES !! S stage_index), status s)
              else Some (completed, "complete", "complete")
          end
        else Some (completed_stages s, current_stage s, status s) in
      match advanced with
      | None => (Raised "ValueError: stage is not in list", w1)
      | Some (completed, current, st) =>
          let path :=
            if String.eqb stage "planning" && truth (get_none result "project_path")
            then get_none result "project_path" else project_path s in
          let iterations :=
            if String.eqb stage "qa" then qa_iterations s + 1 else qa_iterations s in
          let score :=
            if String.eqb stage "qa" && truth (get_none result "score")
            then get_none result "score" else final_score s in
          let s' :=
            {| session_id := session_id s; user_prompt := user_prompt s;
               created_at := created_at s; updated_at := t;
               status := st; current_stage := current;
               completed_stages := completed; project_path := path;
               results := results1; qa_iterations := iterations;
               final_score := score; error := error s |} in
          (Returned (save_session (with_session m s')), w1)
      end
  end.

(** [mark_failed(stage, error)] *)
Definition mark_failed (stage err : string) (m : Manager) (w : World)
    : Manager * World :=
  match current_session m with
  | None => (m, w)
  | Some s =>
      let '(t, w1) := now_iso w in
      let s' :=
        {| session_id := session_id s; user_prompt := user_prompt s;
           created_at := created_at s; updated_at := t;
           status := "failed"; current_stage := stage;
           completed_stages := completed_stages s;
           project_path := project_path s; results := results s;
           qa_iterations := qa_iterations s; final_score := final_score s;
           error := Some err |} in
      (save_session (with_session m s'), w1)
  end.

(** [mark_complete(final_score)] *)
Definition mark_complete (score : Value) (m : Manager) (w : World)
    : Manager * World :=
  match current_session m with
  | None => (m, w)
  | Some s =>
      let '(t, w1) := now_iso w in
      let s' :=
        {| session_id := session_id s; user_prompt := user_prompt s;
           created_at := created_at s; updated_at := t;
           status := "complete"; current_stage := "complete";
           completed_stages := completed_stages s;
           project_path := project_path s; results := results s;
           qa_iterations := qa_iterations s;
           final_score := match score with VNone => final_score s | v => v end;
           error := error s |} in
      (save_session (with_session m s'), w1)
  end.

End Clock.

(** Newest first: the order [sort(key=updated_at, reverse=True)]
    leaves; the order of the directory listing is not specified. *)
Definition newer_first (a b : Session) : Prop :=
  String.leb (updated_at b) (updated_at a) = true.

#[local] Instance newer_first_dec : RelDecision newer_first :=
  fun a b => decide (String.leb (updated_at b) (updated_at a) = true).

(** [get_incomplete_sessions()] *)
Definition get_incomplete_sessions (m : Manager) : list Session :=
  merge_sort newer_first
    (List.filter (fun s => String.eqb (status s) "in_progress")
                 (map snd (map_to_list (disk m)))).

(** [load_session(session_id)] *)
Definition load_session (id : string) (m : Manager) : option Session * Manager :=
  match disk m !! file_of id with
  | None => (None, m)
  | Some s =>
      (Some s, {| current_session := Some s; session_file := Some (file_of id);
                  disk := disk m; journal := journal m |})
  end.

(** [get_resume_stage()] *)
Definition get_resume_stage (m : Manager) : option string :=
  match current_session m with
  | None => None
  | Some s => if String.eqb (status s) "complete" then None else Some (current_stage s)
  end.

(** [should_skip_stage(stage)] *)
Definition should_skip_stage (stage : string) (m : Manager) : bool :=
  match current_session m with
  | None => false
  | Some s => mem stage (completed_stages s)
  end.

(** [get_stage_result(stage)] *)
Definition get_stage_result (stage : string) (m : Manager) : option Dict :=
  match current_session m with
  | None => None
  | Some s => results s !! stage
  end.

End Sessions.

(** ** orchestrator.py *)

Module Orchestrator.
Import PyStr Py Sessions.

(** The dict [run] returns; ["partial_success"] is set only when the
    run reaches the final classification. *)
Record Results := {
  r_user_prompt : string;
  r_settings : option Dict;
  r_planning : option Dict;
  r_writing : option Dict;
  r_qa : option Dict;
  r_consistency : option Dict;
  r_success : Value;
  r_session_id : string;
  r_partial_success : option Value
}.

(** An integer operand of a comparison; [None] is the TypeError. *)
Definition as_int (v : Value) : option Z :=
  match v with
  | VInt n => Some n
  | VBool b => Some (if b then 1 else 0)
  | _ => None
  end.

Section Run.
Context {World QA : Type}.
Variable now_id : World -> string * World.
Variable now_iso : World -> string * World.

(** The agents, as the orchestrator calls them. *)
(* SettingsAgent().validate(): config, errors, warnings *)
Variable settings_checks :
  World -> (gmap string string * list string * list string) * World.
(* _initialize_client(); _initialize_tools() *)
Variable initialize : Value -> World -> Outcome unit * World.
Variable planner_plan : string -> World -> Outcome Dict * World.
Variable writer_write : Value -> string -> World -> Outcome Dict * World.
Variable qa_new : QA.
Variable qa_review_content : QA -> Value -> World -> Outcome (Dict * QA) * World.
Variable qa_revise_if_needed : QA -> Value -> Dict -> World -> Outcome (Dict * QA) * World.
Variable consistency_validate : Value -> World -> Outcome Dict * World.
Variable consistency_fix_if_needed : Value -> Dict -> World -> Outcome Dict * World.

(** State of a run: the session manager and the world; a run ends
    with a value or with an exception that leaves [run]. *)
Definition RunM (A : Type) : Type := Manager * World -> Outcome A * (Manager * World).

Definition ret {A} (a : A) : RunM A := fun st => (Returned a, st).
Definition raise {A} (msg : string) : RunM A := fun st => (Raised msg, st).
Definition bind {A B} (c : RunM A) (k : A -> RunM B) : RunM B :=
  fun st =>
    match c st with
    | (Returned a, st') => k a st'
    | (Raised msg, st') => (Raised msg, st')
    end.

Notation "x <- c ;; k" := (bind c (fun x => k))
  (at level 100, c at next level, right associativity).
Notation "c ;;; k" := (bind c (fun _ => k))
  (at level 100, right associativity).

(** An agent call: it changes the world only. *)
Definition agent {A} (f : World -> Outcome A * World) : RunM A :=
  fun '(m, w) => let '(o, w') := f w in (o, (m, w')).
(** A session manager method. *)
Definition sm_update (stage : string) (result : Dict) (success : Value) : RunM unit :=
  fun '(m, w) =>
    match update_stage now_iso stage result success m w with
    | (Returned m', w') => (Returned tt, (m', w'))
    | (Raised e, w') => (Raised e, (m, w'))
    end.
Definition sm_mark_failed (stage err : string) : RunM unit :=
  fun '(m, w) => let '(m', w') := mark_failed now_iso stage err m w in (Returned tt, (m', w')).
Definition sm_mark_complete (score : Value) : RunM unit :=
  fun '(m, w) => let '(m', w') := mark_complete now_iso score m w in (Returned tt, (m', w')).
Definition sm_should_skip (stage : string) : RunM bool :=
  fun '(m, w) => (Returned (should_skip_stage stage m), (m, w)).
Definition sm_stage_result (stage : string) : RunM (option Dict) :=
  fun '(m, w) => (Returned (get_stage_result stage m), (m, w)).

(** [d.get(...)] on a value that may be [None] (AttributeError) and
    [d[k]] (TypeError on [None], KeyError on a missing key). *)
Definition get_of (d : option Dict) (k : string) (dflt : Value) : RunM Value :=
  match d with
  | Some d => ret (get d k dflt)
  | None => raise "'NoneType' object has no attribute 'get'"
  end.
Definition item_of (d : option Dict) (k : string) : RunM Value :=
  match d with
  | Some d => match d !! k with
              | Some v => ret v
              | None => raise ("'" +:+ k +:+ "'")
              end
  | None => raise "'NoneType' object is not subscriptable"
  end.
Definition int_of (v : Value) : RunM Z :=
  match as_int v with
  | Some n => ret n
  | None => raise "'>=' not supported between instances"
  end.

Definition max_revision_cycles : nat := 3.

(** The auto-revision [while] loop of the QA stage, with [fuel]
    cycles left of the budget: the final [qa_result], the agent and
    the final [revision_cycle]. *)
Fixpoint revision_loop (fuel revision_cycle : nat) (project_path : Value)
    (qa_agent : QA) (qa_result : Dict) : RunM (Dict * QA * nat) :=
  match fuel with
  | O => ret (qa_result, qa_agent, revision_cycle)
  | S fuel' =>
      if negb (truth (get qa_result "approved" (VBool false)))
         && truth (get qa_result "success" (VBool false))
      then
        let revision_cycle := S revision_cycle in
        let current_score := get qa_result "score" (VInt 0) in
        revised <- agent (qa_revise_if_needed qa_agent project_path qa_result) ;;
        let '(revision_result, qa_agent1) := revised in
        if truth (get_none revision_result "revised") then
          reviewed <- agent (qa_review_content qa_agent1 project_path) ;;
          let '(qa_result', qa_agent2) := reviewed in
          let new_score := get qa_result' "score" (VInt 0) in
          n <- int_of new_score ;;
          if (90 <=? n)%Z then ret (qa_result', qa_agent2, revision_cycle)
          else
            c <- int_of current_score ;;
            if (n <=? c)%Z then ret (qa_result', qa_agent2, revision_cycle)
            else revision_loop fuel' revision_cycle project_path qa_agent2 qa_result'
        else ret (qa_result, qa_agent1, revision_cycle)
      else ret (qa_result, qa_agent, revision_cycle)
  end.

Definition mk_results (prompt sid : string)
    (settings planning writing qa consistency : option Dict)
    (success : Value) (partial : option Value) : Results :=
  {| r_user_prompt := prompt; r_settings := settings; r_planning := planning;
     r_writing := writing; r_qa := qa; r_consistency := consistency;
     r_success := success; r_session_id := sid; r_partial_success := partial |}.

(** "Pipeline Complete": the classification and the final mark. *)
Definition classify (prompt sid : string)
    (settings planning writing_result qa_result consistency_result : option Dict)
    : RunM Results :=
  writing_ok <- item_of writing_result "success" ;;
  qa_approved <- get_of qa_result "approved" (VBool false) ;;
  consistency_approved <- get_of consistency_result "approved" (VBool false) ;;
  let success := py_and (py_and writing_ok qa_approved) consistency_approved in
  let partial_success := py_and writing_ok (py_not success) in
  let results :=
    mk_results prompt sid settings planning writing_result qa_result
               consistency_result success (Some partial_success) in
  if truth success then
    score <- get_of qa_result "score" VNone ;;
    sm_mark_complete score ;;; ret results
  else if truth partial_success then
    qa_score <- get_of qa_result "score" (VInt 0) ;;
    sm_mark_complete qa_score ;;; ret results
  else
    sm_mark_failed "pipeline" "Content generation incomplete" ;;; ret results.

(** "AGENT 5: Consistency Validation" and what follows. *)
Definition consistency_stage (prompt sid : string)
    (settings planning writing_result qa_result : option Dict)
    (project_path : Value) : RunM Results :=
  skip <- sm_should_skip "consistency" ;;
  if negb skip then
    consistency_result <- agent (consistency_validate project_path) ;;
    consistency_result' <-
      (if negb (truth (get consistency_result "approved" (VBool false)))
          && truth (get consistency_result "success" (VBool false))
       then
         fix_result <-
           agent (consistency_fix_if_needed project_path consistency_result) ;;
         if truth (get_none fix_result "fixed")
         then agent (consistency_validate project_path)
         else ret consistency_result
       else ret consistency_result) ;;
    sm_update "consistency" consistency_result'
              (get consistency_result' "success" (VBool false)) ;;;
    classify prompt sid settings planning writing_result qa_result
             (Some consistency_result')
  else
    consistency_result <- sm_stage_result "consistency" ;;
    classify prompt sid settings planning writing_result qa_result
             consistency_result.

(** "AGENT 4: Quality Assurance" and what follows. *)
Definition qa_stage (prompt sid : string)
    (settings planning_result writing_result : option Dict) : RunM Results :=
  project_path <- get_of planning_result "project_path" (VStr "") ;;
  skip <- sm_should_skip "qa" ;;
  if negb skip then
    reviewed <- agent (qa_review_content qa_new project_path) ;;
    let '(qa_result, qa_agent) := reviewed in
    revised <- revision_loop max_revision_cycles 0 project_path qa_agent qa_result ;;
    let '(qa_result', _, _) := revised in
    sm_update "qa" qa_result' (get qa_result' "success" (VBool false)) ;;;
    consistency_stage prompt sid settings planning_result writing_result
                      (Some qa_result') project_path
  else
    qa_result <- sm_stage_result "qa" ;;
    consistency_stage prompt sid settings planning_result writing_result
                      qa_result project_path.

(** "AGENT 3: Story Writing" and what follows. *)
Definition writing_stage (prompt sid : string)
    (settings planning_result : option Dict) : RunM Results :=
  skip <- sm_should_skip "writing" ;;
  if negb skip then
    project_path <- get_of planning_result "project_path" (VStr "") ;;
    writing_result <- agent (writer_write project_path prompt) ;;
    success <- item_of (Some writing_result) "success" ;;
    sm_update "writing" writing_result success ;;;
    if negb (truth success) then
      sm_mark_failed "writing" "Story writing failed" ;;;
      ret (mk_results prompt sid settings planning_result (Some writing_result)
                      None None (VBool false) None)
    else qa_stage prompt sid settings planning_result (Some writing_result)
  else
    writing_result <- sm_stage_result "writing" ;;
    qa_stage prompt sid settings planning_result writing_result.

(** "AGENT 2: Story Planning" and what follows. *)
Definition planning_stage (prompt sid : string) (settings : option Dict)
    : RunM Results :=
  skip <- sm_should_skip "planning" ;;
  if negb skip then
    planning_result <- agent (planner_plan prompt) ;;
    success <- item_of (Some planning_result) "success" ;;
    sm_update "planning" planning_result success ;;;
    if negb (truth success) then
      sm_mark_failed "planning" "Story planning failed" ;;;
      ret (mk_results prompt sid settings (Some planning_result) None None None
                      (VBool false) None)
    else writing_stage prompt sid settings (Some planning_result)
  else
    planning_result <- sm_stage_result "planning" ;;
    writing_stage prompt sid settings planning_result.

(** "AGENT 1: Settings Validation" and what follows. *)
Definition settings_stage (prompt sid : string) : RunM Results :=
  skip <- sm_should_skip "settings" ;;
  if negb skip then
    checked <- agent (fun w => let '(r, w') := settings_checks w in (Returned r, w')) ;;
    let '(config, errors, warnings) := checked in
    let success := match errors with [] => true | _ => false end in
    let settings :=
      dict_of [ ("success", VBool success); ("config", VConfig config);
                ("errors", VList errors); ("warnings", VList warnings) ] in
    sm_update "settings" settings (VBool success) ;;;
    if negb success then
      sm_mark_failed "settings" "Settings validation failed" ;;;
      ret (mk_results prompt sid (Some settings) None None None None
                      (VBool false) None)
    else
      agent (initialize (VConfig config)) ;;;
      planning_stage prompt sid (Some settings)
  else
    settings <- sm_stage_result "settings" ;;
    config <- item_of settings "config" ;;
    agent (initialize config) ;;;
    planning_stage prompt sid settings.

(** [StoryForgeOrchestrator.run(user_prompt, resume_session_id)] *)
Definition run (prompt : string) (resume_session_id : option string)
    : RunM Results :=
  fun '(m, w) =>
    let fresh :=
      let '(s, m', w') := create_session now_id now_iso prompt m w in
      (s, m', w') in
    let '(session, m1, w1) :=
      match resume_session_id with
      | Some id =>
          if truthy id then
            match load_session id m with
            | (Some s, m') => (s, m', w)
            | (None, _) => fresh
            end
          else fresh
      | None => fresh
      end in
    settings_stage prompt (session_id session) (m1, w1).

(** [resume_session(session_id)], on the files of the directory:
    [inl] is the dict with the ["error"] key. *)
Definition resume_session (id : string) (files : gmap string Session)
    (w : World) : string + Outcome Results * (Manager * World) :=
  match load_session id (new_manager files) with
  | (None, _) => inl ("Session " +:+ id +:+ " not found")
  | (Some session, m) =>
      if String.eqb (status session) "complete"
      then inl ("Session " +:+ id +:+ " is already complete")
      else inr (run (user_prompt session) (Some id) (m, w))
  end.

(** A sequence of pipeline runs on one directory, each with its own
    orchestrator: fresh runs and resumed ones, whatever their outcome. *)
Fixpoint run_many (requests : list (string * option string)) (st : Manager * World)
    : Manager * World :=
  match requests with
  | [] => st
  | (prompt, resume_session_id) :: rest =>
      run_many rest (run prompt resume_session_id (restart st.1, st.2)).2
  end.

End Run.
End Orchestrator.

(** ** What the properties below speak of *)

Module Invariants.
Import Py Sessions Orchestrator.

(** The values [completed_stages] can take: a prefix of settings,
    planning, writing, then qa and consistency in the order in which
    they succeeded. *)
Definition stage_orders : list (list string) :=
  [ [];
    ["settings"];
    ["settings"; "planning"];
    ["settings"; "planning"; "writing"];
    ["settings"; "planning"; "writing"; "qa"];
    ["settings"; "planning"; "writing"; "consistency"];
    ["settings"; "planning"; "writing"; "qa"; "consistency"];
    ["settings"; "planning"; "writing"; "consistency"; "qa"] ].

Definition ordered (s : Session) : Prop := In (completed_stages s) stage_orders.


(** Every session the manager holds, has on disk or has ever written
    is [ordered]. *)
Definition manager_ok (m : Manager) : Prop :=
  (forall s, current_session m = Some s -> ordered s) /\
  (forall f s, disk m !! f = Some s -> ordered s) /\
  Forall (fun e => ordered e.2) (journal m).

(** The manager has a session and its file. *)
Definition armed (m : Manager) : Prop :=
  exists s f, current_session m = Some s /\ session_file m = Some f.

(** A result returned before the final classification, by a stage
    that failed: ["success"] is False, there is no qa and no
    consistency result, and the last result recorded is the one of the
    failed stage, with a false ["success"]. *)
Definition stopped (r : Results) : Prop :=
  r_success r = VBool false /\ r_qa r = None /\ r_consistency r = None /\
  ((exists settings,
      r_settings r = Some settings /\ settings !! "success" = Some (VBool false) /\
      r_planning r = None /\ r_writing r = None) \/
   (exists planning ok,
      r_planning r = Some planning /\ planning !! "success" = Some ok /\
      truth ok = false /\ r_writing r = None) \/
   (exists writing ok,
      r_writing r = Some writing /\ writing !! "success" = Some ok /\
      truth ok = false)).

(** The terminal classification of a returned result: without the
    ["partial_success"] key the run was [stopped] by a failed
    mandatory stage; with it, the run went through the five stages
    and the two flags are computed from their results. *)
Definition classified (r : Results) : Prop :=
  match r_partial_success r with
  | None => stopped r
  | Some partial =>
      exists writing qa consistency writing_ok,
        r_writing r = Some writing /\ writing !! "success" = Some writing_ok /\
        r_qa r = Some qa /\ r_consistency r = Some consistency /\
        truth (r_success r)
          = truth writing_ok && truth (get qa "approved" (VBool false))
            && truth (get consistency "approved" (VBool false)) /\
        truth partial = truth writing_ok && negb (truth (r_success r))
  end.

(** The session of the run is marked complete, in memory and on disk. *)
Definition marked_complete (m : Manager) : Prop :=
  exists s f,
    current_session m = Some s /\ session_file m = Some f /\
    disk m !! f = Some s /\ last (journal m) = Some (f, s) /\
    status s = "complete".

(** The first [n] stages of the fixed order are complete. *)
Definition upto (n : nat) (m : Manager) : Prop :=
  Forall (fun stage => should_skip_stage stage m = true) (take n STAGES).

(** The state in which the orchestrator enters the stage after the
    first [n]: the manager has its session; under [strict], moreover,
    every session is ordered and the first [n] stages are complete.
    ([strict] separates what holds of every run from what needs the
    directory to hold ordered sessions only.) *)
Definition kept (strict : Prop) (m : Manager) : Prop := strict -> manager_ok m.

Definition ready (strict : Prop) (n : nat) (m : Manager) : Prop :=
  armed m /\ (strict -> manager_ok m /\ upto n m).

(** What holds of a returned result and the manager it leaves. *)
Definition finished (strict : Prop) (r : Results) (m : Manager) : Prop :=
  kept strict m /\ classified r /\
  (forall partial, r_partial_success r = Some partial -> truth partial = true ->
                   marked_complete m).

(** A triple for a step of a run: from a manager satisfying [P], a
    returned value and the manager satisfy [Q]; when the step raises,
    the manager satisfies [E]. *)
Definition triple {World A} (P : Manager -> Prop) (c : RunM (World:=World) A)
    (Q : A -> Manager -> Prop) (E : Manager -> Prop) : Prop :=
  forall m w, P m ->
    match c (m, w) with
    | (Returned a, (m', _)) => Q a m'
    | (Raised _, (m', _)) => E m'
    end.

(** A step that leaves the session manager alone. *)
Definition leaves_manager {World A} (c : RunM (World:=World) A) : Prop :=
  forall m w, (c (m, w)).2.1 = m.

End Invariants.

(** ** The pipeline: the orchestrator over the agents *)

Module Pipeline.
Import PyStr Py Chat Agents Sessions Orchestrator.

Section Wiring.
Context {World Args : Type}.
Variable json_loads : string -> option Args.
Variable chat_create :
  CallParams -> list Message -> World -> Outcome ModelMessage * World.
Variable tool_map : string -> option (Args -> World -> Outcome string * World).
Variable prompts : Prompts.
Variable now_id : World -> string * World.
Variable now_iso : World -> string * World.
Variable settings_checks :
  World -> (gmap string string * list string * list string) * World.
Variable initialize : Value -> World -> Outcome unit * World.
(** The draft, critique and polish passes of [WriterAgent.write]:
    the words written and the number of units, unless a call
    raises (the writer catches nothing). *)
Variable write_units : Value -> string -> World -> Outcome (Z * Z) * World.

(** [WriterAgent(...).write(user_prompt)] *)
Definition write (project_path : Value) (user_prompt : string) (w : World)
    : Outcome Dict * World :=
  match write_units project_path user_prompt w with
  | (Returned (total_words, units), w') =>
      (Returned
         (dict_of [ ("success", VBool true); ("word_count", VInt total_words);
                    ("message",
                     VStr "Writing complete with Draft-Critique-Polish pipeline");
                    ("iterations", VInt (units * 3)) ]), w')
  | (Raised e, w') => (Raised e, w')
  end.

Definition review (agent : QAAgent) (project_path : Value) (w : World)
    : Outcome (Dict * QAAgent) * World :=
  let '(r, w') :=
    review_content json_loads chat_create tool_map prompts agent project_path
                   "story.md" "final" w in
  (Returned r, w').

Definition revise (agent : QAAgent) (project_path : Value) (review_result : Dict)
    (w : World) : Outcome (Dict * QAAgent) * World :=
  match revise_if_needed json_loads chat_create tool_map prompts project_path
          review_result "story.md" w with
  | (Returned d, w') => (Returned (d, agent), w')
  | (Raised e, w') => (Raised e, w')
  end.

Definition validate (project_path : Value) (w : World) : Outcome Dict * World :=
  let '(d, w') :=
    validate_consistency json_loads chat_create tool_map prompts project_path w in
  (Returned d, w').

(** [run_autonomous_pipeline] on a given session manager. *)
Definition run_pipeline (prompt : string) (resume_session_id : option string)
    : Manager * World -> Outcome Results * (Manager * World) :=
  run now_id now_iso settings_checks initialize
      (plan json_loads chat_create tool_map prompts)
      write new_qa_agent review revise validate
      (fix_if_needed json_loads chat_create tool_map prompts)
      prompt resume_session_id.

(** A sequence of runs on one directory. *)
Definition run_pipelines (requests : list (string * option string))
    : Manager * World -> Manager * World :=
  run_many now_id now_iso settings_checks initialize
           (plan json_loads chat_create tool_map prompts)
           write new_qa_agent review revise validate
           (fix_if_needed json_loads chat_create tool_map prompts)
           requests.

End Wiring.
End Pipeline.

(** ** Sample worlds, for running the pipeline on concrete inputs *)

Module Scenario.
Import PyStr Py Chat Agents Sessions Orchestrator Pipeline.

(** A model endpoint that plays a script and records every message
    list it is sent. *)
Record Scripted := {
  script : list (Outcome ModelMessage);
  sent : list (list Message)
}.

Definition start (answers : list (Outcome ModelMessage)) : Scripted :=
  {| script := answers; sent := [] |}.

Definition scripted_create (_ : CallParams) (messages : list Message) (w : Scripted)
    : Outcome ModelMessage * Scripted :=
  match script w with
  | [] => (Raised "no answer left", {| script := []; sent := sent w ++ [messages] |})
  | o :: rest => (o, {| script := rest; sent := sent w ++ [messages] |})
  end.

(** A model that gives the same answer to every call. *)
Definition constant_create {W} (answer : ModelMessage) (_ : CallParams)
    (_ : list Message) (w : W) : Outcome ModelMessage * W :=
  (Returned answer, w).

Definition says (text : string) : ModelMessage :=
  {| mm_content := Some text; mm_tool_calls := [] |}.
Definition calls (text : string) (tcs : list ToolCall) : ModelMessage :=
  {| mm_content := Some text; mm_tool_calls := tcs |}.

(** [json.loads] on the two argument strings the scenarios use: the
    empty object decodes (to no keyword argument), the lone brace
    does not. *)
Definition decode (s : string) : option unit :=
  if String.eqb s "{}" then Some tt else None.

(** Two tools: one that raises, one that answers. *)
Definition tools {W} (name : string) : option (unit -> W -> Outcome string * W) :=
  if String.eqb name "write_file" then Some (fun _ w => (Raised "disk full", w))
  else if String.eqb name "read_project_files"
       then Some (fun _ w => (Returned "STATUS: OK", w))
       else None.

Definition no_prompts : Prompts :=
  {| brainstorm_system := ""; arc_system := ""; arc_user := fun _ => "";
     beats_system := ""; beats_user := fun _ _ => "";
     planning_system := ""; planning_user := fun _ _ => "";
     critique_prompt := ""; qa_system := ""; qa_user := fun _ _ => "";
     revision_system := fun _ => ""; revision_user := fun _ _ => "";
     consistency_system := ""; consistency_user := fun _ => "";
     fix_system := fun _ => ""; fix_user := fun _ => "";
     fix_retry_user := fun _ => "" |}.

Definition failing_write : ToolCall :=
  {| tc_id := "call_1"; tc_name := "write_file"; tc_arguments := "{}" |}.
Definition malformed_read : ToolCall :=
  {| tc_id := "call_2"; tc_name := "read_project_files"; tc_arguments := "{" |}.

Definition clock_id {W} (w : W) : string * W := ("20250101_000000", w).
Definition clock_iso {W} (w : W) : string * W := ("2025-01-01T00:00:00", w).

(** A review that scored 50 and was not approved. *)
Definition weak_review : Dict :=
  dict_of [ ("score", VInt 50); ("issues", VList ["Flat dialogue"]);
            ("suggestions", VList ["Add subtext"]); ("approved", VBool false);
            ("success", VBool true) ].

(** The pipeline on the scripted endpoint: the settings pass, the
    client starts, the writer writes 6000 words in 3 units. *)
Definition scripted_pipeline (prompt : string) (resume : option string)
    : Manager * Scripted -> Outcome Results * (Manager * Scripted) :=
  run_pipeline decode scripted_create tools no_prompts clock_id clock_iso
    (fun w => ((∅, [], []), w))
    (fun _ w => (Returned tt, w))
    (fun _ _ w => (Returned (6000, 3), w))
    prompt resume.

Definition scripted_pipelines (requests : list (string * option string))
    : Manager * Scripted -> Manager * Scripted :=
  run_pipelines decode scripted_create tools no_prompts clock_id clock_iso
    (fun w => ((∅, [], []), w))
    (fun _ w => (Returned tt, w))
    (fun _ _ w => (Returned (6000, 3), w))
    requests.

(** The QA stage of the scripted pipeline, from a first review. *)
Definition scripted_revisions (budget : nat) (qa_result : Dict)
    : Manager * Scripted -> Outcome (Dict * QAAgent * nat) * (Manager * Scripted) :=
  revision_loop (review decode scripted_create tools no_prompts)
                (revise decode scripted_create tools no_prompts)
                budget 0 (VStr "output/x") new_qa_agent qa_result.

(** A run in which the first QA call fails in transport and the
    consistency check passes at once. *)
Definition qa_transport_failure : list (Outcome ModelMessage) :=
  [ Returned (says "SELECTED CONCEPT: The Lighthouse");       (* brainstorm *)
    Returned (says "SERIES ARC: ...");                         (* series arc *)
    Returned (says "PLANNING COMPLETE");                       (* planning loop *)
    Returned (says "PLAN VERIFIED");                           (* critique *)
    Raised "Error code: 503";                                  (* QA review *)
    Returned (says "CONSISTENCY CHECK COMPLETE: Errors: 0 Approved: Yes") ].

(** The same run, resumed later with a QA endpoint that answers. *)
Definition qa_answers_on_resume : list (Outcome ModelMessage) :=
  qa_transport_failure ++ [ Returned (says "QA REVIEW COMPLETE: Score: 95") ].

(** The scenario of the specification: the review scores 72, three
    revision cycles bring 81, 83 and 83, the consistency check passes. *)
Definition plateau : list (Outcome ModelMessage) :=
  [ Returned (says "SELECTED CONCEPT: The Lighthouse");
    Returned (says "SERIES ARC: ...");
    Returned (says "PLANNING COMPLETE");
    Returned (says "PLAN VERIFIED");
    Returned (says "QA REVIEW COMPLETE: Score: 72");
    Returned (says "REVISION COMPLETE");
    Returned (says "QA REVIEW COMPLETE: Score: 81");
    Returned (says "REVISION COMPLETE");
    Returned (says "QA REVIEW COMPLETE: Score: 83");
    Returned (says "REVISION COMPLETE");
    Returned (says "QA REVIEW COMPLETE: Score: 83");
    Returned (says "CONSISTENCY CHECK COMPLETE: Errors: 0 Approved: Yes") ].

(** A run in which the review scores 95 and the consistency check
    passes. *)
Definition all_approved : list (Outcome ModelMessage) :=
  [ Returned (says "SELECTED CONCEPT: The Lighthouse");
    Returned (says "SERIES ARC: ...");
    Returned (says "PLANNING COMPLETE");
    Returned (says "PLAN VERIFIED");
    Returned (says "QA REVIEW COMPLETE: Score: 95");
    Returned (says "CONSISTENCY CHECK COMPLETE: Errors: 0 Approved: Yes") ].

(** A validation that found one error. *)
Definition broken_validation : Dict :=
  dict_of [ ("errors", VList ["Sarah becomes Sara in chapter 2"]);
            ("warnings", VList []); ("approved", VBool false);
            ("success", VBool true) ].


End Scenario.

(** * Around the pipeline core

    The life cycle of a session file, the second classifier of provider
    errors, the helpers of the QA agent and the sanitisers of names and
    of text. *)

(** ** session_manager.py: sequences of calls, and the clean-up of old files *)

Module Lifecycle.
Import PyStr Py Sessions.

(** One call of a method that writes the session. *)
Inductive Call :=
| UpdateStage (stage : string) (result : Dict) (success : Value)
| MarkFailed (stage error : string)
| MarkComplete (final_score : Value).

(** [update_stage] looks a successful stage up in [STAGES]. *)
Definition valid_call (c : Call) : Prop :=
  match c with
  | UpdateStage stage _ success => truth success = true -> In stage STAGES
  | _ => True
  end.

Section Calls.
Context {World : Type}.
Variable now_iso : World -> string * World.

Definition call (c : Call) (m : Manager) (w : World) : Outcome Manager * World :=
  match c with
  | UpdateStage stage result success => update_stage now_iso stage result success m w
  | MarkFailed stage err =>
      let '(m', w') := mark_failed now_iso stage err m w in (Returned m', w')
  | MarkComplete score =>
      let '(m', w') := mark_complete now_iso score m w in (Returned m', w')
  end.

(** Calls one after the other, up to the first that raises. *)
Fixpoint calls (cs : list Call) (m : Manager) (w : World) : Outcome Manager * World :=
  match cs with
  | [] => (Returned m, w)
  | c :: rest =>
      match call c m w with
      | (Returned m', w') => calls rest m' w'
      | (Raised e, w') => (Raised e, w')
      end
  end.

End Calls.

(** What one call may do to the session dict. *)
Definition step (s s' : Session) : Prop :=
  session_id s' = session_id s /\ user_prompt s' = user_prompt s /\
  created_at s' = created_at s /\
  (completed_stages s' = completed_stages s \/
   exists stage, ~ In stage (completed_stages s) /\ In stage STAGES /\
                 completed_stages s' = completed_stages s ++ [stage]) /\
  (status s' = status s \/ status s' = "complete" \/ status s' = "failed").

(** The manager holds a session, and the file named after the session
    holds the same session. *)
Definition synced (m : Manager) : Prop :=
  exists s, current_session m = Some s /\
            session_file m = Some (file_of (session_id s)) /\
            disk m !! file_of (session_id s) = Some s.

(** The session of the manager is saved in its file and is no longer
    in progress. *)
Definition closed (m : Manager) : Prop :=
  exists s f, current_session m = Some s /\ session_file m = Some f /\
              disk m !! f = Some s /\ status s <> "in_progress".

(** [cleanup_old_sessions(max_age_days)].  Times are in microseconds
    (the resolution of [datetime]); [stat f] is the modification time of
    a file ([None] when [stat] raises) and [unlink_ok f] tells whether
    [unlink] succeeds: a failure of either is caught inside the loop.
    The loop body, on one file of the directory listing: *)
Definition cleanup_file (cutoff : Z) (stat : string -> option Z)
    (unlink_ok : string -> bool) (f : string)
    (acc : Z * gmap string Session) : Z * gmap string Session :=
  let '(cleaned, files) := acc in
  match stat f with
  | Some mtime =>
      if (mtime <? cutoff)%Z
      then if unlink_ok f then (cleaned + 1, delete f files) else acc
      else acc
  | None => acc
  end.

Definition microseconds_per_day : Z := 86400000000.

Definition cleanup_old_sessions (now : Z) (stat : string -> option Z)
    (unlink_ok : string -> bool) (max_age_days : Z) (m : Manager) : Z * Manager :=
  let cutoff := now - max_age_days * microseconds_per_day in
  let '(cleaned, files) :=
    fold_left (fun acc f => cleanup_file cutoff stat unlink_ok f acc)
              (map fst (map_to_list (disk m))) (0, disk m) in
  (cleaned,
   {| current_session := current_session m; session_file := session_file m;
      disk := files; journal := journal m |}).

(** The files the clean-up removes. *)
Definition expired (now : Z) (stat : string -> option Z)
    (unlink_ok : string -> bool) (max_age_days : Z) (f : string) : bool :=
  match stat f with
  | Some mtime => (mtime <? now - max_age_days * microseconds_per_day)%Z && unlink_ok f
  | None => false
  end.

End Lifecycle.

(** ** main.py: the second classifier of provider errors *)

Module Provider.
Import PyStr Retry.

(** [is_unrecoverable_error(exc, status)] *)
Definition is_unrecoverable_error (exc : Exc) (status : option Z) : bool :=
  let status_code :=
    match status with
    | Some n => Some n
    | None => status_of exc
    end in
  let message := lower (exc_str exc) in
  if status_in status_code [401; 403] then true
  else if status_in status_code [429] && hard_rate_limit message then true
  else if match status_code with
          | Some n => negb (n =? 0)%Z && (400 <=? n)%Z && (n <? 500)%Z
          | None => false
          end then true
  else false.

(** The status the two classifiers look at: the [status] argument,
    or the first status attribute of the exception that converts. *)
Definition effective_status (exc : Exc) (status : option Z) : option Z :=
  match status with
  | Some n => Some n
  | None => status_of exc
  end.

(** The object [getattr(exc, "response", None)], with the three
    attributes the probing loop looks at. *)
Record Response := {
  resp_status_code : Attr;
  resp_status : Attr;
  resp_http_status : Attr
}.

(** An exception together with its [response] attribute. *)
Record ExcWithResponse := {
  exc_self : Exc;
  exc_response : option Response
}.

(** [_extract_status_from_exception(exc)] *)
Definition extract_status_from_exception (e : ExcWithResponse) : option Z :=
  match probe [exc_status_code (exc_self e); exc_status (exc_self e);
               exc_http_status (exc_self e)] with
  | Some n => Some n
  | None =>
      match exc_response e with
      | Some resp => probe [resp_status_code resp; resp_status resp;
                            resp_http_status resp]
      | None => None
      end
  end.


(** The pass raised. *)
Definition failed (body : nat -> Attempt) (k : nat) : bool :=
  match body k with
  | Failed _ => true
  | _ => false
  end.


End Provider.

(** ** qa_agent.py: the triage of review issues *)

Module QAHelpers.
Import PyStr Py.

(** The [keywords] dict of [_categorize_issues], in its order. *)
Definition keywords : list (string * list string) :=
  [ ("prose", ["grammar"; "spelling"; "punctuation"; "sentence"; "awkward";
               "clunky"; "repetitive"; "word choice"]);
    ("show_dont_tell", ["tell"; "show"; "sensory"; "abstract"; "exposition";
                        "info-dump"; "describe"; "felt"; "was sad"; "was angry"]);
    ("dialogue", ["dialogue"; "speech"; "voice"; "conversation"; "subtext";
                  "talking"; "said"; "generic"]);
    ("pacing", ["pace"; "pacing"; "slow"; "fast"; "rushed"; "dragging"; "tension";
                "rhythm"; "scene"]);
    ("theme", ["theme"; "meaning"; "resonance"; "emotional"; "impact"; "message";
               "universal"]);
    ("character", ["character"; "motivation"; "interiority"; "depth"; "flat";
                   "personality"; "thought"; "feeling"]);
    ("xfactor", ["original"; "unique"; "voice"; "wow"; "predictable"; "cliche";
                 "fresh"]) ].

(** The [categories] dict: a list of issues per category, in the
    order of insertion. *)
Definition Categories : Type := list (string * list string).

Definition empty_categories : Categories :=
  [ ("prose", []); ("show_dont_tell", []); ("dialogue", []); ("pacing", []);
    ("theme", []); ("character", []); ("xfactor", []) ].

(** [categories[category]] *)
Fixpoint issues_of (category : string) (cats : Categories) : list string :=
  match cats with
  | [] => []
  | (c, l) :: rest => if String.eqb c category then l else issues_of category rest
  end.

(** [categories[category].append(issue)] *)
Definition append_issue (category issue : string) (cats : Categories) : Categories :=
  map (fun '(c, l) => if String.eqb c category then (c, l ++ [issue]) else (c, l)) cats.

(** The inner [for category, kws in keywords.items()] with its
    [break]: the first category one of whose keywords occurs. *)
Fixpoint first_match (issue_lower : string) (kws : list (string * list string))
    : option string :=
  match kws with
  | [] => None
  | (category, words) :: rest =>
      if existsb (fun kw => contains kw issue_lower) words then Some category
      else first_match issue_lower rest
  end.

(** The category an issue is filed under; "prose" when no keyword
    occurs. *)
Definition category_of (issue : string) : string :=
  default "prose" (first_match (lower issue) keywords).

(** The body of [for issue in issues:] *)
Definition categorize_one (cats : Categories) (issue : string) : Categories :=
  append_issue (category_of issue) issue cats.

(** [_categorize_issues(issues)] *)
Definition categorize_issues (issues : list string) : Categories :=
  fold_left categorize_one issues empty_categories.

(** The keywords of "xfactor" other than "voice". *)
Definition originality_words : list string :=
  ["original"; "unique"; "wow"; "predictable"; "cliche"; "fresh"].

End QAHelpers.

(** ** The agent loops, with a count of the model calls *)

Module Metering.
Import Py Chat.

Section Meter.
Context {World Args : Type}.
Variable chat_create :
  CallParams -> list Message -> World -> Outcome ModelMessage * World.
Variable tool_map : string -> option (Args -> World -> Outcome string * World).

(** The endpoint, counting the calls made to it. *)
Definition metered_create (p : CallParams) (messages : list Message)
    (st : World * nat) : Outcome ModelMessage * (World * nat) :=
  let '(o, w') := chat_create p messages st.1 in (o, (w', S st.2)).

(** The tools; they do not call the endpoint. *)
Definition metered_tools (name : string)
    : option (Args -> World * nat -> Outcome string * (World * nat)) :=
  match tool_map name with
  | Some tool =>
      Some (fun args st => let '(o, w') := tool args st.1 in (o, (w', st.2)))
  | None => None
  end.

End Meter.
End Metering.

(** ** agents/settings_agent.py: the validation of the environment *)

Module Settings.
Import PyStr Py.

(** The [.env] file: absent, read, or failing to open. *)
Inductive EnvFile :=
| NoEnvFile
| EnvContent (content : string)
| EnvUnreadable (e : string).

(** What the checks find outside the process. *)
Record Environment := {
  env_file : EnvFile;
  getenv : string -> option string;          (* os.getenv(name) *)
  output_dir_error : option string;          (* the exception of mkdir, write_text, unlink *)
  importable : string -> bool;               (* __import__(package) does not raise ImportError *)
  output_absolute : string;                  (* str(Path("output").absolute()) *)
  logs_absolute : string
}.

(** The [config] dict once [_build_config] has run: every branch sets
    the same six keys; ["model"] can be [None]. *)
Record Config := {
  provider : string;
  api_key : string;
  base_url : string;
  model : option string;
  output_dir : string;
  log_dir : string
}.

(** [os.getenv(name, default)] *)
Definition getenv_or (env : Environment) (name dflt : string) : string :=
  default dflt (getenv env name).

(** [sep.join(l)] *)
Fixpoint join (sep : string) (l : list string) : string :=
  match l with
  | [] => ""
  | [x] => x
  | x :: rest => x +:+ sep +:+ join sep rest
  end.

(** [_check_env_file]: the errors and the warnings it appends. *)
Definition check_env_file (env : Environment) : list string * list string :=
  match env_file env with
  | NoEnvFile =>
      ([], [".env file not found - will use environment variables or defaults"])
  | EnvContent content =>
      ([], if truthy (strip content) then [] else [".env file is empty"])
  | EnvUnreadable e => (["Cannot read .env file: " +:+ e], [])
  end.

(** [_check_api_keys]: provider, api key (none yet for Ollama), base
    url (for Ollama only), and the warning. *)
Definition check_api_keys (env : Environment)
    : string * option string * option string * list string :=
  let openrouter_key := getenv env "OPENROUTER_API_KEY" in
  let moonshot_key := getenv env "MOONSHOT_API_KEY" in
  let ollama_base := getenv_or env "OLLAMA_BASE_URL" "http://localhost:11434/v1" in
  if truthy (default "" openrouter_key)
  then ("openrouter", openrouter_key, None, [])
  else if truthy (default "" moonshot_key)
       then ("moonshot", moonshot_key, None, [])
       else ("ollama", None, Some ollama_base,
             ["No API keys found - attempting Ollama at " +:+ ollama_base]).

(** [_check_output_directory] *)
Definition check_output_directory (env : Environment) : list string :=
  match output_dir_error env with
  | Some e => ["Cannot write to output directory: " +:+ e]
  | None => []
  end.

Definition required_packages : list string :=
  ["openai"; "rich"; "dotenv"; "prompt_toolkit"].

(** [_check_dependencies] *)
Definition check_dependencies (env : Environment) : list string :=
  let missing := List.filter (fun p => negb (importable env p)) required_packages in
  match missing with
  | [] => []
  | _ => [ "Missing required packages: " +:+ join ", " missing;
           "Run: pip install -r requirements.txt" ]
  end.

(** [_build_config], on what [_check_api_keys] left in the dict. *)
Definition build_config (env : Environment)
    (found : string * option string * option string) : Config :=
  let '(prov, key, base) := found in
  if String.eqb prov "openrouter" then
    {| provider := prov; api_key := default "" key;
       base_url := getenv_or env "OPENROUTER_BASE_URL" "https://openrouter.ai/api/v1";
       model := getenv env "OPENROUTER_MODEL";
       output_dir := output_absolute env; log_dir := logs_absolute env |}
  else if String.eqb prov "moonshot" then
    {| provider := prov; api_key := default "" key;
       base_url := getenv_or env "MOONSHOT_BASE_URL" "https://api.moonshot.ai/v1";
       model := Some (getenv_or env "MOONSHOT_MODEL" "moonshot-v1");
       output_dir := output_absolute env; log_dir := logs_absolute env |}
  else
    {| provider := prov; api_key := "ollama"; base_url := default "" base;
       model := Some (getenv_or env "OLLAMA_MODEL" "qwen2.5-coder:7b");
       output_dir := output_absolute env; log_dir := logs_absolute env |}.

(** [SettingsAgent().validate()]: (success, config, errors, warnings) *)
Definition validate (env : Environment) : bool * Config * list string * list string :=
  let '(errors1, warnings1) := check_env_file env in
  let '(prov, key, base, warnings2) := check_api_keys env in
  let errors2 := check_output_directory env in
  let errors3 := check_dependencies env in
  let config := build_config env (prov, key, base) in
  let errors := errors1 ++ errors2 ++ errors3 in
  let warnings := warnings1 ++ warnings2 in
  (match errors with [] => true | _ => false end, config, errors, warnings).

(** An environment variable that is set and not empty. *)
Definition is_set (env : Environment) (name : string) : Prop :=
  exists v, getenv env name = Some v /\ v <> "".

End Settings.

(** ** agents/writer_agent.py: the units to write, the choice of a draft *)

Module Writer.
Import PyStr Re Py Agents.

(** [(\d+)[-\s]*(chapter)] at the start of [s]: group 1. *)
Definition chapter_attempt (s : string) : option string :=
  let '(d, r) := span isdigit s in
  if truthy d then
    let '(_, r1) := span (fun c => is_dash c || isspace c) r in
    match lit "chapter" r1 with
    | Some _ => Some d
    | None => None
    end
  else None.

(** [range(1, count + 1)] *)
Definition numbers (count : Z) : list Z := map Z.of_nat (seq 1 (Z.to_nat count)).

(** [_analyze_request(user_prompt)]: the units, each a type and a
    number. *)
Definition analyze_request (user_prompt : string) : list (string * Z) :=
  let prompt_lower := lower user_prompt in
  let '(count, unit_type) :=
    match search episode_attempt prompt_lower with
    | Some d => (int_of_digits d, "episode")
    | None =>
        match search chapter_attempt prompt_lower with
        | Some d => (int_of_digits d, "chapter")
        | None => (1, "chapter")
        end
    end in
  map (fun i => (unit_type, i)) (numbers count).

(** [type(v).__name__] *)
Definition type_name (v : Value) : string :=
  match v with
  | VNone => "NoneType"
  | VBool _ => "bool"
  | VInt _ => "int"
  | VStr _ => "str"
  | VList _ => "list"
  | VConfig _ => "dict"
  end.

Section Units.
Context {World Ctx : Type}.
(** What [_load_context] finds under a project path: the story bible
    and the analysis plan, each [None] when its file is missing or
    cannot be read (every failure of a read is caught). *)
Variable read_context : string -> World -> Ctx.
(** Draft, critique, sensory pass, polish and save of one unit, with
    the context loaded: the number of words of the final content;
    [write] catches nothing. *)
Variable process_unit :
  Ctx -> string * Z -> string -> World -> Outcome Z * World.

(** [_load_context()]: [os.path.join(self.project_path, ...)] raises
    TypeError unless the project path is a string. *)
Definition load_context (project_path : Value) (w : World) : Outcome Ctx :=
  match project_path with
  | VStr path => Returned (read_context path w)
  | _ => Raised ("TypeError: expected str, bytes or os.PathLike object, not "
                 +:+ type_name project_path)
  end.

(** The loop [for unit in structure:] with its running total. *)
Fixpoint write_loop (context : Ctx) (structure : list (string * Z))
    (user_prompt : string) (total_words : Z) (w : World) : Outcome Z * World :=
  match structure with
  | [] => (Returned total_words, w)
  | unit :: rest =>
      match process_unit context unit user_prompt w with
      | (Returned words, w') =>
          write_loop context rest user_prompt (total_words + words) w'
      | (Raised e, w') => (Raised e, w')
      end
  end.

(** [WriterAgent(..., project_path).write(user_prompt)] *)
Definition write (project_path : Value) (user_prompt : string) (w : World)
    : Outcome Dict * World :=
  let structure := analyze_request user_prompt in
  match load_context project_path w with
  | Raised e => (Raised e, w)
  | Returned context =>
      match write_loop context structure user_prompt 0 w with
      | (Returned total_words, w') =>
          (Returned
             (dict_of [ ("success", VBool true); ("word_count", VInt total_words);
                        ("message",
                         VStr "Writing complete with Draft-Critique-Polish pipeline");
                        ("iterations", VInt (Z.of_nat (length structure) * 3)) ]), w')
      | (Raised e, w') => (Raised e, w')
      end
  end.




(** The model call of [_select_best_draft]: the content of the
    answer. *)
Variable judge : list string -> string * Z -> World -> Outcome (option string) * World.


End Units.
End Writer.

(** ** tools/project.py: the name of a project folder *)

Module Project.
Import PyStr Py.

(** [s.replace(old, new)] for one-character [old] and [new]. *)
Fixpoint replace_char (old new : ascii) (s : string) : string :=
  match s with
  | EmptyString => EmptyString
  | String c s' =>
      String (if Ascii.eqb c old then new else c) (replace_char old new s')
  end.

(** [\w] on ASCII text: a letter, a digit or the underscore. *)
Definition is_word (c : ascii) : bool :=
  let n := code c in
  ((48 <=? n)%nat && (n <=? 57)%nat) || ((65 <=? n)%nat && (n <=? 90)%nat)
  || ((97 <=? n)%nat && (n <=? 122)%nat) || Ascii.eqb c "_".

(** The class [[\w\-]]. *)
Definition is_name_char (c : ascii) : bool := is_word c || Ascii.eqb c "-".

(** [re.sub(r"[^...]", "", s)]: the characters of the class, in order. *)
Fixpoint keep (p : ascii -> bool) (s : string) : string :=
  match s with
  | EmptyString => EmptyString
  | String c s' => if p c then String c (keep p s') else keep p s'
  end.

(** The characters [strip("-_")] removes. *)
Definition is_trim (c : ascii) : bool := Ascii.eqb c "-" || Ascii.eqb c "_".

(** [sanitize_folder_name(name)] *)
Definition sanitize_folder_name (name : option string) : Outcome string :=
  let raw := strip (default "" name) in
  let raw1 := replace_char "\" "_" (replace_char "/" "_" raw) in
  if negb (truthy raw1) then Raised "Invalid project name: empty"
  else if contains ".." raw1 then Raised "Invalid project name: contains '..'"
  else
    let raw2 := replace_char " " "_" raw1 in
    let sanitized := keep is_name_char raw2 in
    let sanitized1 := rstrip_by is_trim (lstrip_by is_trim sanitized) in
    if negb (truthy sanitized1)
    then Raised "Invalid project name: no valid characters after sanitization"
    else if String.eqb sanitized1 "." || String.eqb sanitized1 ".."
         then Raised "Invalid project name: reserved name"
         else Returned sanitized1.

(** A character of ASCII text. *)
Definition is_ascii (c : ascii) : bool := (code c <? 128)%nat.

Definition first_char (s : string) : option ascii :=
  match s with
  | EmptyString => None
  | String c _ => Some c
  end.

Fixpoint last_char (s : string) : option ascii :=
  match s with
  | EmptyString => None
  | String c EmptyString => Some c
  | String _ s' => last_char s'
  end.

(** A name made of letters, digits, "_" and "-" only, that neither
    begins nor ends with "-" or "_". *)
Definition safe_name (s : string) : Prop :=
  s <> "" /\ all_chars is_name_char s = true /\
  (forall c, first_char s = Some c -> is_trim c = false) /\
  (forall c, last_char s = Some c -> is_trim c = false).

End Project.

(** ** utils.py, qa_agent.py, main.py: text made safe for the console and the log *)

Module Unicode.
Import Py.

(** A Python [str] as the list of its code points. *)
Definition ustr : Type := list N.

Definition is_ascii_point (c : N) : bool := (c <? 128)%N.

(** [text.encode("ascii", "ignore").decode("ascii")] *)
Definition ascii_ignore (t : ustr) : ustr := List.filter is_ascii_point t.

(** [text.replace(old, new)] for a one-character [old]. *)
Definition replace1 (old : N) (new : ustr) (t : ustr) : ustr :=
  flat_map (fun c => if (c =? old)%N then new else [c]) t.

(** [for old, new in table.items(): text = text.replace(old, new)] *)
Definition replace_all (table : list (N * ustr)) (t : ustr) : ustr :=
  fold_left (fun acc '(old, new) => replace1 old new acc) table t.

(** *** utils.py *)

(** [_remove_surrogates(text)] *)
Definition remove_surrogates (t : ustr) : ustr :=
  List.filter (fun c => negb ((55296 <=? c)%N && (c <=? 57343)%N)) t.   (* D800..DFFF *)

Definition emoji_ranges : list (N * N) :=
  [ (126976, 129791)%N;      (* 1F000..1FAFF *)
    (9728, 9983)%N;          (* 2600..26FF *)
    (9984, 10175)%N ].       (* 2700..27BF *)

Definition emoji_skip : list N := [65039; 65038; 8205]%N.   (* FE0F, FE0E, 200D *)

Definition is_common_emoji (cp : N) : bool :=
  existsb (N.eqb cp) emoji_skip
  || existsb (fun '(a, b) => (a <=? cp)%N && (cp <=? b)%N) emoji_ranges.

(** [_remove_common_emoji(text)] *)
Definition remove_common_emoji (t : ustr) : ustr :=
  List.filter (fun cp => negb (is_common_emoji cp)) t.

(** [sanitize_text(text)] on a [str] *)
Definition sanitize_text (t : ustr) : ustr :=
  remove_common_emoji (remove_surrogates t).

(** A code point [sanitize_text] removes. *)
Definition is_removed (c : N) : bool :=
  ((55296 <=? c)%N && (c <=? 57343)%N) || is_common_emoji c.

(** [_ASCII_UI_REPLACEMENTS], in its order; the replacements are
    ASCII strings. *)
Definition ASCII_UI_REPLACEMENTS : list (N * ustr) :=
  [ (8594, [45; 62]);        (* right arrow: "->" *)
    (8776, [126]);           (* almost equal: "~" *)
    (8220, [34]);            (* left double quote *)
    (8221, [34]);            (* right double quote *)
    (8217, [39]);            (* right single quote *)
    (8216, [39]);            (* left single quote *)
    (8212, [45]);            (* em dash: "-" *)
    (8211, [45]);            (* en dash: "-" *)
    (8230, [46; 46; 46]);    (* ellipsis: "..." *)
    (128194, []) ]%N.        (* open file folder: "" *)

Section Normalize.
(** [unicodedata.normalize("NFKD", text)] *)
Variable nfkd : ustr -> ustr.

(** [ascii_only_ui(text)] *)
Definition ascii_only_ui (text : option ustr) : option ustr :=
  match text with
  | None => None
  | Some t => Some (ascii_ignore (nfkd (replace_all ASCII_UI_REPLACEMENTS t)))
  end.

(** The code points at which [str.splitlines] ends a line. *)
Definition is_line_boundary (c : N) : bool :=
  existsb (N.eqb c) [10; 13; 11; 12; 28; 29; 30; 133; 8232; 8233]%N.

(** [text.splitlines()]: the lines without their ends; "\r\n" ends
    one line, and a line end at the end of the text opens no further
    line.  [line] is the current line, last character first. *)
Fixpoint splitlines_from (line : ustr) (t : ustr) : list ustr :=
  match t with
  | [] => match line with [] => [] | _ => [rev line] end
  | c :: t' =>
      if is_line_boundary c then
        match t' with
        | c' :: t'' =>
            if (c =? 13)%N && (c' =? 10)%N
            then rev line :: splitlines_from [] t''
            else rev line :: splitlines_from [] t'
        | [] => [rev line]
        end
      else splitlines_from (c :: line) t'
  end.

Definition splitlines (t : ustr) : list ustr := splitlines_from [] t.

(** [_format_prompt_snippet(prompt)] of main.py; it raises when the
    prompt has no first line. *)
Definition format_prompt_snippet (prompt : option ustr) : Outcome ustr :=
  match splitlines (default [] prompt) with
  | [] => Raised "IndexError: list index out of range"
  | snippet :: _ =>
      Returned (take 120 (default [] (ascii_only_ui (Some snippet))))
  end.

End Normalize.

(** *** qa_agent.py *)

(** The [replacements] dict of [_sanitize_unicode], in its order. *)
Definition qa_replacements : list (N * ustr) :=
  [ (8594, [45; 62]);            (* right arrow: "->" *)
    (8592, [60; 45]);            (* left arrow: "<-" *)
    (8212, [45; 45]);            (* em dash: "--" *)
    (8211, [45]);                (* en dash: "-" *)
    (8220, [34]);                (* left double quote *)
    (8221, [34]);                (* right double quote *)
    (8216, [39]);                (* left single quote *)
    (8217, [39]);                (* right single quote *)
    (8230, [46; 46; 46]);        (* ellipsis: "..." *)
    (233, [101]);                (* e acute: "e" *)
    (241, [110]);                (* n tilde: "n" *)
    (8226, [45]);                (* bullet: "-" *)
    (183, [45]);                 (* middle dot: "-" *)
    (10003, [91; 79; 75; 93]);   (* check mark: "[OK]" *)
    (10007, [91; 88; 93]);       (* ballot x: "[X]" *)
    (160, [32]) ]%N.             (* no-break space: " " *)

(** [_sanitize_unicode(text)] *)
Definition sanitize_unicode (t : ustr) : ustr :=
  ascii_ignore (replace_all qa_replacements t).

(** What becomes of one code point: its replacement when the table
    has one, itself when it is ASCII, nothing otherwise. *)
Definition translate (table : list (N * ustr)) (c : N) : ustr :=
  match List.find (fun '(old, _) => (c =? old)%N) table with
  | Some (_, new) => new
  | None => if is_ascii_point c then [c] else []
  end.

End Unicode.

(** ** Sample sessions and agents *)

Module Samples.
Import PyStr Py Chat Agents Sessions Orchestrator Lifecycle Metering Scenario.

(** A session as [create_session] writes it. *)
Definition fresh_session : Session :=
  {| session_id := "20250101_000000"; user_prompt := "A lighthouse story";
     created_at := "2025-01-01T00:00:00"; updated_at := "2025-01-01T00:00:00";
     status := "in_progress"; current_stage := "settings";
     completed_stages := []; project_path := VNone; results := ∅;
     qa_iterations := 0; final_score := VNone; error := None |}.

(** The same session after settings, planning and writing. *)
Definition written_session : Session :=
  {| session_id := "20250101_000000"; user_prompt := "A lighthouse story";
     created_at := "2025-01-01T00:00:00"; updated_at := "2025-01-01T00:05:00";
     status := "in_progress"; current_stage := "qa";
     completed_stages := ["settings"; "planning"; "writing"];
     project_path := VStr "output/lighthouse";
     results :=
       list_to_map
         [ ("settings", dict_of [ ("success", VBool true); ("config", VConfig ∅) ]);
           ("planning", dict_of [ ("success", VBool true);
                                  ("project_path", VStr "output/lighthouse") ]);
           ("writing", dict_of [ ("success", VBool true) ]) ];
     qa_iterations := 0; final_score := VNone; error := None |}.

(** The same session, failed at the planning stage. *)
Definition failed_session : Session :=
  {| session_id := "20250101_000000"; user_prompt := "A lighthouse story";
     created_at := "2025-01-01T00:00:00"; updated_at := "2025-01-01T00:01:00";
     status := "failed"; current_stage := "planning";
     completed_stages := ["settings"]; project_path := VNone; results := ∅;
     qa_iterations := 0; final_score := VNone;
     error := Some "Story planning failed" |}.

(** A manager that holds [s], saved in its file. *)
Definition holding (s : Session) : Manager :=
  {| current_session := Some s; session_file := Some (file_of (session_id s));
     disk := {[ file_of (session_id s) := s ]}; journal := [] |}.

(** A directory with the file of [s], and a manager that has not
    loaded it. *)
Definition directory_with (s : Session) : Manager :=
  new_manager {[ file_of (session_id s) := s ]}.

(** Agents over a world without state. *)
Definition checks_pass (w : unit)
    : (gmap string string * list string * list string) * unit := ((∅, [], []), w).
Definition checks_fail (w : unit)
    : (gmap string string * list string * list string) * unit :=
  ((∅, ["Cannot write to output directory: read-only"], []), w).
Definition client_starts (_ : Value) (w : unit) : Outcome unit * unit := (Returned tt, w).
Definition planner_fails (_ : string) (w : unit) : Outcome Dict * unit :=
  (Returned (dict_of [ ("success", VBool false);
                       ("error", VStr "Max planning iterations reached without completion") ]),
   w).
Definition planner_raises (_ : string) (w : unit) : Outcome Dict * unit :=
  (Raised "planner called", w).
Definition writer_raises (_ : Value) (_ : string) (w : unit) : Outcome Dict * unit :=
  (Raised "writer called", w).
Definition writer_writes (_ : Value) (_ : string) (w : unit) : Outcome Dict * unit :=
  (Returned (dict_of [ ("success", VBool true) ]), w).
Definition review_approves (_ : unit) (_ : Value) (w : unit)
    : Outcome (Dict * unit) * unit :=
  (Returned (dict_of [ ("score", VInt 93); ("approved", VBool true);
                       ("success", VBool true) ], tt), w).
Definition revise_raises (_ : unit) (_ : Value) (_ : Dict) (w : unit)
    : Outcome (Dict * unit) * unit := (Raised "revision called", w).
Definition validation_approves (_ : Value) (w : unit) : Outcome Dict * unit :=
  (Returned (dict_of [ ("errors", VList []); ("warnings", VList []);
                       ("approved", VBool true); ("success", VBool true) ]), w).
Definition fix_raises (_ : Value) (_ : Dict) (w : unit) : Outcome Dict * unit :=
  (Raised "fix called", w).

Definition revise_revises (_ : unit) (_ : Value) (_ : Dict) (w : unit)
    : Outcome (Dict * unit) * unit :=
  (Returned (dict_of [ ("revised", VBool true) ], tt), w).
Definition fix_fixes (_ : Value) (_ : Dict) (w : unit) : Outcome Dict * unit :=
  (Returned (dict_of [ ("fixed", VBool true) ]), w).


(** A planner that made its plan in a project directory. *)
Definition planner_plans (_ : string) (w : unit) : Outcome Dict * unit :=
  (Returned (dict_of [ ("success", VBool true);
                       ("project_path", VStr "output/lighthouse") ]), w).

(** A run in which the planner plans, the writer writes and both gates
    approve, with a choice of the two remediation steps. *)
Definition approved_run
    (revise : unit -> Value -> Dict -> unit -> Outcome (Dict * unit) * unit)
    (repair : Value -> Dict -> unit -> Outcome Dict * unit)
    : Outcome Results * (Manager * unit) :=
  run clock_id clock_iso checks_pass client_starts planner_plans writer_writes tt
      review_approves revise validation_approves repair
      "A lighthouse story" None (new_manager ∅, tt).

(** A model that claims its fixes are done and, asked to check, finds
    one error left, on an endpoint that counts its calls. *)
Definition claims_fixed : ModelMessage :=
  says "CONSISTENCY FIXES COMPLETE. CONSISTENCY CHECK COMPLETE: Errors: 1 Approved: No".
Definition counting_endpoint
    : CallParams -> list Message -> unit * nat -> Outcome ModelMessage * (unit * nat) :=
  metered_create (constant_create claims_fixed).

(** An endpoint that is down. *)
Definition endpoint_down (_ : CallParams) (_ : list Message) (w : unit)
    : Outcome ModelMessage * unit := (Raised "Error code: 503", w).

(** A validation result with one error. *)
Definition one_error : Dict :=
  dict_of [ ("errors", VList ["Sarah becomes Sara in chapter 2"]);
            ("warnings", VList []); ("approved", VBool false);
            ("success", VBool true) ].

End Samples.

(** * Properties *)

(** ** Retry classification and backoff *)

Section RetryFacts.
Import PyStr Retry.















End RetryFacts.






(** A status 408 is classified as not transient: the test for "other
    4xx" comes before the list of transient statuses. *)
Example request_timeout_not_transient :
  Retry.is_transient_error (Retry.http_error 408 "Request Timeout") None = false.
Proof. reflexivity. Qed.

(** ** Completion reports *)

Section SearchFacts.
Import PyStr Re.
Context {A : Type}.




End SearchFacts.

Section PatternFacts.
Import PyStr Re Py Report.

Lemma lower_length (s : string) : String.length (lower s) = String.length s.
Proof. induction s; simpl; congruence. Qed.

Lemma lit_ci_split (p s r : string) :
  lit_ci p s = Some r ->
  exists head, s = head +:+ r /\ lower head = lower p.
Proof.
  revert s. induction p as [|a p IH]; intros s; simpl.
  - intros [= ->]. now exists "".
  - destruct s as [|b s]; [discriminate|].
    destruct (Ascii.eqb_spec (lower_char a) (lower_char b)) as [E|E]; [|discriminate].
    intros H. destruct (IH s H) as (head & -> & Hl).
    exists (String b head). simpl. now rewrite Hl, E.
Qed.

Lemma lit_ci_app (p head r : string) :
  lower head = lower p -> lit_ci p (head +:+ r) = Some r.
Proof.
  revert head. induction p as [|a p IH]; intros [|b head]; simpl; try discriminate.
  - reflexivity.
  - intros [= Hc Hl]. rewrite Hc, Ascii.eqb_refl. now apply IH.
Qed.

Lemma lit_ci_none (p head r : string) :
  String.length head = String.length p -> lower head <> lower p ->
  lit_ci p (head +:+ r) = None.
Proof.
  revert head. induction p as [|a p IH]; intros [|b head]; simpl; try discriminate.
  - congruence.
  - intros [= Hlen] Hne.
    destruct (Ascii.eqb_spec (lower_char a) (lower_char b)) as [E|E]; [|reflexivity].
    apply IH; [exact Hlen|]. intros Hl. apply Hne. now rewrite Hl, E.
Qed.

Lemma span_split (p : ascii -> bool) (s a b : string) :
  span p s = (a, b) ->
  s = a +:+ b /\ all_chars p a = true /\
  match b with EmptyString => True | String c _ => p c = false end.
Proof.
  revert a b. induction s as [|c s IH]; intros a b; simpl.
  - intros [= <- <-]. now repeat split.
  - destruct (p c) eqn:Hc.
    + destruct (span p s) as [r t]. intros [= <- <-].
      destruct (IH r t eq_refl) as (-> & Hr & Ht). simpl. now rewrite Hc, Hr.
    + intros [= <- <-]. now repeat split.
Qed.

Lemma lit_split (p s r : string) : lit p s = Some r <-> s = p +:+ r.
Proof.
  revert s. induction p as [|a p IH]; intros s; simpl.
  - split; [now intros [= ->]|now intros ->].
  - destruct s as [|b s]; [split; discriminate|].
    destruct (Ascii.eqb_spec a b) as [->|E].
    + rewrite IH. split; [now intros ->|now intros [= ->]].
    + split; [discriminate|]. intros H. injection H as Hab _. congruence.
Qed.

Lemma digit_not_space (c : ascii) : isdigit c = true -> isspace c = false.
Proof.
  destruct c as [[] [] [] [] [] [] [] []]; vm_compute; intros H;
    try reflexivity; discriminate H.
Qed.

Lemma span_app (p : ascii -> bool) (a b : string) :
  all_chars p a = true ->
  match b with EmptyString => True | String c _ => p c = false end ->
  span p (a +:+ b) = (a, b).
Proof.
  intros Ha Hb. induction a as [|c a IH]; simpl in *.
  - destruct b as [|c b]; simpl; [reflexivity|now rewrite Hb].
  - apply andb_true_iff in Ha as [Hc Ha]. now rewrite Hc, (IH Ha).
Qed.

Lemma substring_app (w rest : string) :
  String.substring 0 (String.length w) (w +:+ rest) = w.
Proof.
  induction w as [|c w IH]; simpl.
  - now destruct rest.
  - now rewrite IH.
Qed.

Lemma lower_char_not_space (c : ascii) :
  lower_char c = "y"%char \/ lower_char c = "n"%char -> isspace c = false.
Proof.
  destruct c as [[] [] [] [] [] [] [] []]; vm_compute; intros [H|H];
    try reflexivity; discriminate H.
Qed.

(** [approval_line] is the occurrence of an approval line at the start
    of the text. *)
Lemma approval_line_spec (yes : bool) (t : string) :
  approval_line yes t = true <-> begins_with_approval yes t.
Proof.
  unfold approval_line, approved_attempt, begins_with_approval. split.
  - destruct (lit_ci "Approved:" t) as [r|] eqn:Hhead; [|discriminate].
    apply lit_ci_split in Hhead as (head & -> & Hhead).
    destruct (span isspace r) as [ws r1] eqn:Hws.
    apply span_split in Hws as (-> & Hws & _).
    destruct (lit_ci "Yes" r1) as [rest|] eqn:Hyes;
      [|destruct (lit_ci "No" r1) as [rest|] eqn:Hno; [|discriminate]].
    + apply lit_ci_split in Hyes as (word & -> & Hword).
      assert (Hlen : String.length word = 3%nat)
        by (rewrite <- lower_length, Hword; reflexivity).
      rewrite <- Hlen, substring_app. unfold says_yes. rewrite Hword.
      destruct yes; [|discriminate]. intros _.
      exists head, ws, word, rest. auto.
    + apply lit_ci_split in Hno as (word & -> & Hword).
      assert (Hlen : String.length word = 2%nat)
        by (rewrite <- lower_length, Hword; reflexivity).
      rewrite <- Hlen, substring_app. unfold says_yes. rewrite Hword.
      destruct yes; [discriminate|]. intros _.
      exists head, ws, word, rest. auto.
  - intros (head & ws & word & rest & -> & Hhead & Hws & Hword).
    rewrite (lit_ci_app "Approved:" head _ Hhead).
    assert (Hfirst : match word +:+ rest with
                     | EmptyString => True
                     | String c _ => isspace c = false
                     end).
    { destruct word as [|c word]; [destruct yes; discriminate|]. simpl.
      apply lower_char_not_space. destruct yes; injection Hword as Hc _; auto. }
    rewrite (span_app isspace ws _ Hws Hfirst).
    destruct yes.
    + rewrite (lit_ci_app "Yes" word rest Hword).
      assert (Hlen : String.length word = 3%nat)
        by (rewrite <- lower_length, Hword; reflexivity).
      rewrite <- Hlen, substring_app. unfold says_yes. now rewrite Hword.
    + destruct word as [|c1 [|c2 [|c3 word]]]; try discriminate Hword.
      injection Hword as Hc1 Hc2.
      change (String c1 (String c2 "") +:+ rest) with (String c1 (String c2 rest)).
      cbn [lit_ci]. change (lower_char "Y") with "y"%char.
      rewrite Hc1. cbn [Ascii.eqb Bool.eqb].
      change (lower_char "N") with "n"%char. change (lower_char "o") with "o"%char.
      rewrite ?Hc1, ?Hc2, ?Ascii.eqb_refl.
      unfold says_yes. cbn [String.substring lower]. now rewrite ?Hc1, ?Hc2.
Qed.

(** A test that holds at some position of the text. *)
Lemma anywhere_spec (p : string -> bool) (s : string) :
  anywhere p s = true <-> exists before t, s = before +:+ t /\ p t = true.
Proof.
  split.
  - induction s as [|c s IH]; simpl.
    + rewrite orb_false_r. intros H. now exists "", "".
    + intros H. apply orb_true_iff in H as [H|H].
      * now exists "", (String c s).
      * destruct (IH H) as (before & t & -> & Ht). now exists (String c before), t.
  - intros (before & t & -> & Ht). induction before as [|c before IH]; simpl.
    + destruct t; simpl; now rewrite Ht.
    + rewrite IH. apply orb_true_r.
Qed.

Lemma positive_error_count_spec (t : string) :
  positive_error_count t = true <-> begins_with_positive_errors t.
Proof.
  unfold positive_error_count, errors_attempt, begins_with_positive_errors. split.
  - destruct (lit "Errors:" t) as [r|] eqn:Hhead; [|discriminate].
    apply lit_split in Hhead as ->.
    destruct (span isspace r) as [ws r1] eqn:Hws.
    apply span_split in Hws as (-> & Hws & _).
    destruct (span isdigit r1) as [digits rest] eqn:Hd.
    apply span_split in Hd as (-> & Hd & Hrest).
    destruct digits as [|c digits]; [discriminate|]. cbn [truthy].
    intros Hpos. exists ws, (String c digits), rest.
    repeat split; try assumption; [discriminate|now apply Z.ltb_lt].
  - intros (ws & digits & rest & -> & Hws & Hne & Hd & Hrest & Hpos).
    rewrite (proj2 (lit_split "Errors:" _ _) eq_refl).
    assert (Hfirst : match digits +:+ rest with
                     | EmptyString => True
                     | String c _ => isspace c = false
                     end).
    { destruct digits as [|c digits]; [contradiction|]. simpl in *.
      apply digit_not_space. now apply andb_true_iff in Hd as [Hc _]. }
    rewrite (span_app isspace ws _ Hws Hfirst).
    rewrite (span_app isdigit digits rest Hd Hrest).
    destruct digits as [|c digits]; [contradiction|]. cbn [truthy].
    now apply Z.ltb_lt.
Qed.

(** What the boolean tests on a report mean: some position of the text
    begins an approval line, or an error count that is positive. *)
Lemma approval_anywhere_spec (yes : bool) (s : string) :
  anywhere (approval_line yes) s = true <->
  exists before t, s = before +:+ t /\ begins_with_approval yes t.
Proof.
  rewrite anywhere_spec. split; intros (before & t & Hs & Ht); exists before, t;
    (split; [exact Hs|]); now apply approval_line_spec.
Qed.

Lemma positive_errors_anywhere_spec (s : string) :
  anywhere positive_error_count s = true <->
  exists before t, s = before +:+ t /\ begins_with_positive_errors t.
Proof.
  rewrite anywhere_spec. split; intros (before & t & Hs & Ht); exists before, t;
    (split; [exact Hs|]); now apply positive_error_count_spec.
Qed.

End PatternFacts.


Section ReportFacts.
Import PyStr Re Py Report.








Lemma final_threshold (iteration : Z) :
  (0 <= iteration)%Z -> Agents.get_context_aware_threshold "final" iteration = 90%Z.
Proof. intros H. unfold Agents.get_context_aware_threshold. simpl. lia. Qed.

End ReportFacts.





(** ** The stage loops *)

Section LoopFacts.
Import PyStr Py Chat Agents.
Context {World Args : Type}.
Variable json_loads : string -> option Args.
Variable chat_create :
  CallParams -> list Message -> World -> Outcome ModelMessage * World.
Variable tool_map : string -> option (Args -> World -> Outcome string * World).
Variable prompts : Prompts.

#[local] Abbreviation never_says := (Agents.never_says chat_create).

Lemma review_loop_exhausted (threshold : Z) (fuel : nat) :
  never_says "QA REVIEW COMPLETE" ->
  forall messages w, exists w',
    review_loop json_loads chat_create tool_map threshold fuel messages w = (inr None, w').
Proof.
  intros Hq. induction fuel as [|fuel IH]; intros messages w; simpl.
  - now exists w.
  - destruct (Hq (loop_params (3 # 10)) messages w) as (m & w1 & -> & ->).
    destruct (run_tool_calls _ _ _ _ _ _ _) as [[messages2 pp] w2].
    apply IH.
Qed.

Lemma validate_loop_exhausted (fuel : nat) :
  never_says "CONSISTENCY CHECK COMPLETE" ->
  forall messages w, exists w',
    validate_loop json_loads chat_create tool_map fuel messages w = (inr None, w').
Proof.
  intros Hq. induction fuel as [|fuel IH]; intros messages w; simpl.
  - now exists w.
  - destruct (Hq (loop_params (2 # 10)) messages w) as (m & w1 & -> & ->).
    destruct (run_tool_calls _ _ _ _ _ _ _) as [[messages2 pp] w2].
    apply IH.
Qed.

Lemma plan_loop_exhausted (fuel : nat) :
  never_says "PLANNING COMPLETE" ->
  forall iteration messages project_path w, exists w',
    plan_loop json_loads chat_create tool_map prompts fuel iteration messages
              project_path w = (planning_exhausted, w').
Proof.
  intros Hq. induction fuel as [|fuel IH]; intros iteration messages pp w; simpl.
  - now exists w.
  - destruct (Hq (loop_params (7 # 10)) messages w) as (m & w1 & -> & ->).
    destruct (run_tool_calls _ _ _ _ _ _ _) as [[messages2 pp2] w2].
    apply IH.
Qed.

(** C1, as amended.  When the model answers every call and never
    writes the sentinel of the stage, the QA review and the consistency
    validation use all their iterations and return an "incomplete"
    result with success True and approved False; the planner returns
    success False with the error "Max planning iterations reached
    without completion" (or raises before its loop, when the brainstorm
    answer has no content). *)
Theorem exhausted_iterations_results :
  (never_says "QA REVIEW COMPLETE" ->
   forall agent project_path file_path phase w,
     let result :=
       (review_content json_loads chat_create tool_map prompts agent project_path
                       file_path phase w).1.1 in
     result !! "success" = Some (VBool true) /\
     result !! "approved" = Some (VBool false) /\
     result !! "score" = Some (VInt 50)) /\
  (never_says "CONSISTENCY CHECK COMPLETE" ->
   forall project_path w,
     let result :=
       (validate_consistency json_loads chat_create tool_map prompts project_path w).1 in
     result !! "success" = Some (VBool true) /\
     result !! "approved" = Some (VBool false)) /\
  (never_says "PLANNING COMPLETE" ->
   (forall iteration messages project_path w,
      (plan_loop json_loads chat_create tool_map prompts planner_max_iterations
                 iteration messages project_path w).1 = planning_exhausted) /\
   planning_exhausted !! "success" = Some (VBool false) /\
   forall user_prompt w,
     match (brainstorm_concepts chat_create prompts user_prompt w).1 with
     | Some _ =>
         (plan json_loads chat_create tool_map prompts user_prompt w).1
           = Returned planning_exhausted
     | None =>
         exists e, (plan json_loads chat_create tool_map prompts user_prompt w).1
                     = Raised e
     end).
Proof.
  split; [|split].
  - intros Hq agent pp file phase w result. subst result.
    unfold review_content.
    destruct (review_loop_exhausted
                (get_context_aware_threshold phase (iteration_count agent + 1))
                qa_max_iterations Hq
                [system_msg (qa_system prompts); user_msg (qa_user prompts pp file)] w)
      as (w' & ->).
    simpl. repeat split; reflexivity.
  - intros Hq pp w result. subst result. unfold validate_consistency.
    destruct (validate_loop_exhausted consistency_max_iterations Hq
                [system_msg (consistency_system prompts);
                 user_msg (consistency_user prompts pp)] w) as (w' & ->).
    simpl. split; reflexivity.
  - intros Hq. split; [|split; [reflexivity|]].
    + intros iteration messages pp w.
      destruct (plan_loop_exhausted planner_max_iterations Hq iteration messages pp w)
        as (w' & ->). reflexivity.
    + intros user_prompt w. unfold plan.
      destruct (brainstorm_concepts chat_create prompts user_prompt w) as [[concept|] w1];
        cbn [fst].
      * destruct (hierarchical_planning _ _ _ _ w1) as [hp w2].
        match goal with
        | |- context [plan_loop _ _ _ _ ?f ?i ?ms ?pp ?w0] =>
            destruct (plan_loop_exhausted f Hq i ms pp w0) as (w3 & ->)
        end.
        reflexivity.
      * eexists. reflexivity.
Qed.

(** *** Tool calls *)

(** A tool that raises inside the planning, review or validation loop
    is answered by an [ERROR:] tool message with the id of the call;
    the remediation loops only log it. *)
Lemma tool_error_reported (track : bool) (tc : ToolCall) (args : Args)
    (tool : Args -> World -> Outcome string * World) (e : string)
    (messages : list Message) (project_path : Value) (w w' : World) :
  json_loads (tc_arguments tc) = Some args ->
  tool_map (tc_name tc) = Some tool ->
  tool args w = (Raised e, w') ->
  run_tool_call json_loads tool_map track true tc (messages, project_path) w
    = ((messages ++ [tool_msg tc ("ERROR: " +:+ e)], project_path), w').
Proof. intros Hj Ht He. unfold run_tool_call. now rewrite Hj, Ht, He. Qed.

Lemma tool_error_dropped (track : bool) (tc : ToolCall) (args : Args)
    (tool : Args -> World -> Outcome string * World) (e : string)
    (st : list Message * Value) (w w' : World) :
  json_loads (tc_arguments tc) = Some args ->
  tool_map (tc_name tc) = Some tool ->
  tool args w = (Raised e, w') ->
  run_tool_call json_loads tool_map track false tc st w = (st, w').
Proof.
  intros Hj Ht He. unfold run_tool_call. destruct st as [messages pp].
  now rewrite Hj, Ht, He.
Qed.

Lemma malformed_calls_skipped (track report : bool) (tcs : list ToolCall)
    (st : list Message * Value) (w : World) :
  Forall (fun tc => json_loads (tc_arguments tc) = None) tcs ->
  run_tool_calls json_loads tool_map track report tcs st w = (st, w).
Proof.
  induction 1 as [|tc rest Htc _ IH]; simpl; [reflexivity|].
  unfold run_tool_call. destruct st as [messages pp]. now rewrite Htc.
Qed.

(** C8, as amended.  A tool call whose arguments do not decode is
    skipped: in each of the five loops it leaves the history and the
    world as they are (no message is appended for it), and the calls
    after it are processed as if it were not there, so the stage goes
    on.  In particular an answer of the planning or the review loop
    whose calls are all malformed adds the assistant message only and
    the loop continues with the next iteration. *)
Theorem malformed_arguments_skip_the_call
    (track report : bool) (tc : ToolCall) (rest : list ToolCall)
    (st : list Message * Value) (w : World) :
  json_loads (tc_arguments tc) = None ->
  run_tool_call json_loads tool_map track report tc st w = (st, w) /\
  run_tool_calls json_loads tool_map track report (tc :: rest) st w
    = run_tool_calls json_loads tool_map track report rest st w /\
  (Forall (fun tc' => json_loads (tc_arguments tc') = None) rest ->
   forall fuel iteration threshold messages project_path m w1 p,
     chat_create p messages w = (Returned m, w1) ->
     mm_tool_calls m = tc :: rest ->
     (p = loop_params (7 # 10) ->
      contains "PLANNING COMPLETE" (content_or_empty m) = false ->
      plan_loop json_loads chat_create tool_map prompts (S fuel) iteration messages
                project_path w
      = plan_loop json_loads chat_create tool_map prompts fuel (S iteration)
                  (messages ++ [assistant_msg (content_or_empty m) (tc :: rest)])
                  project_path w1) /\
     (p = loop_params (3 # 10) ->
      contains "QA REVIEW COMPLETE" (content_or_empty m) = false ->
      review_loop json_loads chat_create tool_map threshold (S fuel) messages w
      = review_loop json_loads chat_create tool_map threshold fuel
                    (messages ++ [assistant_msg (content_or_empty m) (tc :: rest)]) w1)).
Proof.
  intros Htc.
  assert (H1 : run_tool_call json_loads tool_map track report tc st w = (st, w)).
  { unfold run_tool_call. destruct st as [messages pp]. now rewrite Htc. }
  split; [exact H1|]. split.
  - simpl. now rewrite H1.
  - intros Hrest fuel iteration threshold messages pp m w1 p Hcall Htcs.
    assert (Hall : Forall (fun tc' => json_loads (tc_arguments tc') = None) (tc :: rest))
      by now constructor.
    split; intros -> Hc; simpl; rewrite Hcall, Hc, Htcs;
      now rewrite (malformed_calls_skipped _ _ (tc :: rest) _ w1 Hall).
Qed.

End LoopFacts.

Lemma exhausted_iterations_results_witness :
  let quiet := Scenario.constant_create (W:=unit) (Scenario.says "Still thinking.") in
  (Agents.review_content Scenario.decode quiet Scenario.tools Scenario.no_prompts
     Agents.new_qa_agent (Py.VStr "output/x") "story.md" "final" tt).1.1 !! "approved"
    = Some (Py.VBool false) /\
  (Agents.validate_consistency Scenario.decode quiet Scenario.tools Scenario.no_prompts
     (Py.VStr "output/x") tt).1 !! "success" = Some (Py.VBool true) /\
  (Agents.plan Scenario.decode quiet Scenario.tools Scenario.no_prompts
     "A short story" tt).1 = Py.Returned Agents.planning_exhausted.
Proof.
  intros quiet.
  assert (Hq : forall sentinel,
             PyStr.contains sentinel "Still thinking." = false ->
             Agents.never_says quiet sentinel).
  { intros sentinel Hs p messages w. exists (Scenario.says "Still thinking."), w.
    split; [reflexivity|exact Hs]. }
  pose proof (exhausted_iterations_results Scenario.decode quiet Scenario.tools
                Scenario.no_prompts) as (Hqa & Hcons & Hplan).
  split; [|split].
  - exact (proj1 (proj2 (Hqa (Hq "QA REVIEW COMPLETE" eq_refl) Agents.new_qa_agent
                              (Py.VStr "output/x") "story.md" "final" tt))).
  - exact (proj1 (Hcons (Hq "CONSISTENCY CHECK COMPLETE" eq_refl) (Py.VStr "output/x") tt)).
  - exact (proj2 (proj2 (Hplan (Hq "PLANNING COMPLETE" eq_refl))) "A short story" tt).
Defined.

(** C1 as stated fails for the planner: with a model that never writes
    PLANNING COMPLETE the ten iterations are used and the stage result
    has success False. *)
Lemma planner_exhaustion_is_a_failure :
  exists result,
    Agents.plan Scenario.decode
      (Scenario.constant_create (W:=unit) (Scenario.says "Still planning."))
      Scenario.tools Scenario.no_prompts "A short story" tt = (Py.Returned result, tt) /\
    result !! "success" = Some (Py.VBool false) /\
    result !! "error"
      = Some (Py.VStr "Max planning iterations reached without completion") /\
    result !! "iterations" = Some (Py.VInt 10).
Proof. eexists. split; [reflexivity|]. repeat split; reflexivity. Qed.

Lemma malformed_arguments_skip_the_call_witness :
  Agents.run_tool_calls Scenario.decode (Scenario.tools (W:=unit)) false true
    [Scenario.malformed_read; Scenario.failing_write] ([], Py.VNone) tt
  = Agents.run_tool_calls Scenario.decode Scenario.tools false true
      [Scenario.failing_write] ([], Py.VNone) tt.
Proof.
  exact (proj1 (proj2 (malformed_arguments_skip_the_call Scenario.decode
           (Scenario.constant_create (W:=unit) (Scenario.says "Reading."))
           Scenario.tools Scenario.no_prompts false true Scenario.malformed_read
           [Scenario.failing_write] ([], Py.VNone) tt eq_refl))).
Defined.

(** C8 as stated fails: in a review whose first answer asks for a call
    with malformed arguments, the stage completes, and the history sent
    with the second model call holds the assistant message and no tool
    message for that call. *)
Lemma malformed_call_gets_no_message :
  let run :=
    Agents.review_content Scenario.decode Scenario.scripted_create Scenario.tools
      Scenario.no_prompts Agents.new_qa_agent (Py.VStr "output/x") "story.md" "final"
      (Scenario.start
         [ Py.Returned (Scenario.calls "Reading" [Scenario.malformed_read]);
           Py.Returned (Scenario.says "QA REVIEW COMPLETE Score: 91") ]) in
  run.1.1 !! "success" = Some (Py.VBool true) /\
  Scenario.sent run.2
    = [ [Chat.system_msg ""; Chat.user_msg ""];
        [Chat.system_msg ""; Chat.user_msg "";
         Chat.assistant_msg "Reading" [Scenario.malformed_read]] ] /\
  forallb (fun messages => negb (existsb (Chat.is_tool_msg_for "call_2") messages))
          (Scenario.sent run.2) = true.
Proof. repeat split; reflexivity. Qed.

(** C3 at the failing inputs.  In [revise_if_needed] and in
    [fix_if_needed] a tool that raises leaves no trace in the history:
    the message list sent with the next model call holds the assistant
    message with the call and no tool message for its id, and the loop
    goes on to its end.  The same answer in the review loop is followed
    by the [ERROR:] tool message. *)
Theorem remediation_loops_drop_tool_errors :
  let revision :=
    Agents.revise_if_needed Scenario.decode Scenario.scripted_create Scenario.tools
      Scenario.no_prompts (Py.VStr "output/x") Scenario.weak_review "story.md"
      (Scenario.start
         [ Py.Returned (Scenario.calls "Fixing" [Scenario.failing_write]);
           Py.Returned (Scenario.says "REVISION COMPLETE") ]) in
  let fixing :=
    Agents.fix_if_needed Scenario.decode Scenario.scripted_create Scenario.tools
      Scenario.no_prompts (Py.VStr "output/x") Scenario.broken_validation
      (Scenario.start
         [ Py.Returned (Scenario.calls "Fixing" [Scenario.failing_write]);
           Py.Returned (Scenario.says "CONSISTENCY FIXES COMPLETE");
           Py.Returned (Scenario.says "CONSISTENCY CHECK COMPLETE Errors: 0") ]) in
  let review :=
    Agents.review_content Scenario.decode Scenario.scripted_create Scenario.tools
      Scenario.no_prompts Agents.new_qa_agent (Py.VStr "output/x") "story.md" "final"
      (Scenario.start
         [ Py.Returned (Scenario.calls "Reading" [Scenario.failing_write]);
           Py.Returned (Scenario.says "QA REVIEW COMPLETE Score: 91") ]) in
  (exists result, revision.1 = Py.Returned result /\
                  result !! "revised" = Some (Py.VBool true)) /\
  Scenario.sent revision.2 !! 1%nat
    = Some [Chat.system_msg ""; Chat.user_msg "";
            Chat.assistant_msg "Fixing" [Scenario.failing_write]] /\
  (exists result, fixing.1 = Py.Returned result /\
                  result !! "fixed" = Some (Py.VBool true)) /\
  Scenario.sent fixing.2 !! 1%nat
    = Some [Chat.system_msg ""; Chat.user_msg "";
            Chat.assistant_msg "Fixing" [Scenario.failing_write]] /\
  Scenario.sent review.2 !! 1%nat
    = Some [Chat.system_msg ""; Chat.user_msg "";
            Chat.assistant_msg "Reading" [Scenario.failing_write];
            Chat.tool_msg Scenario.failing_write "ERROR: disk full"].
Proof.
  repeat split; try reflexivity; eexists; (split; [reflexivity|reflexivity]).
Qed.

(** ** The session manager and the orchestrator *)

Section SessionFacts.
Import PyStr Py Sessions Invariants.
Context {World : Type}.
Variable now_iso : World -> string * World.

Lemma save_with_ok (m : Manager) (s : Session) :
  manager_ok m -> ordered s -> manager_ok (save_session (with_session m s)).
Proof.
  intros (Hc & Hd & Hj) Hs. unfold save_session, with_session.
  cbn [current_session session_file disk journal].
  destruct (session_file m) as [f|]; unfold manager_ok;
    cbn [current_session session_file disk journal].
  - split; [|split].
    + intros s0 [= <-]. exact Hs.
    + intros f0 s0. rewrite lookup_insert. case_decide.
      * intros [= <-]. exact Hs.
      * apply Hd.
    + apply Forall_app. split; [exact Hj|]. constructor; [exact Hs|constructor].
  - split; [|split]; [|exact Hd|exact Hj]. intros s0 [= <-]. exact Hs.
Qed.

Lemma update_stage_ok (n : nat) (stage : string) (result : Dict) (success : Value)
    (m : Manager) (w : World) :
  STAGES !! n = Some stage ->
  manager_ok m -> armed m -> upto (Nat.min n 3) m ->
  exists m' w',
    update_stage now_iso stage result success m w = (Returned m', w') /\
    manager_ok m' /\ armed m' /\
    (forall st, should_skip_stage st m = true -> should_skip_stage st m' = true) /\
    (truth success = true -> should_skip_stage stage m' = true).
Proof.
  intros Hn Hok (s & f & Hcur & Hfile) Hup.
  assert (Hord : ordered s) by (apply Hok; exact Hcur).
  unfold update_stage. rewrite Hcur.
  destruct (now_iso w) as [t w1].
  unfold upto, should_skip_stage in Hup. rewrite Hcur in Hup.
  unfold ordered in Hord.
  assert (Hskip : forall st m', current_session m' = Some s ->
                                should_skip_stage st m' = mem st (completed_stages s)).
  { intros st m' Hm'. unfold should_skip_stage. now rewrite Hm'. }
  unfold armed.
  setoid_rewrite (Hskip _ m Hcur).
  destruct s as [sid up ca ua sta cur cs pp res qi fs err].
  cbn [completed_stages] in *.
  destruct n as [|[|[|[|[|n]]]]]; cbn in Hn; try discriminate; injection Hn as <-;
    cbn in Hord; cbn in Hup;
    repeat match goal with
           | H : Forall _ (_ :: _) |- _ => inversion H; subst; clear H
           end;
    repeat (destruct Hord as [Hord|Hord]; [subst cs|]); try contradiction;
    try discriminate.
  all: destruct (truth success) eqn:Hs; cbn -[save_session with_session].
  all: eexists _, _; split; [reflexivity|].
  all: (split; [apply save_with_ok; [exact Hok|unfold ordered; cbn; tauto]|]).
  all: unfold save_session, with_session, should_skip_stage; cbn; rewrite ?Hfile; cbn.
  all: (split; [eauto|]).
  all: split; [intros st; cbn; repeat (destruct (String.eqb st _)); cbn; try congruence|].
  all: try discriminate; try (intros _; reflexivity).
Qed.

Lemma mark_failed_ok (stage err : string) (m : Manager) (w : World) :
  manager_ok m -> manager_ok (mark_failed now_iso stage err m w).1.
Proof.
  intros Hok. unfold mark_failed.
  destruct (current_session m) as [s|] eqn:Hcur; [|exact Hok].
  destruct (now_iso w) as [t w1]. cbn [fst].
  apply save_with_ok; [exact Hok|]. apply Hok in Hcur. exact Hcur.
Qed.

Lemma mark_complete_ok (score : Value) (m : Manager) (w : World) :
  manager_ok m -> manager_ok (mark_complete now_iso score m w).1.
Proof.
  intros Hok. unfold mark_complete.
  destruct (current_session m) as [s|] eqn:Hcur; [|exact Hok].
  destruct (now_iso w) as [t w1]. cbn [fst].
  apply save_with_ok; [exact Hok|]. apply Hok in Hcur. exact Hcur.
Qed.

Lemma mark_complete_marks (score : Value) (m : Manager) (w : World) :
  armed m -> marked_complete (mark_complete now_iso score m w).1.
Proof.
  intros (s & f & Hcur & Hfile). unfold mark_complete. rewrite Hcur.
  destruct (now_iso w) as [t w1]. cbn [fst].
  unfold marked_complete, save_session, with_session.
  cbn [current_session session_file disk journal]. rewrite Hfile.
  cbn [current_session session_file disk journal].
  eexists _, f. repeat split.
  - apply lookup_insert_eq.
  - apply last_snoc.
Qed.

Lemma mark_failed_armed (stage err : string) (m : Manager) (w : World) :
  armed m -> armed (mark_failed now_iso stage err m w).1.
Proof.
  intros (s & f & Hcur & Hfile). unfold mark_failed. rewrite Hcur.
  destruct (now_iso w) as [t w1]. cbn [fst].
  unfold armed, save_session, with_session.
  cbn [current_session session_file disk journal]. rewrite Hfile.
  cbn [current_session session_file disk journal]. eauto.
Qed.

(** On a stage of the fixed order [update_stage] returns, and the
    manager keeps its session. *)
Lemma update_stage_returns (n : nat) (stage : string) (result : Dict) (success : Value)
    (m : Manager) (w : World) :
  STAGES !! n = Some stage -> armed m ->
  exists m' w',
    update_stage now_iso stage result success m w = (Returned m', w') /\ armed m'.
Proof.
  intros Hn (s & f & Hcur & Hfile). unfold update_stage. rewrite Hcur.
  destruct (now_iso w) as [t w1].
  assert (Hi : index_of stage STAGES = Some n).
  { destruct n as [|[|[|[|[|n]]]]]; cbn in Hn; try discriminate; now injection Hn as <-. }
  rewrite Hi.
  destruct (truth success); [destruct (n <? length STAGES - 1)%nat|];
    eexists _, _; (split; [reflexivity|]);
    unfold armed, save_session, with_session;
    cbn [current_session session_file disk journal]; rewrite Hfile;
    cbn [current_session session_file disk journal]; eauto.
Qed.

End SessionFacts.

Section TripleRules.
Import PyStr Py Sessions Orchestrator Invariants.
Context {World : Type}.

Lemma triple_bind {A B} (P : Manager -> Prop) (R : A -> Manager -> Prop)
    (Q : B -> Manager -> Prop) (E : Manager -> Prop)
    (c : RunM (World:=World) A) (k : A -> RunM B) :
  triple P c R E -> (forall a, triple (R a) (k a) Q E) -> triple P (bind c k) Q E.
Proof.
  intros Hc Hk m w HP. unfold bind. specialize (Hc m w HP).
  destruct (c (m, w)) as [[a|e] [m' w']]; [|exact Hc].
  exact (Hk a m' w' Hc).
Qed.

Lemma triple_weaken {A} (P P' : Manager -> Prop) (Q Q' : A -> Manager -> Prop)
    (E E' : Manager -> Prop) (c : RunM (World:=World) A) :
  triple P' c Q' E' ->
  (forall m, P m -> P' m) -> (forall a m, Q' a m -> Q a m) -> (forall m, E' m -> E m) ->
  triple P c Q E.
Proof.
  intros Hc HP HQ HE m w Hm. specialize (Hc m w (HP m Hm)).
  destruct (c (m, w)) as [[a|e] [m' w']]; auto.
Qed.

(** A fact that does not depend on the manager can be taken out of the
    precondition. *)
Lemma triple_assume {A} (fact : Prop) (P : Manager -> Prop) (Q : A -> Manager -> Prop)
    (E : Manager -> Prop) (c : RunM (World:=World) A) :
  (fact -> triple P c Q E) -> triple (fun m => P m /\ fact) c Q E.
Proof. intros H m w [HP Hf]. exact (H Hf m w HP). Qed.

Lemma triple_ret {A} (P : Manager -> Prop) (E : Manager -> Prop) (a : A) :
  triple (World:=World) P (ret a) (fun x m => P m /\ x = a) E.
Proof. intros m w HP. cbn. now split. Qed.

Lemma triple_raise {A} (P E : Manager -> Prop) (Q : A -> Manager -> Prop) (e : string) :
  (forall m, P m -> E m) -> triple (World:=World) P (raise e) Q E.
Proof. intros H m w HP. cbn. auto. Qed.

(** A step that leaves the manager alone keeps the precondition. *)
Lemma triple_frame {A} (P E : Manager -> Prop) (c : RunM (World:=World) A) :
  leaves_manager c -> (forall m, P m -> E m) ->
  triple P c (fun _ m => P m) E.
Proof.
  intros Hc HE m w HP. specialize (Hc m w).
  destruct (c (m, w)) as [[a|e] [m' w']]; cbn in Hc; subst m'; auto.
Qed.

Lemma leaves_ret {A} (a : A) : leaves_manager (World:=World) (ret a).
Proof. now intros m w. Qed.

Lemma leaves_raise {A} (e : string) : leaves_manager (World:=World) (@raise World A e).
Proof. now intros m w. Qed.

Lemma leaves_agent {A} (f : World -> Outcome A * World) : leaves_manager (agent f).
Proof. intros m w. unfold agent. now destruct (f w). Qed.

Lemma leaves_bind {A B} (c : RunM (World:=World) A) (k : A -> RunM B) :
  leaves_manager c -> (forall a, leaves_manager (k a)) -> leaves_manager (bind c k).
Proof.
  intros Hc Hk m w. unfold bind. specialize (Hc m w).
  destruct (c (m, w)) as [[a|e] [m' w']]; cbn in Hc; subst m'; [apply Hk|reflexivity].
Qed.

Lemma leaves_int_of (v : Value) : leaves_manager (World:=World) (int_of v).
Proof. unfold int_of. destruct (as_int v); [apply leaves_ret|apply leaves_raise]. Qed.

Lemma triple_get_of (P E : Manager -> Prop) (d : option Dict) (k : string) (dflt : Value) :
  (forall m, P m -> E m) ->
  triple (World:=World) P (get_of d k dflt)
         (fun v m => P m /\ exists d', d = Some d' /\ v = get d' k dflt) E.
Proof.
  intros HE m w HP. unfold get_of. destruct d as [d'|]; cbn; eauto.
Qed.

Lemma triple_item_of (P E : Manager -> Prop) (d : option Dict) (k : string) :
  (forall m, P m -> E m) ->
  triple (World:=World) P (item_of d k)
         (fun v m => P m /\ exists d', d = Some d' /\ d' !! k = Some v) E.
Proof.
  intros HE m w HP. unfold item_of. destruct d as [d'|]; cbn; [|auto].
  destruct (d' !! k) eqn:Hk; cbn; eauto.
Qed.

Lemma triple_should_skip (P E : Manager -> Prop) (stage : string) :
  triple (World:=World) P (sm_should_skip stage)
         (fun b m => P m /\ b = should_skip_stage stage m) E.
Proof. intros m w HP. cbn. now split. Qed.

Lemma triple_stage_result (P E : Manager -> Prop) (stage : string) :
  triple (World:=World) P (sm_stage_result stage) (fun _ m => P m) E.
Proof. intros m w HP. cbn. exact HP. Qed.

Lemma triple_agent {A} (P E : Manager -> Prop) (f : World -> Outcome A * World) :
  (forall m, P m -> E m) -> triple P (agent f) (fun _ m => P m) E.
Proof. intros HE. apply triple_frame; [apply leaves_agent|exact HE]. Qed.

Lemma truth_py_and (a b : Value) : truth (py_and a b) = truth a && truth b.
Proof. unfold py_and. destruct (truth a) eqn:Ha; [reflexivity|exact Ha]. Qed.

End TripleRules.

Section RunFacts.
Import PyStr Py Sessions Orchestrator Invariants.
Context {World QA : Type}.
Variable now_id : World -> string * World.
Variable now_iso : World -> string * World.
Variable settings_checks :
  World -> (gmap string string * list string * list string) * World.
Variable initialize : Value -> World -> Outcome unit * World.
Variable planner_plan : string -> World -> Outcome Dict * World.
Variable writer_write : Value -> string -> World -> Outcome Dict * World.
Variable qa_new : QA.
Variable qa_review_content : QA -> Value -> World -> Outcome (Dict * QA) * World.
Variable qa_revise_if_needed : QA -> Value -> Dict -> World -> Outcome (Dict * QA) * World.
Variable consistency_validate : Value -> World -> Outcome Dict * World.
Variable consistency_fix_if_needed : Value -> Dict -> World -> Outcome Dict * World.

Lemma Forall_take_le {A} (P : A -> Prop) (l : list A) (k n : nat) :
  (k <= n)%nat -> Forall P (take n l) -> Forall P (take k l).
Proof.
  revert k n. induction l as [|x l IH]; intros [|k] [|n] Hk H; cbn in *;
    try constructor; try lia.
  - now inversion H.
  - inversion H; subst. apply (IH k n); [lia|assumption].
Qed.

Variable strict : Prop.

Lemma ready_kept (n : nat) (m : Manager) : ready strict n m -> kept strict m.
Proof. intros [_ H] Hs. now apply H. Qed.

Lemma ready_armed (n : nat) (m : Manager) : ready strict n m -> armed m.
Proof. now intros [H _]. Qed.

Lemma ready_le (n k : nat) (m : Manager) :
  (k <= n)%nat -> ready strict n m -> ready strict k m.
Proof.
  intros Hk (Harm & H). split; [exact Harm|]. intros Hs.
  destruct (H Hs) as [Hok Hup]. split; [exact Hok|].
  unfold upto in *. eapply Forall_take_le; [exact Hk|exact Hup].
Qed.

Lemma ready_next (n : nat) (stage : string) (m : Manager) :
  STAGES !! n = Some stage ->
  ready strict n m -> (strict -> should_skip_stage stage m = true) ->
  ready strict (S n) m.
Proof.
  intros Hn (Harm & H) Hdone. split; [exact Harm|]. intros Hs.
  destruct (H Hs) as [Hok Hup]. split; [exact Hok|].
  unfold upto in *. rewrite (take_S_r _ _ _ Hn). apply Forall_app.
  split; [exact Hup|]. constructor; [now apply Hdone|constructor].
Qed.

Lemma triple_update (n : nat) (stage : string) (result : Dict) (success : Value) :
  STAGES !! n = Some stage ->
  triple (ready strict (Nat.min n 3)) (sm_update now_iso stage result success)
         (fun _ m => ready strict (Nat.min n 3) m /\
                     (strict -> truth success = true ->
                      should_skip_stage stage m = true))
         (kept strict).
Proof.
  intros Hn m w (Harm & H). unfold sm_update.
  destruct (update_stage_returns now_iso n stage result success m w Hn Harm)
    as (m' & w' & Heq & Harm').
  rewrite Heq.
  assert (Hstrict : strict -> manager_ok m' /\ upto (Nat.min n 3) m' /\
                              (truth success = true -> should_skip_stage stage m' = true)).
  { intros Hs. destruct (H Hs) as [Hok Hup].
    destruct (update_stage_ok now_iso n stage result success m w Hn Hok Harm Hup)
      as (m2 & w2 & Heq2 & Hok' & _ & Hmono & Hdone).
    rewrite Heq in Heq2. injection Heq2 as <- <-.
    split; [exact Hok'|]. split; [|exact Hdone].
    unfold upto in *. eapply Forall_impl; [exact Hup|]. intros st. apply Hmono. }
  split; [split; [exact Harm'|]|].
  - intros Hs. destruct (Hstrict Hs) as (? & ? & ?). now split.
  - intros Hs. now destruct (Hstrict Hs) as (? & ? & ?).
Qed.

Lemma triple_mark_failed (n : nat) (stage err : string) :
  triple (ready strict n) (sm_mark_failed now_iso stage err)
         (fun _ m => kept strict m) (kept strict).
Proof.
  intros m w (Harm & H). unfold sm_mark_failed.
  pose proof (mark_failed_ok now_iso stage err m w) as Hok.
  destruct (mark_failed now_iso stage err m w) as [m' w'].
  intros Hs. apply Hok. now apply H.
Qed.

Lemma triple_mark_complete (n : nat) (score : Value) :
  triple (ready strict n) (sm_mark_complete now_iso score)
         (fun _ m => kept strict m /\ marked_complete m) (kept strict).
Proof.
  intros m w (Harm & H). unfold sm_mark_complete.
  pose proof (mark_complete_ok now_iso score m w) as Hok.
  pose proof (mark_complete_marks now_iso score m w Harm) as Hmark.
  destruct (mark_complete now_iso score m w) as [m' w'].
  split; [|exact Hmark]. intros Hs. apply Hok. now apply H.
Qed.

Lemma triple_pre {A} (P P' : Manager -> Prop) (Q : A -> Manager -> Prop)
    (E : Manager -> Prop) (c : RunM (World:=World) A) :
  triple P' c Q E -> (forall m, P m -> P' m) -> triple P c Q E.
Proof. intros Hc HP m w Hm. exact (Hc m w (HP m Hm)). Qed.

Lemma triple_ret_to {A} (P : Manager -> Prop) (Q : A -> Manager -> Prop)
    (E : Manager -> Prop) (a : A) :
  (forall m, P m -> Q a m) -> triple (World:=World) P (ret a) Q E.
Proof. intros H m w HP. cbn. auto. Qed.

Lemma classify_spec (prompt sid : string)
    (settings planning writing_result qa_result consistency_result : option Dict) :
  forall n,
  triple (ready strict n)
         (classify now_iso prompt sid settings planning writing_result qa_result
                   consistency_result)
         (finished strict) (kept strict).
Proof.
  intros n. unfold classify.
  eapply triple_bind; [apply triple_item_of; apply ready_kept|]. intros writing_ok.
  apply triple_assume. intros (writing & -> & Hw).
  eapply triple_bind; [apply triple_get_of; apply ready_kept|]. intros qa_approved.
  apply triple_assume. intros (qa & -> & ->).
  eapply triple_bind; [apply triple_get_of; apply ready_kept|]. intros consistency_approved.
  apply triple_assume. intros (consistency & -> & ->).
  cbv zeta.
  set (success := py_and (py_and writing_ok _) _).
  set (partial := py_and writing_ok (py_not success)).
  assert (Hclass : forall r, r = mk_results prompt sid settings planning (Some writing)
                                   (Some qa) (Some consistency) success (Some partial) ->
                             classified r).
  { intros r ->. unfold classified. cbn. exists writing, qa, consistency, writing_ok.
    split; [reflexivity|]. split; [exact Hw|]. split; [reflexivity|].
    split; [reflexivity|]. split.
    - subst success. now rewrite !truth_py_and.
    - subst partial. now rewrite truth_py_and. }
  destruct (truth success) eqn:Hs; [|destruct (truth partial) eqn:Hp].
  - eapply triple_bind; [apply triple_get_of; apply ready_kept|]. intros score.
    apply triple_assume. intros _.
    eapply triple_bind; [apply triple_mark_complete|]. intros [].
    apply triple_ret_to. intros m [Hok Hmark].
    split; [exact Hok|]. split; [now apply Hclass|]. intros _ _ _. exact Hmark.
  - eapply triple_bind; [apply triple_get_of; apply ready_kept|]. intros score.
    apply triple_assume. intros _.
    eapply triple_bind; [apply triple_mark_complete|]. intros [].
    apply triple_ret_to. intros m [Hok Hmark].
    split; [exact Hok|]. split; [now apply Hclass|]. intros _ _ _. exact Hmark.
  - eapply triple_bind; [apply triple_mark_failed|]. intros [].
    apply triple_ret_to. intros m Hok.
    split; [exact Hok|]. split; [now apply Hclass|].
    intros p [= <-] Hp'. congruence.
Qed.

Lemma leaves_revision_loop (fuel cycle : nat) (project_path : Value) (qa_agent : QA)
    (qa_result : Dict) :
  leaves_manager (revision_loop qa_review_content qa_revise_if_needed fuel cycle
                                project_path qa_agent qa_result).
Proof.
  revert cycle qa_agent qa_result.
  induction fuel as [|fuel IH]; intros cycle qa_agent qa_result; cbn [revision_loop].
  - apply leaves_ret.
  - destruct (_ && _); [|apply leaves_ret].
    apply leaves_bind; [apply leaves_agent|]. intros [revision_result qa_agent1].
    destruct (truth _); [|apply leaves_ret].
    apply leaves_bind; [apply leaves_agent|]. intros [qa_result' qa_agent2].
    apply leaves_bind; [apply leaves_int_of|]. intros new.
    destruct (90 <=? new)%Z; [apply leaves_ret|].
    apply leaves_bind; [apply leaves_int_of|]. intros current.
    destruct (new <=? current)%Z; [apply leaves_ret|apply IH].
Qed.

Lemma consistency_spec (prompt sid : string)
    (settings planning writing_result qa_result : option Dict) (project_path : Value) :
  triple (ready strict 3)
         (consistency_stage now_iso consistency_validate consistency_fix_if_needed
            prompt sid settings planning writing_result qa_result project_path)
         (finished strict) (kept strict).
Proof.
  unfold consistency_stage.
  eapply triple_bind; [apply triple_frame; [now intros m w|apply ready_kept]|].
  intros [|]; cbn [negb].
  - eapply triple_bind; [apply triple_stage_result|]. intros consistency_result.
    apply classify_spec.
  - eapply triple_bind; [apply triple_agent; apply ready_kept|]. intros consistency_result.
    eapply triple_bind.
    { apply triple_frame; [|apply ready_kept].
      destruct (_ && _); [|apply leaves_ret].
      apply leaves_bind; [apply leaves_agent|]. intros fix_result.
      destruct (truth _); [apply leaves_agent|apply leaves_ret]. }
    intros consistency_result'.
    eapply triple_bind; [apply (triple_update 4); reflexivity|]. intros [].
    eapply triple_pre; [apply (classify_spec _ _ _ _ _ _ _ 3)|].
    intros m [H _]. exact H.
Qed.

Lemma qa_spec (prompt sid : string) (settings planning_result writing_result : option Dict) :
  triple (ready strict 3)
         (qa_stage now_iso qa_new qa_review_content qa_revise_if_needed
            consistency_validate consistency_fix_if_needed
            prompt sid settings planning_result writing_result)
         (finished strict) (kept strict).
Proof.
  unfold qa_stage.
  eapply triple_bind; [apply triple_frame; [|apply ready_kept]|].
  { unfold get_of. destruct planning_result; [apply leaves_ret|apply leaves_raise]. }
  intros project_path.
  eapply triple_bind; [apply triple_frame; [now intros m w|apply ready_kept]|].
  intros [|]; cbn [negb].
  - eapply triple_bind; [apply triple_stage_result|]. intros qa_result.
    apply consistency_spec.
  - eapply triple_bind; [apply triple_agent; apply ready_kept|].
    intros [qa_result qa_agent].
    eapply triple_bind;
      [apply triple_frame; [apply leaves_revision_loop|apply ready_kept]|].
    intros [[qa_result' qa_agent'] cycles].
    eapply triple_bind; [apply (triple_update 3); reflexivity|]. intros [].
    eapply triple_pre; [apply consistency_spec|].
    intros m [H _]. exact H.
Qed.

Lemma writing_spec (prompt sid : string) (settings planning_result : option Dict) :
  triple (ready strict 2)
         (writing_stage now_iso writer_write qa_new qa_review_content qa_revise_if_needed
            consistency_validate consistency_fix_if_needed
            prompt sid settings planning_result)
         (finished strict) (kept strict).
Proof.
  unfold writing_stage.
  eapply triple_bind; [apply triple_should_skip|].
  intros [|]; cbn [negb].
  - eapply triple_bind; [apply triple_stage_result|]. intros writing_result.
    eapply triple_pre; [apply qa_spec|].
    intros m [H Hskip]. apply (ready_next 2 "writing"); [reflexivity|exact H|auto].
  - eapply triple_bind; [apply triple_frame; [|intros m [H _]; now apply ready_kept in H]|].
    { unfold get_of. destruct planning_result; [apply leaves_ret|apply leaves_raise]. }
    intros project_path.
    eapply triple_bind; [apply triple_agent; intros m [H _]; now apply ready_kept in H|].
    intros writing_result.
    eapply triple_bind;
      [apply triple_item_of; intros m [H _]; now apply ready_kept in H|].
    intros success. apply triple_assume. intros (writing & [= <-] & Hsuccess).
    eapply triple_bind.
    { eapply triple_pre; [apply (triple_update 2 "writing"); reflexivity|].
      intros m [H _]. exact H. }
    intros []. destruct (truth success) eqn:Hs; cbn [negb].
    + eapply triple_pre; [apply qa_spec|].
      intros m [H Hdone]. apply (ready_next 2 "writing"); [reflexivity|exact H|auto].
    + eapply triple_bind.
      { eapply triple_pre; [apply (triple_mark_failed 2)|]. intros m [H _]. exact H. }
      intros []. apply triple_ret_to. intros m Hk.
      split; [exact Hk|]. split; [|intros p [=]].
      repeat (split; [reflexivity|]). right. right. now exists writing_result, success.
Qed.

Lemma planning_spec (prompt sid : string) (settings : option Dict) :
  triple (ready strict 1)
         (planning_stage now_iso planner_plan writer_write qa_new qa_review_content
            qa_revise_if_needed consistency_validate consistency_fix_if_needed
            prompt sid settings)
         (finished strict) (kept strict).
Proof.
  unfold planning_stage.
  eapply triple_bind; [apply triple_should_skip|].
  intros [|]; cbn [negb].
  - eapply triple_bind; [apply triple_stage_result|]. intros planning_result.
    eapply triple_pre; [apply writing_spec|].
    intros m [H Hskip]. apply (ready_next 1 "planning"); [reflexivity|exact H|auto].
  - eapply triple_bind; [apply triple_agent; intros m [H _]; now apply ready_kept in H|].
    intros planning_result.
    eapply triple_bind;
      [apply triple_item_of; intros m [H _]; now apply ready_kept in H|].
    intros success. apply triple_assume. intros (planning & [= <-] & Hsuccess).
    eapply triple_bind.
    { eapply triple_pre; [apply (triple_update 1 "planning"); reflexivity|].
      intros m [H _]. exact H. }
    intros []. destruct (truth success) eqn:Hs; cbn [negb].
    + eapply triple_pre; [apply writing_spec|].
      intros m [H Hdone]. apply (ready_next 1 "planning"); [reflexivity|exact H|auto].
    + eapply triple_bind.
      { eapply triple_pre; [apply (triple_mark_failed 1)|]. intros m [H _]. exact H. }
      intros []. apply triple_ret_to. intros m Hk.
      split; [exact Hk|]. split; [|intros p [=]].
      repeat (split; [reflexivity|]). right. left.
      now exists planning_result, success.
Qed.

Lemma settings_spec (prompt sid : string) :
  triple (ready strict 0)
         (settings_stage now_iso settings_checks initialize planner_plan writer_write
            qa_new qa_review_content qa_revise_if_needed consistency_validate
            consistency_fix_if_needed prompt sid)
         (finished strict) (kept strict).
Proof.
  unfold settings_stage.
  eapply triple_bind; [apply triple_should_skip|].
  intros [|]; cbn [negb].
  - eapply triple_bind; [apply triple_stage_result|]. intros settings.
    eapply triple_bind;
      [apply triple_item_of; intros m [H _]; now apply ready_kept in H|].
    intros config. apply triple_assume. intros _.
    eapply triple_bind; [apply triple_agent; intros m [H _]; now apply ready_kept in H|].
    intros [].
    eapply triple_pre; [apply planning_spec|].
    intros m [H Hskip]. apply (ready_next 0 "settings"); [reflexivity|exact H|auto].
  - eapply triple_bind; [apply triple_agent; intros m [H _]; now apply ready_kept in H|].
    intros [[config errors] warnings].
    eapply triple_bind.
    { eapply triple_pre; [apply (triple_update 0 "settings"); reflexivity|].
      intros m [H _]. exact H. }
    intros []. destruct errors as [|e errors]; cbn [negb].
    + eapply triple_bind; [apply triple_agent; intros m [H _]; now apply ready_kept in H|].
      intros [].
      eapply triple_pre; [apply planning_spec|].
      intros m [H Hdone]. apply (ready_next 0 "settings"); [reflexivity|exact H|auto].
    + eapply triple_bind.
      { eapply triple_pre; [apply (triple_mark_failed 0)|]. intros m [H _]. exact H. }
      intros []. apply triple_ret_to. intros m Hk.
      split; [exact Hk|]. split; [|intros p [=]].
      repeat (split; [reflexivity|]). left. eexists. now repeat split.
Qed.

Lemma create_session_ready (prompt : string) (m : Manager) (w : World) :
  kept strict m -> ready strict 0 (create_session now_id now_iso prompt m w).1.2.
Proof.
  intros Hk. unfold create_session.
  destruct (now_id w) as [id w1]. destruct (now_iso w1) as [created w2].
  destruct (now_iso w2) as [updated w3]. cbn [fst snd].
  split.
  - unfold armed, save_session. cbn [current_session session_file disk journal]. eauto.
  - intros Hs. split; [|constructor].
    match goal with
    | |- manager_ok (save_session ?m1) =>
        change m1 with (with_session
                          {| current_session := None; session_file := Some (file_of id);
                             disk := disk m; journal := journal m |}
                          {| session_id := id; user_prompt := prompt;
                             created_at := created; updated_at := updated;
                             status := "in_progress"; current_stage := "settings";
                             completed_stages := []; project_path := VNone;
                             results := ∅; qa_iterations := 0; final_score := VNone;
                             error := None |})
    end.
    apply save_with_ok; [|left; reflexivity].
    destruct (Hk Hs) as (_ & Hd & Hj). split; [|split]; [discriminate|exact Hd|exact Hj].
Qed.

Lemma load_session_ready (id : string) (m m' : Manager) (s : Session) :
  kept strict m -> load_session id m = (Some s, m') -> ready strict 0 m'.
Proof.
  intros Hk. unfold load_session.
  destruct (disk m !! file_of id) as [s0|] eqn:Hd; [|discriminate].
  intros [= <- <-]. split.
  - unfold armed. cbn [current_session session_file]. eauto.
  - intros Hs. split; [|constructor].
    destruct (Hk Hs) as (_ & Hdisk & Hj). split; [|split]; [|exact Hdisk|exact Hj].
    cbn [current_session]. intros s1 [= <-]. exact (Hdisk _ _ Hd).
Qed.

(** One run, whatever its outcome. *)
Lemma run_spec (prompt : string) (resume_session_id : option string) :
  triple (kept strict)
         (run now_id now_iso settings_checks initialize planner_plan writer_write qa_new
              qa_review_content qa_revise_if_needed consistency_validate
              consistency_fix_if_needed prompt resume_session_id)
         (finished strict) (kept strict).
Proof.
  intros m w Hk. unfold run.
  pose proof (create_session_ready prompt m w Hk) as Hfresh.
  destruct (create_session now_id now_iso prompt m w) as [[s0 m0] w0].
  cbn [fst snd] in Hfresh.
  destruct resume_session_id as [id|]; [destruct (truthy id)|];
    try (apply settings_spec; exact Hfresh).
  destruct (load_session id m) as [[s|] m'] eqn:Hload;
    [|apply settings_spec; exact Hfresh].
  apply settings_spec. exact (load_session_ready id m m' s Hk Hload).
Qed.


(** Every session [get_incomplete_sessions] lists is in progress. *)
Lemma incomplete_sessions_in_progress (m : Manager) (s : Session) :
  In s (get_incomplete_sessions m) -> status s = "in_progress".
Proof.
  unfold get_incomplete_sessions. intros H.
  apply list_elem_of_In in H. rewrite merge_sort_Permutation in H.
  apply list_elem_of_In, filter_In in H. destruct H as [_ H].
  now apply String.eqb_eq.
Qed.

End RunFacts.

Section RunTheorems.
Import PyStr Py Sessions Orchestrator Invariants.
Context {World QA : Type}.
Variable now_id : World -> string * World.
Variable now_iso : World -> string * World.
Variable settings_checks :
  World -> (gmap string string * list string * list string) * World.
Variable initialize : Value -> World -> Outcome unit * World.
Variable planner_plan : string -> World -> Outcome Dict * World.
Variable writer_write : Value -> string -> World -> Outcome Dict * World.
Variable qa_new : QA.
Variable qa_review_content : QA -> Value -> World -> Outcome (Dict * QA) * World.
Variable qa_revise_if_needed : QA -> Value -> Dict -> World -> Outcome (Dict * QA) * World.
Variable consistency_validate : Value -> World -> Outcome Dict * World.
Variable consistency_fix_if_needed : Value -> Dict -> World -> Outcome Dict * World.

#[local] Abbreviation run_it :=
  (run now_id now_iso settings_checks initialize planner_plan writer_write qa_new
       qa_review_content qa_revise_if_needed consistency_validate
       consistency_fix_if_needed).


(** C5.  A run that returns has classified its result.  When it went
    through the five stages, the result has a partial_success entry,
    success is true exactly when the writing result's success, the
    final qa result's approved and the final consistency result's
    approved are all true, and partial_success is true exactly when
    the writing succeeded and success is false.  Otherwise the run was
    stopped by a failed settings, planning or writing stage: the
    result holds that stage's result with a false success, no qa and
    no consistency result, success False and no partial_success.  In
    particular a result whose writing succeeded is never of the second
    kind. *)
Theorem pipeline_result_is_classified
    (prompt : string) (resume_session_id : option string) (m : Manager) (w : World)
    (r : Results) (st : Manager * World) :
  run_it prompt resume_session_id (m, w) = (Returned r, st) ->
  classified r /\
  (forall writing ok,
     r_writing r = Some writing -> writing !! "success" = Some ok -> truth ok = true ->
     exists partial, r_partial_success r = Some partial).
Proof.
  intros Hrun.
  pose proof (run_spec now_id now_iso settings_checks initialize planner_plan
                writer_write qa_new qa_review_content qa_revise_if_needed
                consistency_validate consistency_fix_if_needed False
                prompt resume_session_id m w (fun absurd => False_ind _ absurd)) as H.
  rewrite Hrun in H. destruct st as [m' w']. destruct H as (_ & H & _).
  split; [exact H|]. intros writing ok Hw Hok Ht.
  unfold classified in H. destruct (r_partial_success r) as [partial|]; [eauto|].
  destruct H as (_ & _ & _ & [Hs|[Hp|Hf]]).
  - destruct Hs as (? & _ & _ & _ & Hnone). congruence.
  - destruct Hp as (? & ? & _ & _ & _ & Hnone). congruence.
  - destruct Hf as (writing' & ok' & Hw' & Hok' & Ht'). congruence.
Qed.

(** C10.  A run that ends with partial_success true has marked its
    session complete: the session in memory and in its file has status
    "complete" (the last write of the run), it is not among the
    sessions [get_incomplete_sessions] lists, and [resume_session]
    refuses it. *)
Theorem partial_success_marks_session_complete
    (prompt : string) (resume_session_id : option string) (m m' : Manager) (w w' : World)
    (r : Results) (partial : Value) :
  run_it prompt resume_session_id (m, w) = (Returned r, (m', w')) ->
  r_partial_success r = Some partial ->
  truth partial = true ->
  exists s f,
    current_session m' = Some s /\ session_file m' = Some f /\
    disk m' !! f = Some s /\ last (journal m') = Some (f, s) /\
    status s = "complete" /\
    ~ In s (get_incomplete_sessions m') /\
    forall id w0,
      file_of id = f ->
      resume_session now_id now_iso settings_checks initialize planner_plan
        writer_write qa_new qa_review_content qa_revise_if_needed
        consistency_validate consistency_fix_if_needed id (disk m') w0
      = inl ("Session " +:+ id +:+ " is already complete").
Proof.
  intros Hrun Hp Ht.
  pose proof (run_spec now_id now_iso settings_checks initialize planner_plan
                writer_write qa_new qa_review_content qa_revise_if_needed
                consistency_validate consistency_fix_if_needed False
                prompt resume_session_id m w (fun absurd => False_ind _ absurd)) as H.
  rewrite Hrun in H. destruct H as (_ & _ & H).
  destruct (H partial Hp Ht) as (s & f & Hcur & Hfile & Hdisk & Hlast & Hstatus).
  exists s, f. repeat (split; [assumption|]). split.
  - intros Hin. apply incomplete_sessions_in_progress in Hin. congruence.
  - intros id w0 <-. unfold resume_session, load_session. cbn [disk new_manager].
    rewrite Hdisk. now rewrite Hstatus.
Qed.

#[local] Abbreviation revision_from :=
  (revision_loop qa_review_content qa_revise_if_needed).

Lemma revision_loop_within_budget (fuel cycle : nat) (project_path : Value) (qa_agent : QA)
    (qa_result : Dict) (st st' : Manager * World) (final : Dict) (agent' : QA)
    (cycles : nat) :
  revision_from fuel cycle project_path qa_agent qa_result st
    = (Returned (final, agent', cycles), st') ->
  (cycle <= cycles <= cycle + fuel)%nat.
Proof.
  revert cycle qa_agent qa_result st.
  induction fuel as [|fuel IH]; intros cycle qa_agent qa_result [m w]; cbn [revision_loop].
  - intros [= _ _ <-]. lia.
  - unfold bind, ret, Orchestrator.agent, int_of.
    destruct (_ && _); [|intros [= _ _ <-]; lia].
    destruct (qa_revise_if_needed qa_agent project_path qa_result w)
      as [[[revision agent1]|e] w1]; [|discriminate].
    destruct (truth _); [|intros [= _ _ <-]; lia].
    destruct (qa_review_content agent1 project_path w1)
      as [[[rereview agent2]|e] w2]; [|discriminate].
    destruct (as_int (get rereview "score" (VInt 0))) as [new|]; [|discriminate].
    cbn match. unfold ret, raise.
    destruct (90 <=? new)%Z; [intros [= _ _ <-]; lia|].
    destruct (as_int (get qa_result "score" (VInt 0))) as [current|]; [|discriminate].
    cbn match.
    destruct (new <=? current)%Z; [intros [= _ _ <-]; lia|].
    intros H. apply IH in H. lia.
Qed.

(** C6.  In the auto-revision loop of the QA stage, a cycle whose
    re-review score is not above the score before the cycle is the last
    one: whatever budget is left, the loop ends there with the
    re-review result, without another call.  The same holds for a cycle
    whose re-review score reaches 90.  The loop never runs more cycles
    than its budget ([max_revision_cycles] is 3). *)
Theorem revision_loop_stops_without_progress
    (fuel cycle : nat) (project_path : Value) (qa_agent agent1 agent2 : QA)
    (qa_result revision rereview : Dict) (m : Manager) (w w1 w2 : World)
    (current new : Z) :
  truth (get qa_result "approved" (VBool false)) = false ->
  truth (get qa_result "success" (VBool false)) = true ->
  qa_revise_if_needed qa_agent project_path qa_result w = (Returned (revision, agent1), w1) ->
  truth (get_none revision "revised") = true ->
  qa_review_content agent1 project_path w1 = (Returned (rereview, agent2), w2) ->
  as_int (get qa_result "score" (VInt 0)) = Some current ->
  as_int (get rereview "score" (VInt 0)) = Some new ->
  (new <= current \/ 90 <= new)%Z ->
  revision_from (S fuel) cycle project_path qa_agent qa_result (m, w)
    = (Returned (rereview, agent2, S cycle), (m, w2)) /\
  (forall budget final agent' cycles st st',
     revision_from budget 0 project_path qa_agent qa_result st
       = (Returned (final, agent', cycles), st') ->
     (cycles <= budget)%nat) /\
  max_revision_cycles = 3%nat.
Proof.
  intros Happ Hsucc Hrev Hrevised Hreview Hcur Hnew Hstop.
  split; [|split; [|reflexivity]].
  - cbn [revision_loop]. rewrite Happ, Hsucc. cbn [negb andb].
    unfold bind, Orchestrator.agent, int_of, ret. rewrite Hrev, Hrevised, Hreview, Hnew.
    destruct (Z.leb_spec 90 new) as [H90|H90]; [reflexivity|].
    rewrite Hcur.
    destruct (Z.leb_spec new current) as [Hle|Hle]; [reflexivity|lia].
  - intros budget final agent' cycles st st' H.
    apply revision_loop_within_budget in H. lia.
Qed.

End RunTheorems.



(** After such a run, a resumed run whose QA review answers appends qa
    after consistency. *)
Example resumed_qa_comes_after_consistency :
  option_map Sessions.completed_stages
    (Sessions.current_session
       (Scenario.scripted_pipelines
          [("A short story", None); ("A short story", Some "20250101_000000")]
          (Sessions.new_manager ∅, Scenario.start Scenario.qa_answers_on_resume)).1)
  = Some ["settings"; "planning"; "writing"; "consistency"; "qa"].
Proof. vm_compute. reflexivity. Qed.

Lemma pipeline_result_is_classified_witness :
  match (Scenario.scripted_pipeline "A short story" None
           (Sessions.new_manager ∅, Scenario.start Scenario.all_approved)).1 with
  | Py.Returned r =>
      Invariants.classified r /\
      Orchestrator.r_success r = Py.VBool true /\
      Orchestrator.r_partial_success r = Some (Py.VBool false)
  | Py.Raised _ => False
  end.
Proof.
  destruct (Scenario.scripted_pipeline "A short story" None
              (Sessions.new_manager ∅, Scenario.start Scenario.all_approved))
    as [[r|e] st] eqn:Hout; cbn [fst].
  - split.
    + unfold Scenario.scripted_pipeline, Pipeline.run_pipeline in Hout.
      exact (proj1 (pipeline_result_is_classified _ _ _ _ _ _ _ _ _ _ _ _ _ _ _ _ _ Hout)).
    + pose proof (f_equal (fun x => match x.1 with
                                    | Py.Returned r0 =>
                                        Some (Orchestrator.r_success r0,
                                              Orchestrator.r_partial_success r0)
                                    | Py.Raised _ => None
                                    end) Hout) as Hflags.
      vm_compute in Hflags. injection Hflags as Hsuccess Hpartial.
      split; symmetry; [exact Hsuccess|exact Hpartial].
  - pose proof (f_equal (fun x => match x.1 with
                                  | Py.Returned _ => true
                                  | Py.Raised _ => false
                                  end) Hout) as Hreturned.
    vm_compute in Hreturned. discriminate Hreturned.
Defined.

Lemma partial_success_marks_session_complete_witness :
  match Scenario.scripted_pipeline "Write a 3-chapter mystery novella." None
          (Sessions.new_manager ∅, Scenario.start Scenario.plateau) with
  | (Py.Returned r, (m, _)) =>
      Orchestrator.r_partial_success r = Some (Py.VBool true) /\
      exists s, Sessions.current_session m = Some s /\
                Sessions.status s = "complete" /\
                ~ In s (Sessions.get_incomplete_sessions m)
  | (Py.Raised _, _) => False
  end.
Proof.
  destruct (Scenario.scripted_pipeline "Write a 3-chapter mystery novella." None
              (Sessions.new_manager ∅, Scenario.start Scenario.plateau))
    as [[r|e] [m w]] eqn:Hout.
  - assert (Hp : Orchestrator.r_partial_success r = Some (Py.VBool true)).
    { pose proof (f_equal (fun x => match x.1 with
                                    | Py.Returned r0 => Orchestrator.r_partial_success r0
                                    | Py.Raised _ => None
                                    end) Hout) as Hp.
      vm_compute in Hp. symmetry. exact Hp. }
    split; [exact Hp|].
    unfold Scenario.scripted_pipeline, Pipeline.run_pipeline in Hout.
    destruct (partial_success_marks_session_complete _ _ _ _ _ _ _ _ _ _ _ _ _ _ _ _ _ _ _
                Hout Hp eq_refl) as (s & f & Hcur & _ & _ & _ & Hst & Hnot & _).
    exists s. auto.
  - pose proof (f_equal (fun x => match x.1 with
                                  | Py.Returned _ => true
                                  | Py.Raised _ => false
                                  end) Hout) as Hreturned.
    vm_compute in Hreturned. discriminate Hreturned.
Defined.

Lemma revision_loop_stops_without_progress_witness :
  exists final agent st,
    Scenario.scripted_revisions 3 Scenario.weak_review
      (Sessions.new_manager ∅,
       Scenario.start [ Py.Returned (Scenario.says "REVISION COMPLETE");
                        Py.Returned (Scenario.says "QA REVIEW COMPLETE: Score: 45") ])
    = (Py.Returned (final, agent, 1%nat), st) /\
    final !! "score" = Some (Py.VInt 45).
Proof.
  eexists _, _, _. split.
  - unfold Scenario.scripted_revisions.
    eapply (proj1 (revision_loop_stops_without_progress _ _ 2 0 _ _ _ _
                     Scenario.weak_review _ _ _ _ _ _ 50 45 _ _ _ _ _ _ _ _)).
    Unshelve. all: try reflexivity. left. lia.
  - reflexivity.
Defined.

(** The scenario of the specification: scores 72, 81, 83, 83; the
    third cycle brings no progress; the run ends as a partial success
    with all five stages completed and the session marked complete. *)
Example specification_scenario :
  let out :=
    Scenario.scripted_pipeline "Write a 3-chapter mystery novella." None
      (Sessions.new_manager ∅, Scenario.start Scenario.plateau) in
  match out.1 with
  | Py.Returned r =>
      Orchestrator.r_success r = Py.VBool false /\
      Orchestrator.r_partial_success r = Some (Py.VBool true) /\
      option_map (fun qa => (qa !! "score", qa !! "approved")) (Orchestrator.r_qa r)
        = Some (Some (Py.VInt 83), Some (Py.VBool false))
  | Py.Raised _ => False
  end /\
  option_map Sessions.completed_stages (Sessions.current_session out.2.1)
    = Some Sessions.STAGES /\
  option_map Sessions.status (Sessions.current_session out.2.1) = Some "complete".
Proof. vm_compute. repeat split; reflexivity. Qed.

(** * Further properties: around the pipeline core *)

(** ** The life cycle of a session file *)

Section OrderFacts.

Lemma ascii_compare_trans (c : comparison) (a b d : ascii) :
  Ascii.compare a b = c -> Ascii.compare b d = c -> Ascii.compare a d = c.
Proof.
  unfold Ascii.compare. destruct c.
  - rewrite !N.compare_eq_iff. congruence.
  - rewrite !N.compare_lt_iff. lia.
  - rewrite !N.compare_gt_iff. lia.
Qed.

Lemma ascii_compare_eq (a b : ascii) : Ascii.compare a b = Eq -> a = b.
Proof.
  unfold Ascii.compare. rewrite N.compare_eq_iff. intros H.
  rewrite <- (ascii_N_embedding a), <- (ascii_N_embedding b). now rewrite H.
Qed.

Lemma string_leb_trans (s1 s2 s3 : string) :
  String.leb s1 s2 = true -> String.leb s2 s3 = true -> String.leb s1 s3 = true.
Proof.
  unfold String.leb. revert s2 s3.
  induction s1 as [|a s1 IH]; intros [|b s2] [|d s3]; cbn; try congruence.
  destruct (Ascii.compare a b) eqn:Hab; destruct (Ascii.compare b d) eqn:Hbd;
    try congruence.
  - apply ascii_compare_eq in Hab, Hbd. subst b d.
    assert (Haa : Ascii.compare a a = Eq) by (unfold Ascii.compare; apply N.compare_refl).
    rewrite Haa. apply IH.
  - apply ascii_compare_eq in Hab. subst b. now rewrite Hbd.
  - apply ascii_compare_eq in Hbd. subst d. now rewrite Hab.
  - now rewrite (ascii_compare_trans Lt a b d Hab Hbd).
Qed.

End OrderFacts.
Section LifecycleFacts.
Import PyStr Py Sessions Lifecycle.
Context {World : Type}.
Variable now_iso : World -> string * World.

Lemma mem_In (x : string) (l : list string) : mem x l = true <-> In x l.
Proof.
  unfold mem. rewrite existsb_exists. split.
  - intros (y & Hy & Heq). apply String.eqb_eq in Heq. now subst.
  - intros H. exists x. split; [exact H|apply String.eqb_refl].
Qed.

Lemma mem_not_In (x : string) (l : list string) : mem x l = false <-> ~ In x l.
Proof. rewrite <- mem_In. now destruct (mem x l). Qed.

(** One call on a manager that holds a session and its file. *)
Lemma call_step (c : Call) (m : Manager) (w : World) (s : Session) (f : string) :
  valid_call c -> current_session m = Some s -> session_file m = Some f ->
  exists m' w' s',
    call now_iso c m w = (Returned m', w') /\
    current_session m' = Some s' /\ session_file m' = Some f /\
    disk m' = <[f := s']> (disk m) /\ journal m' = journal m ++ [(f, s')] /\
    step s s'.
Proof.
  intros Hv Hcur Hfile.
  destruct c as [stage result success|stage err|score]; cbn [call valid_call] in *.
  - unfold update_stage. rewrite Hcur. destruct (now_iso w) as [t w1].
    destruct (truth success) eqn:Hs.
    + specialize (Hv eq_refl).
      assert (Hi : exists n, index_of stage STAGES = Some n /\ In stage STAGES).
      { split with (x := match index_of stage STAGES with Some n => n | None => O end).
        split; [|exact Hv].
        cbn in Hv. destruct Hv as [<-|[<-|[<-|[<-|[<-|[]]]]]]; reflexivity. }
      destruct Hi as (n & Hi & _). rewrite Hi.
      destruct (n <? length STAGES - 1)%nat;
        eexists _, _, _; (split; [reflexivity|]);
        unfold save_session, with_session;
        cbn [current_session session_file disk journal]; rewrite Hfile;
        cbn [current_session session_file disk journal];
        (split; [reflexivity|]); (split; [reflexivity|]);
        (split; [reflexivity|]); (split; [reflexivity|]);
        unfold step; cbn [session_id user_prompt created_at completed_stages status];
        (split; [reflexivity|]); (split; [reflexivity|]); (split; [reflexivity|]);
        (split; [|tauto]);
        destruct (mem stage (completed_stages s)) eqn:Hm; [now left| |now left|];
        right; exists stage; apply mem_not_In in Hm; auto.
    + eexists _, _, _. split; [reflexivity|].
      unfold save_session, with_session.
      cbn [current_session session_file disk journal]. rewrite Hfile.
      cbn [current_session session_file disk journal].
      repeat (split; [reflexivity|]). unfold step. cbn. tauto.
  - unfold mark_failed. rewrite Hcur. destruct (now_iso w) as [t w1].
    eexists _, _, _. split; [reflexivity|].
    unfold save_session, with_session.
    cbn [current_session session_file disk journal]. rewrite Hfile.
    cbn [current_session session_file disk journal].
    repeat (split; [reflexivity|]). unfold step. cbn. tauto.
  - unfold mark_complete. rewrite Hcur. destruct (now_iso w) as [t w1].
    eexists _, _, _. split; [reflexivity|].
    unfold save_session, with_session.
    cbn [current_session session_file disk journal]. rewrite Hfile.
    cbn [current_session session_file disk journal].
    repeat (split; [reflexivity|]). unfold step. cbn. tauto.
Qed.

(** A sequence of calls: the session of the manager goes through
    [step]s, its file follows it, and no other file is touched. *)
Lemma calls_steps (cs : list Call) (m : Manager) (w : World) (s : Session) (f : string) :
  Forall valid_call cs -> current_session m = Some s -> session_file m = Some f ->
  exists m' w' s',
    calls now_iso cs m w = (Returned m', w') /\
    current_session m' = Some s' /\ session_file m' = Some f /\
    (disk m !! f = Some s -> disk m' !! f = Some s') /\
    (forall g, g <> f -> disk m' !! g = disk m !! g) /\
    rtc step s s'.
Proof.
  intros Hv. revert m w s. induction Hv as [|c cs Hc _ IH]; intros m w s Hcur Hfile.
  - exists m, w, s. cbn [calls]. split; [reflexivity|]. split; [exact Hcur|].
    split; [exact Hfile|]. split; [tauto|]. split; [reflexivity|]. reflexivity.
  - destruct (call_step c m w s f Hc Hcur Hfile)
      as (m1 & w1 & s1 & Hcall & Hcur1 & Hfile1 & Hdisk1 & _ & Hstep).
    destruct (IH m1 w1 s1 Hcur1 Hfile1) as (m2 & w2 & s2 & Hcalls & Hcur2 & Hfile2 & Hd & Hframe & Hsteps).
    exists m2, w2, s2. cbn [calls]. rewrite Hcall.
    split; [exact Hcalls|]. split; [exact Hcur2|]. split; [exact Hfile2|].
    split; [|split].
    + intros _. apply Hd. rewrite Hdisk1. apply lookup_insert_eq.
    + intros g Hg. rewrite (Hframe g Hg), Hdisk1. now apply lookup_insert_ne.
    + eapply rtc_l; [exact Hstep|exact Hsteps].
Qed.

Lemma steps_identity (s s' : Session) :
  rtc step s s' ->
  session_id s' = session_id s /\ user_prompt s' = user_prompt s /\
  created_at s' = created_at s.
Proof.
  induction 1 as [|a b c (H1 & H2 & H3 & _) _ (K1 & K2 & K3)]; [tauto|].
  rewrite K1, K2, K3. tauto.
Qed.

Lemma steps_completed (s s' : Session) :
  rtc step s s' -> NoDup (completed_stages s) ->
  exists added,
    completed_stages s' = completed_stages s ++ added /\
    NoDup (completed_stages s') /\ Forall (fun stage => In stage STAGES) added.
Proof.
  induction 1 as [a|a b c (_ & _ & _ & H4 & _) _ IH]; intros Hnd.
  - exists []. rewrite app_nil_r. auto.
  - destruct H4 as [Heq|(stage & Hnew & Hin & Heq)].
    + rewrite Heq in IH. exact (IH Hnd).
    + assert (Hnd' : NoDup (completed_stages b)).
      { rewrite Heq. apply NoDup_app. split; [exact Hnd|]. split.
        - intros x Hx Hx'. apply list_elem_of_In in Hx.
          apply list_elem_of_singleton in Hx'. now subst.
        - apply NoDup_singleton. }
      destruct (IH Hnd') as (added & Hc & Hnd2 & Hall).
      exists (stage :: added). rewrite Hc, Heq, <- app_assoc. cbn.
      split; [reflexivity|]. split; [now rewrite Hc, Heq, <- app_assoc in Hnd2|].
      now constructor.
Qed.

Lemma steps_status (s s' : Session) :
  rtc step s s' -> status s <> "in_progress" -> status s' <> "in_progress".
Proof.
  induction 1 as [|a b c (_ & _ & _ & _ & H5) _ IH]; [tauto|].
  intros Ha. apply IH. destruct H5 as [->|[->| ->]]; [exact Ha|discriminate|discriminate].
Qed.

End LifecycleFacts.
Section LifecycleTheorems.
Import PyStr Py Sessions Lifecycle.
Context {World : Type}.
Variable now_id : World -> string * World.
Variable now_iso : World -> string * World.

(** [create_session] leaves the manager with the new session and its
    file, which holds it. *)
Lemma create_session_synced (prompt : string) (m : Manager) (w : World) :
  exists s m' w',
    create_session now_id now_iso prompt m w = (s, m', w') /\
    current_session m' = Some s /\ session_file m' = Some (file_of (session_id s)) /\
    disk m' !! file_of (session_id s) = Some s /\
    user_prompt s = prompt /\ completed_stages s = [] /\ status s = "in_progress".
Proof.
  unfold create_session.
  destruct (now_id w) as [id w1]. destruct (now_iso w1) as [created w2].
  destruct (now_iso w2) as [updated w3].
  eexists _, _, _. split; [reflexivity|].
  unfold save_session. cbn [current_session session_file disk journal session_id].
  split; [reflexivity|]. split; [reflexivity|]. split; [apply lookup_insert_eq|].
  cbn. auto.
Qed.

(** X1 (session_manager.py, save and load): a session created by
    [create_session] and then taken through any sequence of
    [update_stage], [mark_failed] and [mark_complete] calls (successful
    stages named from [STAGES]) is read back unchanged by
    [load_session] on a new manager over the same directory; its id,
    prompt and creation time are those of [create_session]. *)
Theorem session_survives_restart (prompt : string) (cs : list Call)
    (m : Manager) (w : World) :
  Forall valid_call cs ->
  exists s0 m1 w1 m2 w2 s,
    create_session now_id now_iso prompt m w = (s0, m1, w1) /\
    calls now_iso cs m1 w1 = (Returned m2, w2) /\
    current_session m2 = Some s /\
    session_id s = session_id s0 /\ user_prompt s = prompt /\
    created_at s = created_at s0 /\
    (load_session (session_id s0) (restart m2)).1 = Some s /\
    current_session (load_session (session_id s0) (restart m2)).2 = Some s.
Proof.
  intros Hv.
  destruct (create_session_synced prompt m w)
    as (s0 & m1 & w1 & Hcreate & Hcur & Hfile & Hdisk & Hprompt & _).
  destruct (calls_steps now_iso cs m1 w1 s0 _ Hv Hcur Hfile)
    as (m2 & w2 & s & Hcalls & Hcur2 & Hfile2 & Hd & _ & Hsteps).
  destruct (steps_identity _ _ Hsteps) as (Hid & Hp & Hc).
  exists s0, m1, w1, m2, w2, s.
  split; [exact Hcreate|]. split; [exact Hcalls|]. split; [exact Hcur2|].
  split; [exact Hid|]. split; [congruence|]. split; [exact Hc|].
  unfold load_session, restart. cbn [disk]. rewrite (Hd Hdisk). cbn. auto.
Qed.

(** X2 (update_stage, get_stage_result, should_skip_stage): on a
    manager with a session, [update_stage(stage, result, success)]
    stores [result] under [stage] whether or not the stage succeeded,
    and leaves the results of the other stages alone; the stage is
    skipped afterwards exactly when it succeeded now or was complete
    before, and the other stages are skipped as before. *)
Theorem update_stage_round_trip (stage : string) (result : Dict) (success : Value)
    (m : Manager) (w : World) (s : Session) :
  current_session m = Some s ->
  (truth success = true -> In stage STAGES) ->
  exists m' w',
    update_stage now_iso stage result success m w = (Returned m', w') /\
    get_stage_result stage m' = Some result /\
    should_skip_stage stage m' = (should_skip_stage stage m || truth success) /\
    forall other, other <> stage ->
      get_stage_result other m' = get_stage_result other m /\
      should_skip_stage other m' = should_skip_stage other m.
Proof.
  intros Hcur Hv. unfold update_stage. rewrite Hcur.
  destruct (now_iso w) as [t w1].
  assert (Hskip : should_skip_stage stage m = mem stage (completed_stages s)).
  { unfold should_skip_stage. now rewrite Hcur. }
  assert (Hother : forall other, should_skip_stage other m = mem other (completed_stages s)).
  { intros other. unfold should_skip_stage. now rewrite Hcur. }
  assert (Hres : forall other, get_stage_result other m = results s !! other).
  { intros other. unfold get_stage_result. now rewrite Hcur. }
  destruct (truth success) eqn:Hs.
  - specialize (Hv eq_refl).
    assert (Hi : exists n, index_of stage STAGES = Some n).
    { cbn in Hv. destruct Hv as [<-|[<-|[<-|[<-|[<-|[]]]]]]; eexists; reflexivity. }
    destruct Hi as (n & Hi). rewrite Hi.
    destruct (n <? length STAGES - 1)%nat;
      eexists _, _; (split; [reflexivity|]);
      rewrite Hskip; setoid_rewrite Hother; setoid_rewrite Hres;
      unfold get_stage_result, should_skip_stage, save_session, with_session;
      cbn [current_session session_file disk journal];
      (destruct (session_file m); cbn [current_session results completed_stages]);
      (split; [apply lookup_insert_eq|]);
      rewrite orb_true_r;
      (split; [destruct (mem stage (completed_stages s)) eqn:Hm;
               [exact Hm|unfold mem; rewrite existsb_app; cbn;
                         now rewrite String.eqb_refl, orb_true_r]|]);
      intros other Hne;
      (split; [now apply lookup_insert_ne|]);
      (destruct (mem stage (completed_stages s)); [reflexivity|]);
      unfold mem; rewrite existsb_app; cbn;
      (destruct (String.eqb_spec other stage); [contradiction|]);
      now rewrite !orb_false_r.
  - eexists _, _. split; [reflexivity|].
    rewrite Hskip; setoid_rewrite Hother; setoid_rewrite Hres.
    unfold get_stage_result, should_skip_stage, save_session, with_session.
    cbn [current_session session_file disk journal].
    destruct (session_file m); cbn [current_session results completed_stages].
    all: split; [apply lookup_insert_eq|].
    all: rewrite orb_false_r; split; [reflexivity|].
    all: intros other Hne; split;
      [now apply lookup_insert_ne|reflexivity].
Qed.

(** X3 (update_stage): whatever calls are made, [completed_stages]
    only grows, by stages of [STAGES] appended at its end, and a list
    without duplicates stays without duplicates. *)
Theorem completed_stages_only_grow (cs : list Call) (m : Manager) (w : World)
    (s : Session) (f : string) :
  Forall valid_call cs -> current_session m = Some s -> session_file m = Some f ->
  NoDup (completed_stages s) ->
  exists m' w' s' added,
    calls now_iso cs m w = (Returned m', w') /\ current_session m' = Some s' /\
    completed_stages s' = completed_stages s ++ added /\
    NoDup (completed_stages s') /\ Forall (fun stage => In stage STAGES) added.
Proof.
  intros Hv Hcur Hfile Hnd.
  destruct (calls_steps now_iso cs m w s f Hv Hcur Hfile)
    as (m' & w' & s' & Hcalls & Hcur' & _ & _ & _ & Hsteps).
  destruct (steps_completed _ _ Hsteps Hnd) as (added & H1 & H2 & H3).
  exists m', w', s', added. auto.
Qed.

(** X4 (update_stage, mark_failed, mark_complete,
    get_incomplete_sessions): no call brings a session back to
    "in_progress": once its status is "failed" or "complete", the
    session in the file stays out of [get_incomplete_sessions],
    and the files of the other sessions are not touched. *)
Theorem closed_session_stays_closed (cs : list Call) (m : Manager) (w : World)
    (s : Session) (f : string) :
  Forall valid_call cs -> current_session m = Some s -> session_file m = Some f ->
  disk m !! f = Some s -> status s <> "in_progress" ->
  exists m' w' s',
    calls now_iso cs m w = (Returned m', w') /\ current_session m' = Some s' /\
    disk m' !! f = Some s' /\ status s' <> "in_progress" /\
    ~ In s' (get_incomplete_sessions m') /\
    forall g, g <> f -> disk m' !! g = disk m !! g.
Proof.
  intros Hv Hcur Hfile Hdisk Hst.
  destruct (calls_steps now_iso cs m w s f Hv Hcur Hfile)
    as (m' & w' & s' & Hcalls & Hcur' & _ & Hd & Hframe & Hsteps).
  pose proof (steps_status _ _ Hsteps Hst) as Hst'.
  exists m', w', s'. split; [exact Hcalls|]. split; [exact Hcur'|].
  split; [auto|]. split; [exact Hst'|]. split; [|exact Hframe].
  intros Hin. apply Hst'. now apply (incomplete_sessions_in_progress m').
Qed.

End LifecycleTheorems.

Section ListingFacts.
Import PyStr Py Sessions Lifecycle.

#[local] Instance newer_first_total : Total newer_first.
Proof.
  intros a b. unfold newer_first.
  destruct (String.leb_total (updated_at b) (updated_at a)); auto.
Qed.

#[local] Instance newer_first_trans : Transitive newer_first.
Proof.
  intros a b c Hab Hbc. unfold newer_first in *.
  exact (string_leb_trans _ _ _ Hbc Hab).
Qed.

(** X5 (get_incomplete_sessions): the list holds exactly the sessions
    of the directory whose status is "in_progress", and every session
    in it is at least as recent (by [updated_at]) as all that follow. *)
Theorem incomplete_sessions_sorted_and_exact (m : Manager) :
  StronglySorted newer_first (get_incomplete_sessions m) /\
  forall s, In s (get_incomplete_sessions m) <->
            (exists f, disk m !! f = Some s) /\ status s = "in_progress".
Proof.
  split.
  - unfold get_incomplete_sessions. apply StronglySorted_merge_sort; apply _.
  - intros s. unfold get_incomplete_sessions.
    rewrite <- list_elem_of_In, merge_sort_Permutation, list_elem_of_In, filter_In.
    rewrite String.eqb_eq, <- list_elem_of_In, list_elem_of_fmap.
    split.
    + intros [([f s0] & -> & Hin) Hst]. split; [|exact Hst].
      exists f. now apply elem_of_map_to_list in Hin.
    + intros [[f Hf] Hst]. split; [|exact Hst].
      exists (f, s). split; [reflexivity|]. now apply elem_of_map_to_list.
Qed.

End ListingFacts.
Section CleanupFacts.
Import PyStr Py Sessions Lifecycle.

Lemma cleanup_fold (cutoff : Z) (stat : string -> option Z)
    (unlink_ok : string -> bool) (l : list string) :
  let gone f :=
    match stat f with
    | Some mtime => (mtime <? cutoff)%Z && unlink_ok f
    | None => false
    end in
  forall (n : Z) (files : gmap string Session),
  NoDup l -> (forall f, f ∈ l -> is_Some (files !! f)) ->
  exists n' files',
    fold_left (fun acc f => cleanup_file cutoff stat unlink_ok f acc) l (n, files)
      = (n', files') /\
    (forall f, files' !! f
               = if bool_decide (f ∈ l) && gone f then None else files !! f) /\
    n' - n = Z.of_nat (size files) - Z.of_nat (size files').
Proof.
  intros gone. induction l as [|f0 l IH]; intros n files Hnd Hin.
  - exists n, files. cbn. split; [reflexivity|]. split; [|lia].
    intros f. rewrite bool_decide_eq_false_2; [reflexivity|]. apply not_elem_of_nil.
  - apply NoDup_cons in Hnd. destruct Hnd as [Hf0 Hnd]. cbn [fold_left].
    assert (Hstep : cleanup_file cutoff stat unlink_ok f0 (n, files)
                    = if gone f0 then (n + 1, delete f0 files) else (n, files)).
    { unfold cleanup_file, gone. destruct (stat f0) as [mtime|]; [|reflexivity].
      destruct (mtime <? cutoff)%Z; [|reflexivity]. now destruct (unlink_ok f0). }
    rewrite Hstep. destruct (gone f0) eqn:Hg.
    + destruct (IH (n + 1) (delete f0 files) Hnd) as (n' & files' & Hfold & Hlook & Hsize).
      { intros f Hf. rewrite lookup_delete_ne; [|intros <-; contradiction].
        apply Hin. now right. }
      exists n', files'. split; [exact Hfold|]. split.
      * intros f. rewrite Hlook. destruct (decide (f = f0)) as [->|Hne].
        -- rewrite (bool_decide_eq_false_2 _ Hf0), lookup_delete_eq.
           rewrite bool_decide_eq_true_2 by left. now rewrite Hg.
        -- rewrite lookup_delete_ne by congruence.
           destruct (decide (f ∈ l)) as [Hl|Hl].
           ++ rewrite !bool_decide_eq_true_2; [reflexivity|now right|exact Hl].
           ++ rewrite !bool_decide_eq_false_2; [reflexivity| |exact Hl].
              intros H. apply elem_of_cons in H. tauto.
      * destruct (Hin f0) as [x Hx]; [left|].
        assert (Hs : size files = S (size (delete f0 files))).
        { rewrite <- (insert_delete_id files f0 x Hx) at 1.
          rewrite map_size_insert_None; [reflexivity|apply lookup_delete_eq]. }
        lia.
    + destruct (IH n files Hnd) as (n' & files' & Hfold & Hlook & Hsize).
      { intros f Hf. apply Hin. now right. }
      exists n', files'. split; [exact Hfold|]. split; [|exact Hsize].
      intros f. rewrite Hlook. destruct (decide (f = f0)) as [->|Hne].
      * rewrite Hg, !andb_false_r. reflexivity.
      * destruct (decide (f ∈ l)) as [Hl|Hl].
        -- rewrite !bool_decide_eq_true_2; [reflexivity|now right|exact Hl].
        -- rewrite !bool_decide_eq_false_2; [reflexivity| |exact Hl].
           intros H. apply elem_of_cons in H. tauto.
Qed.

(** X6 (cleanup_old_sessions): the clean-up removes exactly the
    session files whose modification time is older than
    [max_age_days] (and whose [stat] and [unlink] succeed), returns
    how many it removed, and leaves the session held in memory as it
    is, even when its own file is among the removed ones. *)
Theorem cleanup_removes_exactly_the_expired (now : Z) (stat : string -> option Z)
    (unlink_ok : string -> bool) (max_age_days : Z) (m : Manager) :
  let r := cleanup_old_sessions now stat unlink_ok max_age_days m in
  (forall f, disk r.2 !! f
             = if expired now stat unlink_ok max_age_days f then None
               else disk m !! f) /\
  r.1 = Z.of_nat (size (disk m)) - Z.of_nat (size (disk r.2)) /\
  current_session r.2 = current_session m /\ session_file r.2 = session_file m.
Proof.
  unfold cleanup_old_sessions.
  destruct (cleanup_fold (now - max_age_days * microseconds_per_day) stat unlink_ok
              (map fst (map_to_list (disk m))) 0 (disk m))
    as (n' & files' & Hfold & Hlook & Hsize).
  { apply NoDup_fst_map_to_list. }
  { intros f Hf. apply list_elem_of_fmap in Hf. destruct Hf as ([g s] & -> & Hgs).
    apply elem_of_map_to_list in Hgs. cbn. eauto. }
  rewrite Hfold. cbn [fst snd disk current_session session_file].
  split; [|split; [lia|split; reflexivity]].
  intros f. rewrite Hlook. unfold expired.
  destruct (disk m !! f) as [s|] eqn:Hf.
  - rewrite bool_decide_eq_true_2; [reflexivity|].
    apply list_elem_of_fmap. exists (f, s). split; [reflexivity|].
    now apply elem_of_map_to_list.
  - now destruct (_ && _), (match stat f with Some _ => _ | None => _ end).
Qed.

End CleanupFacts.
(** ** The orchestrator: how a run ends, what it skips *)

Section ClosingFacts.
Import PyStr Py Sessions Orchestrator Invariants Lifecycle.
Context {World QA : Type}.
Variable now_id : World -> string * World.
Variable now_iso : World -> string * World.
Variable settings_checks :
  World -> (gmap string string * list string * list string) * World.
Variable initialize : Value -> World -> Outcome unit * World.
Variable planner_plan : string -> World -> Outcome Dict * World.
Variable writer_write : Value -> string -> World -> Outcome Dict * World.
Variable qa_new : QA.
Variable qa_review_content : QA -> Value -> World -> Outcome (Dict * QA) * World.
Variable qa_revise_if_needed : QA -> Value -> Dict -> World -> Outcome (Dict * QA) * World.
Variable consistency_validate : Value -> World -> Outcome Dict * World.
Variable consistency_fix_if_needed : Value -> Dict -> World -> Outcome Dict * World.

#[local] Abbreviation anything := (fun _ : Manager => True).
#[local] Abbreviation closes c := (triple armed c (fun _ m => closed m) anything).

Lemma armed_update (n : nat) (stage : string) (result : Dict) (success : Value) :
  STAGES !! n = Some stage ->
  triple armed (sm_update now_iso stage result success) (fun _ m => armed m) anything.
Proof.
  intros Hn m w Harm. unfold sm_update.
  destruct (update_stage_returns now_iso n stage result success m w Hn Harm)
    as (m' & w' & -> & Harm'). exact Harm'.
Qed.

Lemma closed_mark_failed (stage err : string) :
  closes (sm_mark_failed now_iso stage err).
Proof.
  intros m w (s & f & Hcur & Hfile). unfold sm_mark_failed, mark_failed. rewrite Hcur.
  destruct (now_iso w) as [t w1].
  unfold closed, save_session, with_session.
  cbn [current_session session_file disk journal]. rewrite Hfile.
  cbn [current_session session_file disk journal].
  eexists _, f. split; [reflexivity|]. split; [reflexivity|].
  split; [apply lookup_insert_eq|]. discriminate.
Qed.

Lemma closed_mark_complete (score : Value) :
  closes (sm_mark_complete now_iso score).
Proof.
  intros m w Harm. unfold sm_mark_complete.
  pose proof (mark_complete_marks now_iso score m w Harm) as Hmark.
  destruct (mark_complete now_iso score m w) as [m' w'].
  destruct Hmark as (s & f & Hcur & Hfile & Hdisk & _ & Hst).
  exists s, f. rewrite Hst. repeat split; auto; discriminate.
Qed.

Lemma triple_then_ret {A B} (c : RunM (World:=World) A) (b : B) :
  closes c -> closes (bind c (fun _ => ret b)).
Proof.
  intros Hc. eapply triple_bind; [exact Hc|]. intros a.
  apply triple_ret_to. auto.
Qed.

Lemma closed_classify (prompt sid : string)
    (settings planning writing_result qa_result consistency_result : option Dict) :
  closes (classify now_iso prompt sid settings planning writing_result qa_result
                   consistency_result).
Proof.
  unfold classify.
  eapply triple_bind; [apply triple_item_of; trivial|]. intros writing_ok.
  apply triple_assume. intros _.
  eapply triple_bind; [apply triple_get_of; trivial|]. intros qa_approved.
  apply triple_assume. intros _.
  eapply triple_bind; [apply triple_get_of; trivial|]. intros consistency_approved.
  apply triple_assume. intros _. cbv zeta.
  destruct (truth (py_and (py_and _ _) _)); [|destruct (truth (py_and _ _))].
  - eapply triple_bind; [apply triple_get_of; trivial|]. intros score.
    apply triple_assume. intros _. apply triple_then_ret, closed_mark_complete.
  - eapply triple_bind; [apply triple_get_of; trivial|]. intros score.
    apply triple_assume. intros _. apply triple_then_ret, closed_mark_complete.
  - apply triple_then_ret, closed_mark_failed.
Qed.

Lemma closed_consistency (prompt sid : string)
    (settings planning writing_result qa_result : option Dict) (project_path : Value) :
  closes (consistency_stage now_iso consistency_validate consistency_fix_if_needed
            prompt sid settings planning writing_result qa_result project_path).
Proof.
  unfold consistency_stage.
  eapply triple_bind; [apply triple_should_skip|].
  intros skip. eapply triple_pre; [|intros m0 [H _]; exact H].
  destruct skip; cbn [negb].
  - eapply triple_bind; [apply triple_stage_result|]. intros consistency_result.
    apply closed_classify.
  - eapply triple_bind; [apply triple_agent; trivial|]. intros consistency_result.
    eapply triple_bind.
    { apply triple_frame; [|trivial].
      destruct (_ && _); [|apply leaves_ret].
      apply leaves_bind; [apply leaves_agent|]. intros fix_result.
      destruct (truth _); [apply leaves_agent|apply leaves_ret]. }
    intros consistency_result'.
    eapply triple_bind; [apply (armed_update 4); reflexivity|]. intros [].
    apply closed_classify.
Qed.

Lemma closed_qa (prompt sid : string)
    (settings planning_result writing_result : option Dict) :
  closes (qa_stage now_iso qa_new qa_review_content qa_revise_if_needed
            consistency_validate consistency_fix_if_needed
            prompt sid settings planning_result writing_result).
Proof.
  unfold qa_stage.
  eapply triple_bind; [apply triple_get_of; trivial|]. intros project_path.
  apply triple_assume. intros _.
  eapply triple_bind; [apply triple_should_skip|].
  intros skip. eapply triple_pre; [|intros m0 [H _]; exact H].
  destruct skip; cbn [negb].
  - eapply triple_bind; [apply triple_stage_result|]. intros qa_result.
    apply closed_consistency.
  - eapply triple_bind; [apply triple_agent; trivial|]. intros [qa_result qa_agent].
    eapply triple_bind;
      [apply triple_frame; [apply leaves_revision_loop|trivial]|].
    intros [[qa_result' qa_agent'] cycles].
    eapply triple_bind; [apply (armed_update 3); reflexivity|]. intros [].
    apply closed_consistency.
Qed.

Lemma closed_writing (prompt sid : string) (settings planning_result : option Dict) :
  closes (writing_stage now_iso writer_write qa_new qa_review_content
            qa_revise_if_needed consistency_validate consistency_fix_if_needed
            prompt sid settings planning_result).
Proof.
  unfold writing_stage.
  eapply triple_bind; [apply triple_should_skip|].
  intros skip. eapply triple_pre; [|intros m0 [H _]; exact H].
  destruct skip; cbn [negb].
  - eapply triple_bind; [apply triple_stage_result|]. intros writing_result.
    apply closed_qa.
  - eapply triple_bind; [apply triple_get_of; trivial|]. intros project_path.
    apply triple_assume. intros _.
    eapply triple_bind; [apply triple_agent; trivial|]. intros writing_result.
    eapply triple_bind; [apply triple_item_of; trivial|]. intros success.
    apply triple_assume. intros _.
    eapply triple_bind; [apply (armed_update 2); reflexivity|]. intros [].
    destruct (truth success); cbn [negb]; [apply closed_qa|].
    apply triple_then_ret, closed_mark_failed.
Qed.

Lemma closed_planning (prompt sid : string) (settings : option Dict) :
  closes (planning_stage now_iso planner_plan writer_write qa_new qa_review_content
            qa_revise_if_needed consistency_validate consistency_fix_if_needed
            prompt sid settings).
Proof.
  unfold planning_stage.
  eapply triple_bind; [apply triple_should_skip|].
  intros skip. eapply triple_pre; [|intros m0 [H _]; exact H].
  destruct skip; cbn [negb].
  - eapply triple_bind; [apply triple_stage_result|]. intros planning_result.
    apply closed_writing.
  - eapply triple_bind; [apply triple_agent; trivial|]. intros planning_result.
    eapply triple_bind; [apply triple_item_of; trivial|]. intros success.
    apply triple_assume. intros _.
    eapply triple_bind; [apply (armed_update 1); reflexivity|]. intros [].
    destruct (truth success); cbn [negb]; [apply closed_writing|].
    apply triple_then_ret, closed_mark_failed.
Qed.

Lemma closed_settings (prompt sid : string) :
  closes (settings_stage now_iso settings_checks initialize planner_plan writer_write
            qa_new qa_review_content qa_revise_if_needed consistency_validate
            consistency_fix_if_needed prompt sid).
Proof.
  unfold settings_stage.
  eapply triple_bind; [apply triple_should_skip|].
  intros skip. eapply triple_pre; [|intros m0 [H _]; exact H].
  destruct skip; cbn [negb].
  - eapply triple_bind; [apply triple_stage_result|]. intros settings.
    eapply triple_bind; [apply triple_item_of; trivial|]. intros config.
    apply triple_assume. intros _.
    eapply triple_bind; [apply triple_agent; trivial|]. intros [].
    apply closed_planning.
  - eapply triple_bind; [apply triple_agent; trivial|].
    intros [[config errors] warnings].
    eapply triple_bind; [apply (armed_update 0); reflexivity|]. intros [].
    destruct errors as [|e errors]; cbn [negb].
    + eapply triple_bind; [apply triple_agent; trivial|]. intros [].
      apply closed_planning.
    + apply triple_then_ret, closed_mark_failed.
Qed.

(** X7 (StoryForgeOrchestrator.run, get_incomplete_sessions): every
    run that returns, fresh or resumed and whatever the agents answer,
    leaves its session saved with a status other than "in_progress"
    (the last step of every path is [mark_complete] or [mark_failed]);
    the session is therefore not offered by
    [get_incomplete_sessions]: only a run that raised leaves a
    session to resume. *)
Theorem returned_run_closes_its_session (prompt : string)
    (resume_session_id : option string) (m : Manager) (w : World) :
  match run now_id now_iso settings_checks initialize planner_plan writer_write
            qa_new qa_review_content qa_revise_if_needed consistency_validate
            consistency_fix_if_needed prompt resume_session_id (m, w) with
  | (Returned r, (m', _)) =>
      closed m' /\
      forall s, current_session m' = Some s -> ~ In s (get_incomplete_sessions m')
  | (Raised _, _) => True
  end.
Proof.
  assert (Hrun : triple (fun _ => True)
            (run now_id now_iso settings_checks initialize planner_plan writer_write
                 qa_new qa_review_content qa_revise_if_needed consistency_validate
                 consistency_fix_if_needed prompt resume_session_id)
            (fun _ m => closed m) (fun _ => True)).
  { intros m0 w0 _. unfold run.
    assert (Hany : forall m, kept False m) by (intros m1 []).
    pose proof (create_session_ready now_id now_iso False prompt m0 w0 (Hany m0))
      as Hfresh.
    destruct (create_session now_id now_iso prompt m0 w0) as [[s0 m1] w1].
    cbn [fst snd] in Hfresh.
    assert (Harm : armed m1) by apply Hfresh.
    destruct resume_session_id as [id|]; [destruct (truthy id)|];
      try (apply closed_settings; exact Harm).
    destruct (load_session id m0) as [[s|] m'] eqn:Hload;
      [|apply closed_settings; exact Harm].
    apply closed_settings.
    apply (load_session_ready False id m0 m' s (Hany m0) Hload). }
  specialize (Hrun m w I).
  destruct (run _ _ _ _ _ _ _ _ _ _ _ _ _ _) as [[r|e] [m' w']]; [|exact I].
  split; [exact Hrun|].
  destruct Hrun as (s & f & Hcur & _ & _ & Hst).
  intros s' Hs' Hin. rewrite Hcur in Hs'. injection Hs' as <-.
  apply Hst. now apply (incomplete_sessions_in_progress m').
Qed.

End ClosingFacts.
Section SkippingFacts.
Import PyStr Py Sessions Orchestrator Invariants Lifecycle.
Context {World QA : Type}.
Variable now_id : World -> string * World.
Variable now_iso : World -> string * World.
Variable initialize : Value -> World -> Outcome unit * World.
Variable qa_new : QA.
Variable qa_review_content : QA -> Value -> World -> Outcome (Dict * QA) * World.
Variable qa_revise_if_needed : QA -> Value -> Dict -> World -> Outcome (Dict * QA) * World.
Variable consistency_validate : Value -> World -> Outcome Dict * World.
Variable consistency_fix_if_needed : Value -> Dict -> World -> Outcome Dict * World.
(** Two choices of the agents of the first three stages. *)
Variables settings_checks settings_checks' :
  World -> (gmap string string * list string * list string) * World.
Variables planner_plan planner_plan' : string -> World -> Outcome Dict * World.
Variables writer_write writer_write' : Value -> string -> World -> Outcome Dict * World.

Lemma writing_skipped (prompt sid : string) (settings planning_result : option Dict)
    (m : Manager) (w : World) :
  should_skip_stage "writing" m = true ->
  writing_stage now_iso writer_write qa_new qa_review_content qa_revise_if_needed
    consistency_validate consistency_fix_if_needed prompt sid settings planning_result
    (m, w)
  = writing_stage now_iso writer_write' qa_new qa_review_content qa_revise_if_needed
      consistency_validate consistency_fix_if_needed prompt sid settings planning_result
      (m, w).
Proof.
  intros Hskip. unfold writing_stage, bind, sm_should_skip. now rewrite Hskip.
Qed.

Lemma planning_skipped (prompt sid : string) (settings : option Dict)
    (m : Manager) (w : World) :
  should_skip_stage "planning" m = true -> should_skip_stage "writing" m = true ->
  planning_stage now_iso planner_plan writer_write qa_new qa_review_content
    qa_revise_if_needed consistency_validate consistency_fix_if_needed
    prompt sid settings (m, w)
  = planning_stage now_iso planner_plan' writer_write' qa_new qa_review_content
      qa_revise_if_needed consistency_validate consistency_fix_if_needed
      prompt sid settings (m, w).
Proof.
  intros Hp Hw. unfold planning_stage, bind, sm_should_skip. rewrite Hp.
  cbn [negb sm_stage_result]. now apply writing_skipped.
Qed.

Lemma settings_skipped (prompt sid : string) (m : Manager) (w : World) :
  should_skip_stage "settings" m = true ->
  should_skip_stage "planning" m = true -> should_skip_stage "writing" m = true ->
  settings_stage now_iso settings_checks initialize planner_plan writer_write
    qa_new qa_review_content qa_revise_if_needed consistency_validate
    consistency_fix_if_needed prompt sid (m, w)
  = settings_stage now_iso settings_checks' initialize planner_plan' writer_write'
      qa_new qa_review_content qa_revise_if_needed consistency_validate
      consistency_fix_if_needed prompt sid (m, w).
Proof.
  intros Hs Hp Hw. unfold settings_stage, bind, sm_should_skip. rewrite Hs.
  cbn [negb sm_stage_result].
  destruct (item_of (get_stage_result "settings" m) "config" (m, w))
    as [[config|e] [m1 w1]] eqn:Hitem; [|reflexivity].
  assert (m1 = m) as ->.
  { unfold item_of, ret, raise in Hitem.
    destruct (get_stage_result "settings" m) as [d|];
      [destruct (d !! "config")|]; now inversion Hitem. }
  unfold agent. destruct (initialize config w1) as [[[]|e] w2]; [|reflexivity].
  now apply planning_skipped.
Qed.

(** X8 (StoryForgeOrchestrator.run on a resumed session): when the
    session read from the file has settings, planning and writing
    among its completed stages, the run calls none of the settings
    checks, the planner and the writer: its outcome, the manager and
    the world it leaves are the same whatever these three would do. *)
Theorem resumed_run_skips_completed_stages (prompt id : string) (s : Session)
    (m : Manager) (w : World) :
  truthy id = true -> disk m !! file_of id = Some s ->
  In "settings" (completed_stages s) -> In "planning" (completed_stages s) ->
  In "writing" (completed_stages s) ->
  run now_id now_iso settings_checks initialize planner_plan writer_write
      qa_new qa_review_content qa_revise_if_needed consistency_validate
      consistency_fix_if_needed prompt (Some id) (m, w)
  = run now_id now_iso settings_checks' initialize planner_plan' writer_write'
        qa_new qa_review_content qa_revise_if_needed consistency_validate
        consistency_fix_if_needed prompt (Some id) (m, w).
Proof.
  intros Hid Hdisk Hs Hp Hw. unfold run.
  destruct (create_session now_id now_iso prompt m w) as [[s0 m0] w0].
  rewrite Hid. unfold load_session. rewrite Hdisk.
  apply settings_skipped; unfold should_skip_stage; cbn [current_session];
    now apply mem_In.
Qed.

End SkippingFacts.

Section AbortFacts.
Import PyStr Py Sessions Orchestrator Invariants Lifecycle.
Context {World QA : Type}.
Variable now_id : World -> string * World.
Variable now_iso : World -> string * World.
Variable settings_checks :
  World -> (gmap string string * list string * list string) * World.
Variable initialize : Value -> World -> Outcome unit * World.
Variable planner_plan : string -> World -> Outcome Dict * World.
Variable writer_write : Value -> string -> World -> Outcome Dict * World.
Variable qa_new : QA.
Variable qa_review_content : QA -> Value -> World -> Outcome (Dict * QA) * World.
Variable qa_revise_if_needed : QA -> Value -> Dict -> World -> Outcome (Dict * QA) * World.
Variable consistency_validate : Value -> World -> Outcome Dict * World.
Variable consistency_fix_if_needed : Value -> Dict -> World -> Outcome Dict * World.

Lemma bind_returned {A B} (c : RunM (World:=World) A) (k : A -> RunM B)
    (st st' : Manager * World) (a : A) :
  c st = (Returned a, st') -> bind c k st = k a st'.
Proof. intros H. unfold bind. now rewrite H. Qed.

Lemma agent_returned {A} (f : World -> Outcome A * World) (m : Manager)
    (w w' : World) (a : A) :
  f w = (Returned a, w') -> agent f (m, w) = (Returned a, (m, w')).
Proof. intros H. unfold agent. now rewrite H. Qed.

(** [update_stage] on a stage of the fixed order, as the orchestrator
    sees it. *)
Lemma update_returned (stage : string) (result : Dict) (success : Value)
    (m : Manager) (w : World) (s : Session) (f : string) :
  current_session m = Some s -> session_file m = Some f -> In stage STAGES ->
  exists m' w' s',
    sm_update now_iso stage result success (m, w) = (Returned tt, (m', w')) /\
    current_session m' = Some s' /\ session_file m' = Some f /\
    session_id s' = session_id s /\
    completed_stages s'
    = (if truth success && negb (mem stage (completed_stages s))
       then completed_stages s ++ [stage] else completed_stages s).
Proof.
  intros Hcur Hfile Hin. unfold sm_update, update_stage. rewrite Hcur.
  destruct (now_iso w) as [t w1].
  assert (Hi : exists n, index_of stage STAGES = Some n).
  { cbn in Hin. destruct Hin as [<-|[<-|[<-|[<-|[<-|[]]]]]]; eexists; reflexivity. }
  destruct Hi as (n & Hi). rewrite Hi.
  destruct (truth success); [destruct (n <? length STAGES - 1)%nat|];
    eexists _, _, _; (split; [reflexivity|]);
    unfold save_session, with_session;
    cbn [current_session session_file disk journal]; rewrite Hfile;
    cbn [current_session session_file disk journal session_id completed_stages andb];
    (split; [reflexivity|]); (split; [reflexivity|]); (split; [reflexivity|]);
    try reflexivity; now destruct (mem stage (completed_stages s)).
Qed.

Lemma mark_failed_returned (stage err : string) (m : Manager) (w : World)
    (s : Session) (f : string) :
  current_session m = Some s -> session_file m = Some f ->
  exists m' w' s',
    sm_mark_failed now_iso stage err (m, w) = (Returned tt, (m', w')) /\
    current_session m' = Some s' /\ disk m' !! f = Some s' /\
    session_id s' = session_id s /\ completed_stages s' = completed_stages s /\
    status s' = "failed" /\ current_stage s' = stage /\ error s' = Some err.
Proof.
  intros Hcur Hfile. unfold sm_mark_failed, mark_failed. rewrite Hcur.
  destruct (now_iso w) as [t w1].
  eexists _, _, _. split; [reflexivity|].
  unfold save_session, with_session.
  cbn [current_session session_file disk journal]. rewrite Hfile.
  cbn [current_session session_file disk journal].
  split; [reflexivity|]. split; [apply lookup_insert_eq|]. cbn. auto.
Qed.

(** X9 (StoryForgeOrchestrator.run, failed planning): on a fresh run
    whose settings pass and whose client starts, a planner result
    with a false ["success"] ends the run at once: the result has
    success False and no writing, qa, consistency or partial_success
    entry, whatever the later agents would do, and the session is
    saved as failed at "planning" with only settings completed. *)
Theorem failed_planning_stops_the_run (prompt : string) (m : Manager) (w : World) :
  (forall w0, exists config warnings w1, settings_checks w0 = ((config, [], warnings), w1)) ->
  (forall config w0, exists w1, initialize config w0 = (Returned tt, w1)) ->
  (forall w0, exists d v w1,
      planner_plan prompt w0 = (Returned d, w1) /\
      d !! "success" = Some v /\ truth v = false) ->
  exists r m' w' s,
    run now_id now_iso settings_checks initialize planner_plan writer_write
        qa_new qa_review_content qa_revise_if_needed consistency_validate
        consistency_fix_if_needed prompt None (m, w) = (Returned r, (m', w')) /\
    r_success r = VBool false /\ r_partial_success r = None /\
    r_writing r = None /\ r_qa r = None /\ r_consistency r = None /\
    current_session m' = Some s /\ disk m' !! file_of (session_id s) = Some s /\
    status s = "failed" /\ current_stage s = "planning" /\
    error s = Some "Story planning failed" /\ completed_stages s = ["settings"].
Proof.
  intros Hchecks Hinit Hplan. unfold run.
  destruct (create_session_synced now_id now_iso prompt m w)
    as (s0 & m0 & w0 & -> & Hcur0 & Hfile0 & _ & _ & Hdone0 & _).
  (* settings *)
  unfold settings_stage.
  assert (Hskip0 : should_skip_stage "settings" m0 = false).
  { unfold should_skip_stage. now rewrite Hcur0, Hdone0. }
  rewrite (bind_returned _ _ _ (m0, w0) false) by (cbn; now rewrite Hskip0).
  cbn [negb].
  destruct (Hchecks w0) as (config & warnings & w1 & Hc).
  rewrite (bind_returned _ _ _ (m0, w1) (config, [], warnings))
    by (unfold agent; now rewrite Hc).
  cbv beta iota zeta.
  destruct (update_returned "settings"
              (dict_of [("success", VBool true); ("config", VConfig config);
                        ("errors", VList []); ("warnings", VList warnings)])
              (VBool true) m0 w1 s0 _ Hcur0 Hfile0)
    as (m1 & w2 & s1 & Hupd1 & Hcur1 & Hfile1 & Hid1 & Hdone1); [cbn; tauto|].
  rewrite Hdone0 in Hdone1. cbn in Hdone1.
  rewrite (bind_returned _ _ _ _ _ Hupd1). cbn [negb].
  destruct (Hinit (VConfig config) w2) as (w3 & Hi).
  rewrite (bind_returned _ _ _ _ _ (agent_returned _ m1 _ _ _ Hi)).
  (* planning *)
  unfold planning_stage.
  assert (Hskip1 : should_skip_stage "planning" m1 = false).
  { unfold should_skip_stage. now rewrite Hcur1, Hdone1. }
  rewrite (bind_returned _ _ _ (m1, w3) false) by (cbn; now rewrite Hskip1).
  cbn [negb].
  destruct (Hplan w3) as (d & v & w4 & Hp & Hd & Hv).
  rewrite (bind_returned _ _ _ _ _ (agent_returned _ m1 _ _ _ Hp)).
  rewrite (bind_returned _ _ _ (m1, w4) v) by (unfold item_of; now rewrite Hd).
  destruct (update_returned "planning" d v m1 w4 s1 _ Hcur1 Hfile1)
    as (m2 & w5 & s2 & Hupd2 & Hcur2 & Hfile2 & Hid2 & Hdone2); [cbn; tauto|].
  rewrite Hv in Hdone2. cbn [andb] in Hdone2.
  rewrite (bind_returned _ _ _ _ _ Hupd2). rewrite Hv. cbn [negb].
  destruct (mark_failed_returned "planning" "Story planning failed" m2 w5 s2 _
              Hcur2 Hfile2)
    as (m3 & w6 & s3 & Hfail & Hcur3 & Hdisk3 & Hid3 & Hdone3 & Hst3 & Hstage3 & Herr3).
  rewrite (bind_returned _ _ _ _ _ Hfail). unfold ret.
  eexists _, m3, w6, s3. split; [reflexivity|].
  cbn [r_success r_partial_success r_writing r_qa r_consistency mk_results].
  do 5 (split; [reflexivity|]). split; [exact Hcur3|].
  split; [now rewrite Hid3, Hid2, Hid1|].
  split; [exact Hst3|]. split; [exact Hstage3|]. split; [exact Herr3|].
  now rewrite Hdone3, Hdone2.
Qed.

End AbortFacts.
(** ** main.py: unrecoverable errors, the status of an exception, the retry loop *)

Section ProviderFacts.
Import PyStr Retry Provider.

Lemma status_in_spec (sc : option Z) (l : list Z) :
  status_in sc l = true <-> exists n, sc = Some n /\ In n l.
Proof.
  unfold status_in. destruct sc as [n|].
  - rewrite existsb_exists. split.
    + intros (x & Hx & Heq). apply Z.eqb_eq in Heq. subst. eauto.
    + intros (x & [= <-] & Hx). exists n. split; [exact Hx|apply Z.eqb_refl].
  - split; [discriminate|]. now intros (n & [=] & _).
Qed.

(** X10 (is_unrecoverable_error): an error is unrecoverable exactly
    when its status, given or probed on the exception, lies in
    400..499; the tests for 401, 403 and for a 429 with rate-limit
    wording add nothing, and the message plays no part: every 429 is
    unrecoverable, not only the one "with clear rate-limit exceeded"
    of the docstring. *)
Theorem unrecoverable_iff_client_error (exc : Exc) (status : option Z) :
  is_unrecoverable_error exc status = true <->
  exists n, effective_status exc status = Some n /\ 400 <= n < 500.
Proof.
  unfold is_unrecoverable_error. fold (effective_status exc status).
  destruct (effective_status exc status) as [n|]; cbn [status_in existsb].
  - destruct (n =? 401) eqn:H1; [apply Z.eqb_eq in H1|apply Z.eqb_neq in H1];
      cbn [orb].
    { split; [intros _; exists n; split; [reflexivity|lia]|reflexivity]. }
    destruct (n =? 403) eqn:H2; [apply Z.eqb_eq in H2|apply Z.eqb_neq in H2];
      cbn [orb].
    { split; [intros _; exists n; split; [reflexivity|lia]|reflexivity]. }
    destruct (n =? 429) eqn:H3; [apply Z.eqb_eq in H3|apply Z.eqb_neq in H3];
      cbn [orb andb].
    { subst n. destruct (hard_rate_limit _); cbn;
        (split; [intros _; exists 429; split; [reflexivity|lia]|reflexivity]). }
    destruct (n =? 0) eqn:H0; [apply Z.eqb_eq in H0|apply Z.eqb_neq in H0];
      cbn [negb andb].
    { split; [discriminate|]. intros (x & [= <-] & Hx). lia. }
    destruct (400 <=? n) eqn:Hlo; [apply Z.leb_le in Hlo|apply Z.leb_gt in Hlo];
      cbn [andb].
    2:{ split; [discriminate|]. intros (x & [= <-] & Hx). lia. }
    destruct (n <? 500) eqn:Hhi; [apply Z.ltb_lt in Hhi|apply Z.ltb_ge in Hhi].
    + split; [intros _; exists n; split; [reflexivity|lia]|reflexivity].
    + split; [discriminate|]. intros (x & [= <-] & Hx). lia.
  - cbn. split; [discriminate|]. now intros (n & [=] & _).
Qed.

(** X11 (is_transient_error, is_unrecoverable_error): the two
    classifications overlap on one case only: an error is both
    transient and unrecoverable exactly when its status is 429 and its
    message has no hard rate-limit wording. *)
Theorem transient_and_unrecoverable_iff_soft_429 (exc : Exc) (status : option Z) :
  is_transient_error exc status = true /\ is_unrecoverable_error exc status = true <->
  effective_status exc status = Some 429 /\
  hard_rate_limit (lower (exc_str exc)) = false.
Proof.
  rewrite unrecoverable_iff_client_error.
  unfold is_transient_error. fold (effective_status exc status).
  destruct (effective_status exc status) as [n|]; cbn [status_in existsb].
  2:{ split; [intros [_ (n & [=] & _)]|intros [[=] _]]. }
  destruct (Z.eq_dec n 429) as [->|Hne].
  - cbn. destruct (hard_rate_limit _).
    + split; [intros [[=] _]|intros [_ [=]]].
    + split; [auto|]. intros _. split; [reflexivity|]. exists 429. split; [reflexivity|lia].
  - split.
    + intros [Ht (x & [= <-] & Hx)]. exfalso.
      destruct (n =? 400) eqn:H1; cbn [orb] in Ht; [discriminate|].
      destruct (n =? 401) eqn:H2; cbn [orb] in Ht; [discriminate|].
      destruct (n =? 403) eqn:H3; cbn [orb] in Ht; [discriminate|].
      destruct (n =? 429) eqn:H4; [apply Z.eqb_eq in H4; contradiction|].
      cbn [orb] in Ht.
      assert (H0 : (n =? 0) = false) by (apply Z.eqb_neq; lia).
      assert (Hlo : (400 <=? n) = true) by (apply Z.leb_le; lia).
      assert (Hhi : (n <? 500) = true) by (apply Z.ltb_lt; lia).
      rewrite H0, Hlo, Hhi in Ht. discriminate.
    + intros [[= ->] _]. contradiction.
Qed.

(** X12 (_extract_status_from_exception, against the probing loop of
    the two classifiers): the status extracted is the one the
    classifiers probe whenever the exception itself has a convertible
    status attribute, and otherwise the first convertible attribute of
    [exc.response]; the classifiers never look at the response: an
    exception whose status sits on the response only is never
    unrecoverable, whatever that status is, unless the extracted
    status is passed in. *)
Theorem response_status_is_seen_only_when_extracted (e : ExcWithResponse) :
  (forall n, status_of (exc_self e) = Some n ->
             extract_status_from_exception e = Some n) /\
  (status_of (exc_self e) = None ->
   is_unrecoverable_error (exc_self e) None = false /\
   forall n, extract_status_from_exception e = Some n ->
     (exists resp, exc_response e = Some resp /\
        probe [resp_status_code resp; resp_status resp; resp_http_status resp] = Some n) /\
     (is_unrecoverable_error (exc_self e) (extract_status_from_exception e) = true
      <-> 400 <= n < 500)).
Proof.
  unfold extract_status_from_exception. fold (status_of (exc_self e)). split.
  - intros n ->. reflexivity.
  - intros Hnone. rewrite Hnone. split.
    + destruct (is_unrecoverable_error (exc_self e) None) eqn:Hu; [|reflexivity].
      apply unrecoverable_iff_client_error in Hu. destruct Hu as (n & Hn & _).
      unfold effective_status in Hn. congruence.
    + intros n Hn. split.
      * destruct (exc_response e) as [resp|]; [eauto|discriminate].
      * rewrite unrecoverable_iff_client_error.
        destruct (exc_response e) as [resp|]; [|discriminate]. rewrite Hn. cbn.
        split; [intros (x & [= <-] & Hx); exact Hx|eauto].
Qed.

End ProviderFacts.
Section RetryLoopFacts.
Import PyStr Retry Provider.






End RetryLoopFacts.
(** ** qa_agent.py: the triage of review issues *)

Section TriageFacts.
Import PyStr Py QAHelpers.

Lemma first_match_key (issue_lower : string) (kws : list (string * list string))
    (category : string) :
  first_match issue_lower kws = Some category -> In category (map fst kws).
Proof.
  induction kws as [|[c words] rest IH]; cbn; [discriminate|].
  destruct (existsb _ words); [intros [= <-]; now left|]. intros H. right. now apply IH.
Qed.

Lemma category_is_known (issue : string) :
  In (category_of issue) (map fst empty_categories).
Proof.
  unfold category_of. destruct (first_match (lower issue) keywords) as [c|] eqn:E.
  - apply first_match_key in E. exact E.
  - now left.
Qed.

Lemma append_issue_keys (category issue : string) (cats : Categories) :
  map fst (append_issue category issue cats) = map fst cats.
Proof.
  unfold append_issue. induction cats as [|[c l] rest IH]; cbn; [reflexivity|].
  rewrite IH. now destruct (String.eqb c category).
Qed.

Lemma issues_of_append (category issue other : string) (cats : Categories) :
  In other (map fst cats) ->
  issues_of other (append_issue category issue cats)
  = issues_of other cats ++ (if String.eqb category other then [issue] else []).
Proof.
  unfold append_issue. induction cats as [|[c l] rest IH]; cbn; [tauto|].
  intros Hin. destruct (String.eqb_spec c category) as [->|Hc]; cbn.
  - destruct (String.eqb_spec category other) as [->|Hne]; [reflexivity|].
    destruct Hin as [Heq|Hin]; [contradiction|]. rewrite (IH Hin).
    destruct (String.eqb_spec category other); [contradiction|reflexivity].
  - destruct (String.eqb_spec c other) as [->|Hne].
    + destruct (String.eqb_spec category other); [congruence|].
      now rewrite app_nil_r.
    + destruct Hin as [Heq|Hin]; [contradiction|]. exact (IH Hin).
Qed.

Lemma fold_categorize_keys (issues : list string) (cats : Categories) :
  map fst (fold_left categorize_one issues cats) = map fst cats.
Proof.
  revert cats. induction issues as [|i issues IH]; intros cats; cbn; [reflexivity|].
  rewrite IH. apply append_issue_keys.
Qed.

Lemma fold_categorize_issues_of (issues : list string) (cats : Categories)
    (category : string) :
  In category (map fst cats) ->
  issues_of category (fold_left categorize_one issues cats)
  = issues_of category cats
    ++ List.filter (fun i => String.eqb (category_of i) category) issues.
Proof.
  revert cats. induction issues as [|i issues IH]; intros cats Hin; cbn [fold_left].
  - cbn. now rewrite app_nil_r.
  - rewrite IH by (unfold categorize_one; now rewrite append_issue_keys).
    unfold categorize_one. rewrite issues_of_append by exact Hin.
    cbn [List.filter]. destruct (String.eqb (category_of i) category).
    + now rewrite <- app_assoc.
    + now rewrite app_nil_r.
Qed.

Lemma concat_append_issue (category issue : string) (cats : Categories) :
  NoDup (map fst cats) -> In category (map fst cats) ->
  concat (map snd (append_issue category issue cats))
  ≡ₚ concat (map snd cats) ++ [issue].
Proof.
  unfold append_issue. induction cats as [|[c l] rest IH]; cbn; [tauto|].
  intros Hnd Hin. apply NoDup_cons in Hnd. destruct Hnd as [Hc Hnd].
  destruct (String.eqb_spec c category) as [->|Hne]; cbn.
  - assert (Hrest : map (fun '(c, l0) => if String.eqb c category
                                          then (c, l0 ++ [issue]) else (c, l0)) rest
                    = rest).
    { clear IH Hin Hnd. induction rest as [|[c' l'] rest IH]; cbn; [reflexivity|].
      destruct (String.eqb_spec c' category) as [->|Hne].
      - exfalso. apply Hc. cbn. left.
      - rewrite IH; [reflexivity|]. intros H. apply Hc. cbn. now right. }
    rewrite Hrest, <- !app_assoc. apply Permutation_app_head, Permutation_app_comm.
  - destruct Hin as [Heq|Hin]; [contradiction|].
    rewrite (IH Hnd Hin). now rewrite app_assoc.
Qed.

Lemma first_match_none (issue_lower : string) (kws : list (string * list string)) :
  (forall category words kw,
     In (category, words) kws -> In kw words -> contains kw issue_lower = false) ->
  first_match issue_lower kws = None.
Proof.
  induction kws as [|[category words] kws IH]; intros H; cbn [first_match];
    [reflexivity|].
  destruct (existsb _ words) eqn:Hw.
  - apply existsb_exists in Hw. destruct Hw as (kw & Hin & Hkw).
    rewrite (H category words kw (or_introl eq_refl) Hin) in Hkw. discriminate.
  - apply IH. intros c ws kw Hc. apply (H c ws kw). now right.
Qed.

(** X15 (_categorize_issues): every issue is filed exactly once: the
    seven lists together hold the issues of the review, each list
    holds, in the order of the review, the issues whose first matching
    category it is, and no key is added to the dict.  An issue in
    which no keyword occurs is filed under "prose". *)
Theorem categorize_files_every_issue_once (issues : list string) :
  map fst (categorize_issues issues) = map fst empty_categories /\
  concat (map snd (categorize_issues issues)) ≡ₚ issues /\
  (forall category, In category (map fst empty_categories) ->
     issues_of category (categorize_issues issues)
     = List.filter (fun i => String.eqb (category_of i) category) issues) /\
  (forall issue,
     In issue issues ->
     (forall category words kw,
        In (category, words) keywords -> In kw words ->
        contains kw (lower issue) = false) ->
     In issue (issues_of "prose" (categorize_issues issues))).
Proof.
  assert (Hlists : forall category, In category (map fst empty_categories) ->
            issues_of category (categorize_issues issues)
            = List.filter (fun i => String.eqb (category_of i) category) issues).
  { unfold categorize_issues. intros category Hin.
    rewrite fold_categorize_issues_of by exact Hin.
    cbn in Hin. destruct Hin as [<-|[<-|[<-|[<-|[<-|[<-|[<-|[]]]]]]]]; reflexivity. }
  split; [apply fold_categorize_keys|]. split; [|split; [exact Hlists|]].
  - clear Hlists. unfold categorize_issues.
    assert (H : forall cats, map fst cats = map fst empty_categories ->
                  concat (map snd (fold_left categorize_one issues cats))
                  ≡ₚ concat (map snd cats) ++ issues).
    { induction issues as [|i issues IH]; intros cats Hk; cbn [fold_left].
      - now rewrite app_nil_r.
      - rewrite IH by (unfold categorize_one; now rewrite append_issue_keys).
        unfold categorize_one. rewrite concat_append_issue.
        + now rewrite <- app_assoc.
        + rewrite Hk. apply (bool_decide_unpack _). vm_compute. exact I.
        + rewrite Hk. apply category_is_known. }
    now rewrite H.
  - intros issue Hin Hnone. rewrite Hlists by (cbn; tauto).
    apply filter_In. split; [exact Hin|].
    unfold category_of. now rewrite (first_match_none _ _ Hnone).
Qed.

Lemma existsb_contains_weaken (words words' : list string) (s : string) :
  (forall kw, In kw words -> In kw words') ->
  existsb (fun kw => contains kw s) words = true ->
  existsb (fun kw => contains kw s) words' = true.
Proof.
  intros Hsub H. apply existsb_exists in H. destruct H as (kw & Hin & Hkw).
  apply existsb_exists. exists kw. auto.
Qed.

(** X16 (_categorize_issues, the keyword "voice"): the keyword
    "voice" of the x-factor category never takes effect, because
    "dialogue" lists it too and comes first: an issue that mentions
    voice is filed under prose, show_dont_tell or dialogue, and an
    issue filed under xfactor contains one of the six other x-factor
    keywords. *)
Theorem voice_is_never_an_xfactor_issue (issue : string) :
  (contains "voice" (lower issue) = true ->
   In (category_of issue) ["prose"; "show_dont_tell"; "dialogue"]) /\
  (category_of issue = "xfactor" ->
   existsb (fun kw => contains kw (lower issue)) originality_words = true).
Proof.
  unfold category_of, keywords. cbn [first_match].
  set (s := lower issue).
  destruct (existsb _ _) eqn:E1; [cbn; split; [tauto|discriminate]|].
  destruct (existsb _ _) eqn:E2 in |- *; [cbn; split; [tauto|discriminate]|].
  destruct (existsb _ _) eqn:E3 in |- *; [cbn; split; [tauto|discriminate]|].
  assert (Hv : contains "voice" s = false).
  { cbn [existsb] in E3. now repeat (apply orb_false_elim in E3; destruct E3 as [? E3]). }
  split; [rewrite Hv; discriminate|].
  destruct (existsb _ _) eqn:E4 in |- *; [cbn; discriminate|].
  destruct (existsb _ _) eqn:E5 in |- *; [cbn; discriminate|].
  destruct (existsb _ _) eqn:E6 in |- *; [cbn; discriminate|].
  destruct (existsb _ _) eqn:E7 in |- *; [|cbn; discriminate].
  intros _. cbn [existsb] in E7 |- *. unfold originality_words. cbn [existsb].
  rewrite Hv in E7. cbn [orb] in E7.
  repeat (destruct (contains _ s); [reflexivity|]); cbn in *; congruence.
Qed.

End TriageFacts.
(** ** The agent loops: how many model calls they make *)

Section MeteringFacts.
Import PyStr Py Chat Agents Metering.
Context {World Args : Type}.
Variable json_loads : string -> option Args.
Variable chat_create :
  CallParams -> list Message -> World -> Outcome ModelMessage * World.
Variable tool_map : string -> option (Args -> World -> Outcome string * World).
Variable prompts : Prompts.

#[local] Abbreviation chat := (metered_create chat_create).
#[local] Abbreviation tools := (metered_tools tool_map).

Lemma chat_counts (p : CallParams) (messages : list Message) (st : World * nat) :
  (chat p messages st).2.2 = S st.2.
Proof. unfold metered_create. now destruct (chat_create p messages st.1). Qed.

Lemma tool_call_keeps_count (track report : bool) (tc : ToolCall)
    (st : list Message * Value) (ws : World * nat) :
  (run_tool_call json_loads tools track report tc st ws).2.2 = ws.2.
Proof.
  unfold run_tool_call, metered_tools. destruct st as [messages project_path].
  destruct (json_loads (tc_arguments tc)) as [args|]; [|reflexivity].
  destruct (tool_map (tc_name tc)) as [tool|]; [|reflexivity].
  destruct (tool args ws.1) as [[result|e] w']; [reflexivity|].
  now destruct report.
Qed.

Lemma tool_calls_keep_count (track report : bool) (tcs : list ToolCall)
    (st : list Message * Value) (ws : World * nat) :
  (run_tool_calls json_loads tools track report tcs st ws).2.2 = ws.2.
Proof.
  revert st ws. induction tcs as [|tc tcs IH]; intros st ws; cbn [run_tool_calls];
    [reflexivity|].
  pose proof (tool_call_keeps_count track report tc st ws) as H.
  destruct (run_tool_call json_loads tools track report tc st ws) as [st' ws'].
  rewrite IH. exact H.
Qed.

Lemma review_loop_count (threshold : Z) (fuel : nat) (messages : list Message)
    (ws : World * nat) :
  ((review_loop json_loads chat tools threshold fuel messages ws).2.2
   <= ws.2 + fuel)%nat.
Proof.
  revert messages ws. induction fuel as [|fuel IH]; intros messages ws;
    cbn [review_loop]; [cbn; lia|].
  pose proof (chat_counts (loop_params (3 # 10)) messages ws) as Hc.
  destruct (chat (loop_params (3 # 10)) messages ws) as [[message|e] ws1];
    cbn [snd] in *; [|lia].
  destruct (contains _ _); [cbn [snd]; lia|].
  pose proof (tool_calls_keep_count false true (mm_tool_calls message)
                (messages ++ [assistant_msg (content_or_empty message)
                                            (mm_tool_calls message)], VNone) ws1) as Ht.
  destruct (run_tool_calls _ _ _ _ _ _ _) as [[messages2 pp] ws2].
  cbn [snd] in Ht. specialize (IH messages2 ws2). lia.
Qed.

Lemma validate_loop_count (fuel : nat) (messages : list Message) (ws : World * nat) :
  ((validate_loop json_loads chat tools fuel messages ws).2.2 <= ws.2 + fuel)%nat.
Proof.
  revert messages ws. induction fuel as [|fuel IH]; intros messages ws;
    cbn [validate_loop]; [cbn; lia|].
  pose proof (chat_counts (loop_params (2 # 10)) messages ws) as Hc.
  destruct (chat (loop_params (2 # 10)) messages ws) as [[message|e] ws1];
    cbn [snd] in *; [|lia].
  destruct (contains _ _); [cbn [snd]; lia|].
  pose proof (tool_calls_keep_count false true (mm_tool_calls message)
                (messages ++ [assistant_msg (content_or_empty message)
                                            (mm_tool_calls message)], VNone) ws1) as Ht.
  destruct (run_tool_calls _ _ _ _ _ _ _) as [[messages2 pp] ws2].
  cbn [snd] in Ht. specialize (IH messages2 ws2). lia.
Qed.

Lemma revise_loop_count (fuel iteration : nat) (messages : list Message)
    (ws : World * nat) :
  ((revise_loop json_loads chat tools fuel iteration messages ws).2.2
   <= ws.2 + fuel)%nat.
Proof.
  revert iteration messages ws. induction fuel as [|fuel IH];
    intros iteration messages ws; cbn [revise_loop]; [cbn; lia|].
  pose proof (chat_counts (loop_params (7 # 10)) messages ws) as Hc.
  destruct (chat (loop_params (7 # 10)) messages ws) as [[message|e] ws1];
    cbn [snd] in *; [|lia].
  destruct (contains _ _); [cbn [snd]; lia|].
  pose proof (tool_calls_keep_count false false (mm_tool_calls message)
                (messages ++ [assistant_msg (content_or_empty message)
                                            (mm_tool_calls message)], VNone) ws1) as Ht.
  destruct (run_tool_calls _ _ _ _ _ _ _) as [[messages2 pp] ws2].
  cbn [snd] in Ht. specialize (IH (S iteration) messages2 ws2). lia.
Qed.

Lemma validate_count (project_path : Value) (ws : World * nat) :
  ((validate_consistency json_loads chat tools prompts project_path ws).2.2
   <= ws.2 + 8)%nat.
Proof.
  unfold validate_consistency.
  pose proof (validate_loop_count consistency_max_iterations
                [system_msg (consistency_system prompts);
                 user_msg (consistency_user prompts project_path)] ws) as H.
  destruct (validate_loop _ _ _ _ _ _) as [[failed|result] ws'];
    cbn [snd] in *; unfold consistency_max_iterations in H; lia.
Qed.

Lemma fix_loop_count (project_path : Value) (fuel iteration : nat)
    (messages : list Message) (ws : World * nat) :
  ((fix_loop json_loads chat tools prompts project_path fuel iteration messages ws).2.2
   <= ws.2 + fuel * 9)%nat.
Proof.
  revert iteration messages ws. induction fuel as [|fuel IH];
    intros iteration messages ws; cbn [fix_loop]; [cbn; lia|].
  pose proof (chat_counts (loop_params (3 # 10)) messages ws) as Hc.
  destruct (chat (loop_params (3 # 10)) messages ws) as [[message|e] ws1];
    cbn [snd] in *; [|lia].
  destruct (contains _ _).
  - pose proof (validate_count project_path ws1) as Hv.
    destruct (validate_consistency _ _ _ _ _ _) as [verify_result ws2].
    cbn [snd] in Hv.
    destruct (verify_result !! "approved") as [approved|]; [|cbn [snd]; lia].
    destruct (truth approved); [cbn [snd]; lia|].
    destruct (verify_result !! "errors") as [remaining|]; [|cbn [snd]; lia].
    specialize (IH (S iteration)
                   (messages ++ [user_msg (fix_retry_user prompts remaining)]) ws2).
    lia.
  - pose proof (tool_calls_keep_count false false (mm_tool_calls message)
                  (messages ++ [assistant_msg (content_or_empty message)
                                              (mm_tool_calls message)], VNone) ws1) as Ht.
    destruct (run_tool_calls _ _ _ _ _ _ _) as [[messages2 pp] ws2].
    cbn [snd] in Ht. specialize (IH (S iteration) messages2 ws2). lia.
Qed.

Lemma plan_loop_count (fuel iteration : nat) (messages : list Message)
    (project_path : Value) (ws : World * nat) :
  ((plan_loop json_loads chat tools prompts fuel iteration messages project_path ws).2.2
   <= ws.2 + fuel + 1)%nat.
Proof.
  revert iteration messages project_path ws. induction fuel as [|fuel IH];
    intros iteration messages project_path ws; cbn [plan_loop]; [cbn; lia|].
  pose proof (chat_counts (loop_params (7 # 10)) messages ws) as Hc.
  destruct (chat (loop_params (7 # 10)) messages ws) as [[message|e] ws1];
    cbn [snd] in *; [|lia].
  destruct (contains _ _).
  - unfold critique_and_refine.
    pose proof (chat_counts {| with_tools := true; temperature := 5 # 10;
                               max_tokens := Some 2000 |}
                  (messages ++ [user_msg (critique_prompt prompts)]) ws1) as Hc2.
    destruct (chat _ _ ws1) as [[m2|e2] ws2]; cbn [snd] in *; lia.
  - pose proof (tool_calls_keep_count true true (mm_tool_calls message)
                  (messages ++ [assistant_msg (content_or_empty message)
                                              (mm_tool_calls message)], project_path)
                  ws1) as Ht.
    destruct (run_tool_calls _ _ _ _ _ _ _) as [[messages2 pp] ws2].
    cbn [snd] in Ht. specialize (IH (S iteration) messages2 pp ws2). lia.
Qed.

(** X17 (plan, review_content, revise_if_needed, validate_consistency,
    fix_if_needed): each agent method makes a bounded number of model
    calls, whatever the model answers and whatever the tools do: at
    most 14 for a plan (brainstorm, two hierarchy calls, ten loop
    iterations, one critique), 5 for a review, 3 for a revision, 8 for
    a validation, and 90 for a fix (ten iterations, each with one
    verification of up to 8 calls). *)
Theorem agent_loops_are_bounded (agent : QAAgent) (project_path : Value)
    (request file_path phase : string) (result : Dict) (w : World) (n : nat) :
  ((plan json_loads chat tools prompts request (w, n)).2.2 <= n + 14)%nat /\
  ((review_content json_loads chat tools prompts agent project_path file_path phase
      (w, n)).2.2 <= n + 5)%nat /\
  ((revise_if_needed json_loads chat tools prompts project_path result file_path
      (w, n)).2.2 <= n + 3)%nat /\
  ((validate_consistency json_loads chat tools prompts project_path (w, n)).2.2
   <= n + 8)%nat /\
  ((fix_if_needed json_loads chat tools prompts project_path result (w, n)).2.2
   <= n + 90)%nat.
Proof.
  split; [|split; [|split; [|split]]].
  - unfold plan, brainstorm_concepts.
    pose proof (chat_counts {| with_tools := false; temperature := 8 # 10;
                               max_tokens := Some 1000 |}
                  [system_msg (brainstorm_system prompts); user_msg request] (w, n))
      as H1.
    destruct (chat _ _ (w, n)) as [[m1|e1] ws1]; cbn [snd] in H1.
    + destruct (mm_content m1) as [concept|]; [|cbn [snd]; lia].
      unfold hierarchical_planning.
      pose proof (chat_counts {| with_tools := false; temperature := 6 # 10;
                                 max_tokens := Some 500 |}
                    [system_msg (arc_system prompts);
                     user_msg (arc_user prompts concept)] ws1) as H2.
      destruct (chat _ _ ws1) as [[m2|e2] ws2]; cbn [snd] in H2.
      * destruct (Re.search episode_attempt (lower request)) as [d|].
        -- pose proof (chat_counts {| with_tools := false; temperature := 6 # 10;
                                      max_tokens := Some 800 |}
                         [system_msg (beats_system prompts);
                          user_msg (beats_user prompts (int_of_digits d)
                                               (mm_content m2))] ws2) as H3.
           destruct (chat _ _ ws2) as [[m3|e3] ws3]; cbn [snd] in H3.
           ++ match goal with
              | |- context [plan_loop ?j ?c ?t ?p ?f ?i ?ms ?pp ws3] =>
                  pose proof (plan_loop_count f i ms pp ws3) as H4;
                  destruct (plan_loop j c t p f i ms pp ws3) as [d4 ws4]
              end.
              cbn [snd] in *. unfold planner_max_iterations in H4. lia.
           ++ match goal with
              | |- context [plan_loop ?j ?c ?t ?p ?f ?i ?ms ?pp ws3] =>
                  pose proof (plan_loop_count f i ms pp ws3) as H4;
                  destruct (plan_loop j c t p f i ms pp ws3) as [d4 ws4]
              end.
              cbn [snd] in *. unfold planner_max_iterations in H4. lia.
        -- match goal with
           | |- context [plan_loop ?j ?c ?t ?p ?f ?i ?ms ?pp ws2] =>
               pose proof (plan_loop_count f i ms pp ws2) as H4;
               destruct (plan_loop j c t p f i ms pp ws2) as [d4 ws4]
           end.
           cbn [snd] in *. unfold planner_max_iterations in H4. lia.
      * match goal with
        | |- context [plan_loop ?j ?c ?t ?p ?f ?i ?ms ?pp ws2] =>
            pose proof (plan_loop_count f i ms pp ws2) as H4;
            destruct (plan_loop j c t p f i ms pp ws2) as [d4 ws4]
        end.
        cbn [snd] in *. unfold planner_max_iterations in H4. lia.
    + unfold hierarchical_planning.
      pose proof (chat_counts {| with_tools := false; temperature := 6 # 10;
                                 max_tokens := Some 500 |}
                    [system_msg (arc_system prompts);
                     user_msg (arc_user prompts request)] ws1) as H2.
      destruct (chat _ _ ws1) as [[m2|e2] ws2]; cbn [snd] in H2.
      * destruct (Re.search episode_attempt (lower request)) as [d|].
        -- pose proof (chat_counts {| with_tools := false; temperature := 6 # 10;
                                      max_tokens := Some 800 |}
                         [system_msg (beats_system prompts);
                          user_msg (beats_user prompts (int_of_digits d)
                                               (mm_content m2))] ws2) as H3.
           destruct (chat _ _ ws2) as [[m3|e3] ws3]; cbn [snd] in H3.
           ++ match goal with
              | |- context [plan_loop ?j ?c ?t ?p ?f ?i ?ms ?pp ws3] =>
                  pose proof (plan_loop_count f i ms pp ws3) as H4;
                  destruct (plan_loop j c t p f i ms pp ws3) as [d4 ws4]
              end.
              cbn [snd] in *. unfold planner_max_iterations in H4. lia.
           ++ match goal with
              | |- context [plan_loop ?j ?c ?t ?p ?f ?i ?ms ?pp ws3] =>
                  pose proof (plan_loop_count f i ms pp ws3) as H4;
                  destruct (plan_loop j c t p f i ms pp ws3) as [d4 ws4]
              end.
              cbn [snd] in *. unfold planner_max_iterations in H4. lia.
        -- match goal with
           | |- context [plan_loop ?j ?c ?t ?p ?f ?i ?ms ?pp ws2] =>
               pose proof (plan_loop_count f i ms pp ws2) as H4;
               destruct (plan_loop j c t p f i ms pp ws2) as [d4 ws4]
           end.
           cbn [snd] in *. unfold planner_max_iterations in H4. lia.
      * match goal with
        | |- context [plan_loop ?j ?c ?t ?p ?f ?i ?ms ?pp ws2] =>
            pose proof (plan_loop_count f i ms pp ws2) as H4;
            destruct (plan_loop j c t p f i ms pp ws2) as [d4 ws4]
        end.
        cbn [snd] in *. unfold planner_max_iterations in H4. lia.
  - unfold review_content.
    match goal with
    | |- context [review_loop ?j ?c ?t ?th ?f ?ms (w, n)] =>
        pose proof (review_loop_count th f ms (w, n)) as H;
        destruct (review_loop j c t th f ms (w, n)) as [[failed|r] ws']
    end; cbn [snd] in *; unfold qa_max_iterations in H; lia.
  - unfold revise_if_needed.
    destruct (result !! "approved") as [approved|]; [|cbn; lia].
    destruct (truth approved); [cbn; lia|].
    destruct (result !! "score"); [|cbn; lia].
    destruct (result !! "issues"); [|cbn; lia].
    destruct (result !! "suggestions"); [|cbn; lia].
    match goal with
    | |- context [revise_loop ?j ?c ?t ?f ?i ?ms (w, n)] =>
        pose proof (revise_loop_count f i ms (w, n)) as H;
        destruct (revise_loop j c t f i ms (w, n)) as [d ws']
    end; cbn [snd] in *; unfold revise_max_iterations in H; lia.
  - exact (validate_count project_path (w, n)).
  - unfold fix_if_needed.
    destruct (result !! "approved") as [approved|]; [|cbn; lia].
    destruct (truth approved); [cbn; lia|].
    destruct (result !! "errors"); [|cbn; lia].
    match goal with
    | |- context [fix_loop ?j ?c ?t ?p ?pp ?f ?i ?ms (w, n)] =>
        pose proof (fix_loop_count pp f i ms (w, n)) as H;
        destruct (fix_loop j c t p pp f i ms (w, n)) as [d ws']
    end; cbn [snd] in *; unfold fix_max_iterations in H; lia.
Qed.

End MeteringFacts.
(** ** consistency_agent.py: approval against errors, fixes against verification *)

Section ConsistencyFacts.
Import PyStr Re Py Chat Report Agents.



Context {World Args : Type}.
Variable json_loads : string -> option Args.
Variable chat_create :
  CallParams -> list Message -> World -> Outcome ModelMessage * World.
Variable tool_map : string -> option (Args -> World -> Outcome string * World).
Variable prompts : Prompts.

Lemma fix_loop_needs_verification (project_path : Value) :
  (forall w, match (validate_consistency json_loads chat_create tool_map prompts
                      project_path w).1 !! "approved" with
             | Some approved => truth approved = false
             | None => True
             end) ->
  forall fuel iteration messages w,
    (fix_loop json_loads chat_create tool_map prompts project_path fuel iteration
              messages w).1 !! "fixed" = Some (VBool false).
Proof.
  intros Hnever. induction fuel as [|fuel IH]; intros iteration messages w;
    cbn [fix_loop]; [reflexivity|].
  destruct (chat_create (loop_params (3 # 10)) messages w) as [[message|e] w1];
    [|reflexivity].
  destruct (contains _ _).
  - specialize (Hnever w1).
    destruct (validate_consistency _ _ _ _ _ _) as [verify_result w2].
    cbn [fst] in Hnever.
    destruct (verify_result !! "approved") as [approved|]; [|reflexivity].
    rewrite Hnever.
    destruct (verify_result !! "errors") as [remaining|]; [|reflexivity].
    apply IH.
  - destruct (run_tool_calls _ _ _ _ _ _ _) as [[messages2 pp] w2]. apply IH.
Qed.

(** X19 (fix_if_needed): a fix is reported only after a verification
    that approves: when no call of [validate_consistency] on the
    project returns an approved result, [fix_if_needed] never returns
    ["fixed": True], whatever the model says ("CONSISTENCY FIXES
    COMPLETE" included) and whatever the tools do. *)
Theorem fix_is_reported_only_after_verification (project_path : Value)
    (validation_result : Dict) (w : World) :
  (forall w0, match (validate_consistency json_loads chat_create tool_map prompts
                       project_path w0).1 !! "approved" with
              | Some approved => truth approved = false
              | None => True
              end) ->
  match (fix_if_needed json_loads chat_create tool_map prompts project_path
           validation_result w).1 with
  | Returned d => d !! "fixed" = Some (VBool false)
  | Raised _ => validation_result !! "approved" = None
                \/ validation_result !! "errors" = None
  end.
Proof.
  intros Hnever. unfold fix_if_needed.
  destruct (validation_result !! "approved") as [approved|]; [|cbn; auto].
  destruct (truth approved); [reflexivity|].
  destruct (validation_result !! "errors"); [|cbn; auto].
  pose proof (fix_loop_needs_verification project_path Hnever fix_max_iterations 1
                [system_msg (fix_system prompts validation_result);
                 user_msg (fix_user prompts project_path)] w) as H.
  destruct (fix_loop _ _ _ _ _ _ _ _ _) as [d w']. exact H.
Qed.

End ConsistencyFacts.
(** ** tools/project.py: the name of a project folder *)

Section NameFacts.
Import PyStr Py Project.

Lemma keep_all (p : ascii -> bool) (s : string) : all_chars p (keep p s) = true.
Proof.
  induction s as [|c s IH]; cbn; [reflexivity|].
  destruct (p c) eqn:Hc; [cbn; now rewrite Hc|exact IH].
Qed.

Lemma keep_id (p : ascii -> bool) (s : string) :
  all_chars p s = true -> keep p s = s.
Proof.
  induction s as [|c s IH]; cbn; [reflexivity|].
  intros H. apply andb_true_iff in H. destruct H as [Hc Hs].
  now rewrite Hc, IH.
Qed.

Lemma all_chars_lstrip (p q : ascii -> bool) (s : string) :
  all_chars p s = true -> all_chars p (lstrip_by q s) = true.
Proof.
  induction s as [|c s IH]; cbn; [reflexivity|].
  intros H. destruct (q c); [|exact H].
  apply andb_true_iff in H. now apply IH.
Qed.

Lemma all_chars_rstrip (p q : ascii -> bool) (s : string) :
  all_chars p s = true -> all_chars p (rstrip_by q s) = true.
Proof.
  induction s as [|c s IH]; cbn; [reflexivity|].
  intros H. apply andb_true_iff in H. destruct H as [Hc Hs].
  specialize (IH Hs). destruct (rstrip_by q s) as [|d t].
  - destruct (q c); cbn; [reflexivity|now rewrite Hc].
  - cbn in *. now rewrite Hc.
Qed.

Lemma first_lstrip (q : ascii -> bool) (s : string) (c : ascii) :
  first_char (lstrip_by q s) = Some c -> q c = false.
Proof.
  induction s as [|d s IH]; cbn; [discriminate|].
  destruct (q d) eqn:Hd; [exact IH|]. cbn. now intros [= <-].
Qed.

Lemma first_rstrip (q : ascii -> bool) (s : string) (c : ascii) :
  first_char (rstrip_by q s) = Some c -> first_char s = Some c.
Proof.
  destruct s as [|d s]; cbn; [discriminate|].
  destruct (rstrip_by q s); [destruct (q d)|]; cbn; congruence.
Qed.

Lemma last_rstrip (q : ascii -> bool) (s : string) (c : ascii) :
  last_char (rstrip_by q s) = Some c -> q c = false.
Proof.
  induction s as [|d s IH]; cbn; [discriminate|].
  destruct (rstrip_by q s) as [|e t] eqn:Hr.
  - destruct (q d) eqn:Hd; cbn; [discriminate|]. now intros [= <-].
  - cbn [last_char]. exact IH.
Qed.

Lemma lstrip_id (q : ascii -> bool) (s : string) :
  (forall c, first_char s = Some c -> q c = false) -> lstrip_by q s = s.
Proof.
  destruct s as [|c s]; cbn; [reflexivity|]. intros H. now rewrite (H c eq_refl).
Qed.

Lemma rstrip_id (q : ascii -> bool) (s : string) :
  (forall c, last_char s = Some c -> q c = false) -> rstrip_by q s = s.
Proof.
  induction s as [|c s IH]; cbn; [reflexivity|]. intros H.
  destruct s as [|d s].
  - cbn. now rewrite (H c eq_refl).
  - rewrite IH; [reflexivity|]. intros e He. apply H. exact He.
Qed.

Lemma all_chars_first (p : ascii -> bool) (s : string) (c : ascii) :
  all_chars p s = true -> first_char s = Some c -> p c = true.
Proof.
  destruct s as [|d s]; cbn; [discriminate|]. intros H [= <-].
  now apply andb_true_iff in H.
Qed.

Lemma all_chars_last (p : ascii -> bool) (s : string) (c : ascii) :
  all_chars p s = true -> last_char s = Some c -> p c = true.
Proof.
  induction s as [|d s IH]; cbn; [discriminate|]. intros H.
  apply andb_true_iff in H. destruct H as [Hd Hs].
  destruct s as [|e s]; [now intros [= <-]|]. now apply IH.
Qed.

Lemma all_chars_weaken (p q : ascii -> bool) (s : string) :
  (forall c, p c = true -> q c = true) -> all_chars p s = true -> all_chars q s = true.
Proof.
  intros Hpq. induction s as [|c s IH]; cbn; [reflexivity|]. intros H.
  apply andb_true_iff in H. destruct H as [Hc Hs]. now rewrite (Hpq c Hc), IH.
Qed.

Lemma replace_char_id (old new : ascii) (s : string) :
  all_chars (fun c => negb (Ascii.eqb c old)) s = true -> replace_char old new s = s.
Proof.
  induction s as [|c s IH]; cbn; [reflexivity|]. intros H.
  apply andb_true_iff in H. destruct H as [Hc Hs].
  apply negb_true_iff in Hc. now rewrite Hc, IH.
Qed.

Lemma no_dots (s : string) :
  all_chars (fun c => negb (Ascii.eqb c ".")) s = true -> contains ".." s = false.
Proof.
  induction s as [|c s IH]; [reflexivity|]. intros H. cbn in H.
  apply andb_true_iff in H. destruct H as [Hc Hs].
  cbn [contains startswith]. apply negb_true_iff in Hc.
  rewrite Ascii.eqb_sym, Hc. cbn. now apply IH.
Qed.

(** The characters of a name are none of the ones the function
    rewrites, refuses or strips. *)
Lemma name_char_is_plain (c : ascii) :
  is_name_char c = true ->
  isspace c = false /\ Ascii.eqb c "/" = false /\ Ascii.eqb c "\" = false /\
  Ascii.eqb c "." = false /\ Ascii.eqb c " " = false.
Proof.
  destruct c as [[] [] [] [] [] [] [] []]; vm_compute; intros H;
    try discriminate; repeat split.
Qed.

(** X20 (sanitize_folder_name): a name the function returns for an
    ASCII input is a safe folder name: not empty, made of letters,
    digits, "_" and "-" only (so without path separator, dot or
    space), and neither beginning nor ending with "-" or "_"; the
    "reserved name" error can never be raised. *)
Theorem sanitized_name_is_safe (name : option string) :
  all_chars is_ascii (default "" name) = true ->
  match sanitize_folder_name name with
  | Returned r => safe_name r
  | Raised e => e <> "Invalid project name: reserved name"
  end.
Proof.
  intros _. unfold sanitize_folder_name.
  destruct (negb (truthy _)); [discriminate|].
  destruct (contains ".." _); [discriminate|].
  set (kept := keep is_name_char _).
  set (r := rstrip_by is_trim (lstrip_by is_trim kept)).
  assert (Hall : all_chars is_name_char r = true).
  { apply all_chars_rstrip, all_chars_lstrip, keep_all. }
  destruct (negb (truthy r)) eqn:Hr; [discriminate|].
  assert (Hne : r <> "").
  { intros E. rewrite E in Hr. discriminate. }
  assert (Hdot : String.eqb r "." || String.eqb r ".." = false).
  { destruct r as [|c r']; [contradiction|]. cbn in Hall.
    apply andb_true_iff in Hall. destruct Hall as [Hc _].
    destruct (name_char_is_plain c Hc) as (_ & _ & _ & Hd & _).
    cbn. now rewrite Hd. }
  rewrite Hdot. split; [exact Hne|]. split; [exact Hall|]. split.
  - intros c Hc. apply first_rstrip in Hc. now apply first_lstrip in Hc.
  - intros c Hc. now apply last_rstrip in Hc.
Qed.

(** X21 (sanitize_folder_name): sanitising is idempotent: a safe name
    is returned as it is, so a name the function returned is accepted
    unchanged when it is sanitised again. *)
Theorem sanitize_folder_name_is_idempotent (r : string) :
  safe_name r -> sanitize_folder_name (Some r) = Returned r.
Proof.
  intros (Hne & Hall & Hfirst & Hlast). unfold sanitize_folder_name.
  change (default "" (Some r)) with r.
  assert (Hplain : forall q : ascii -> bool,
             (forall c, is_name_char c = true -> q c = false) ->
             all_chars (fun c => negb (q c)) r = true).
  { intros q Hq. eapply all_chars_weaken; [|exact Hall].
    intros c Hc. now rewrite (Hq c Hc). }
  assert (Hstrip : strip r = r).
  { unfold strip. rewrite (lstrip_id isspace r).
    - apply rstrip_id. intros c Hc.
      apply (name_char_is_plain c (all_chars_last _ _ _ Hall Hc)).
    - intros c Hc. apply (name_char_is_plain c (all_chars_first _ _ _ Hall Hc)). }
  rewrite Hstrip.
  rewrite (replace_char_id "/" "_" r)
    by (apply (Hplain (fun c => Ascii.eqb c "/")); intros c Hc;
        apply (name_char_is_plain c Hc)).
  rewrite (replace_char_id "\" "_" r)
    by (apply (Hplain (fun c => Ascii.eqb c "\")); intros c Hc;
        apply (name_char_is_plain c Hc)).
  assert (Ht : truthy r = true) by (destruct r; [contradiction|reflexivity]).
  rewrite Ht. cbn [negb].
  rewrite (no_dots r)
    by (apply (Hplain (fun c => Ascii.eqb c ".")); intros c Hc;
        apply (name_char_is_plain c Hc)).
  rewrite (replace_char_id " " "_" r)
    by (apply (Hplain (fun c => Ascii.eqb c " ")); intros c Hc;
        apply (name_char_is_plain c Hc)).
  rewrite (keep_id is_name_char r Hall).
  rewrite (lstrip_id is_trim r Hfirst), (rstrip_id is_trim r Hlast).
  rewrite Ht. cbn [negb].
  destruct r as [|c r']; [contradiction|]. cbn in Hall.
  apply andb_true_iff in Hall. destruct Hall as [Hc _].
  destruct (name_char_is_plain c Hc) as (_ & _ & _ & Hd & _).
  cbn. now rewrite Hd.
Qed.

End NameFacts.
(** ** utils.py, qa_agent.py, main.py: text made safe for the console and the log *)

Section TextFacts.
Import Py Unicode.

Lemma filter_filter_and {A} (f g : A -> bool) (l : list A) :
  List.filter f (List.filter g l) = List.filter (fun x => g x && f x) l.
Proof.
  induction l as [|x l IH]; cbn; [reflexivity|].
  destruct (g x); cbn; [destruct (f x); now rewrite IH|exact IH].
Qed.

Lemma filter_all {A} (f : A -> bool) (l : list A) :
  Forall (fun x => f x = true) l -> List.filter f l = l.
Proof.
  induction 1 as [|x l Hx _ IH]; cbn; [reflexivity|]. now rewrite Hx, IH.
Qed.

Lemma filter_holds {A} (f : A -> bool) (l : list A) :
  Forall (fun x => f x = true) (List.filter f l).
Proof.
  induction l as [|x l IH]; cbn; [constructor|].
  destruct (f x) eqn:Hx; [now constructor|exact IH].
Qed.

Lemma sanitize_text_filter (t : ustr) :
  sanitize_text t = List.filter (fun c => negb (is_removed c)) t.
Proof.
  unfold sanitize_text, remove_common_emoji, remove_surrogates.
  rewrite filter_filter_and. apply filter_ext. intros c.
  unfold is_removed. now rewrite negb_orb.
Qed.

(** X22 (sanitize_text, _remove_surrogates, _remove_common_emoji):
    the result holds no surrogate, no code point of the three emoji
    blocks and no variation selector or zero-width joiner; text
    without such code points is returned as it is, so sanitising
    twice is sanitising once. *)
Theorem sanitize_text_is_clean_and_idempotent (t : ustr) :
  Forall (fun c => is_removed c = false) (sanitize_text t) /\
  (Forall (fun c => is_removed c = false) t -> sanitize_text t = t) /\
  sanitize_text (sanitize_text t) = sanitize_text t.
Proof.
  assert (Hfix : forall u, Forall (fun c => is_removed c = false) u -> sanitize_text u = u).
  { intros u Hu. rewrite sanitize_text_filter. apply filter_all.
    eapply Forall_impl; [exact Hu|]. intros c Hc. cbn in Hc. now rewrite Hc. }
  assert (Hclean : Forall (fun c => is_removed c = false) (sanitize_text t)).
  { rewrite sanitize_text_filter.
    eapply Forall_impl; [apply filter_holds|]. intros c Hc. cbn in Hc.
    now apply negb_true_iff in Hc. }
  split; [exact Hclean|]. split; [apply Hfix|]. now apply Hfix.
Qed.

Lemma replace1_app (old : N) (new a b : ustr) :
  replace1 old new (a ++ b) = replace1 old new a ++ replace1 old new b.
Proof. unfold replace1. apply flat_map_app. Qed.

Lemma replace_all_app (table : list (N * ustr)) (a b : ustr) :
  replace_all table (a ++ b) = replace_all table a ++ replace_all table b.
Proof.
  unfold replace_all. revert a b.
  induction table as [|[old new] table IH]; intros a b; cbn [fold_left]; [reflexivity|].
  now rewrite replace1_app, IH.
Qed.

Lemma replace_all_cons (table : list (N * ustr)) (c : N) (t : ustr) :
  replace_all table (c :: t) = replace_all table [c] ++ replace_all table t.
Proof. exact (replace_all_app table [c] t). Qed.

(** Replacing in ASCII text changes nothing when every key of the
    table is outside ASCII. *)
Lemma replace_all_ascii (table : list (N * ustr)) (t : ustr) :
  Forall (fun e => is_ascii_point e.1 = false) table ->
  Forall (fun c => is_ascii_point c = true) t -> replace_all table t = t.
Proof.
  intros Htable Ht. unfold replace_all.
  induction Htable as [|[old new] table Hold _ IH]; cbn [fold_left]; [reflexivity|].
  assert (H1 : replace1 old new t = t).
  { clear IH. unfold replace1. induction Ht as [|c t Hc _ IHt]; cbn; [reflexivity|].
    rewrite IHt. destruct (N.eqb_spec c old) as [->|Hne]; [|reflexivity].
    cbn in Hold. congruence. }
  now rewrite H1.
Qed.

Lemma qa_keys_not_ascii :
  Forall (fun e : N * ustr => is_ascii_point e.1 = false) qa_replacements.
Proof. repeat constructor. Qed.

Lemma ui_keys_not_ascii :
  Forall (fun e : N * ustr => is_ascii_point e.1 = false) ASCII_UI_REPLACEMENTS.
Proof. repeat constructor. Qed.

Lemma replace1_other (old : N) (new : ustr) (c : N) :
  c <> old -> replace1 old new [c] = [c].
Proof.
  intros Hne. unfold replace1. cbn.
  destruct (N.eqb_spec c old); [contradiction|reflexivity].
Qed.

Lemma sanitize_unicode_one (c : N) :
  sanitize_unicode [c] = translate qa_replacements c.
Proof.
  unfold sanitize_unicode, translate, replace_all, qa_replacements.
  cbn [fold_left List.find].
  repeat match goal with
         | |- context [(c =? ?k)%N] =>
             destruct (N.eqb_spec c k) as [->|?]; [vm_compute; reflexivity|]
         end.
  rewrite !replace1_other by assumption.
  unfold ascii_ignore. cbn [List.filter]. now destruct (is_ascii_point c).
Qed.

Lemma translate_ascii (c : N) : Forall (fun d => is_ascii_point d = true)
                                      (translate qa_replacements c).
Proof.
  rewrite <- sanitize_unicode_one. apply filter_holds.
Qed.

Lemma sanitize_unicode_flat (t : ustr) :
  sanitize_unicode t = flat_map (translate qa_replacements) t.
Proof.
  induction t as [|c t IH]; [reflexivity|].
  cbn [flat_map]. rewrite <- IH, <- sanitize_unicode_one.
  unfold sanitize_unicode, ascii_ignore.
  now rewrite replace_all_cons, List.filter_app.
Qed.

(** X23 (_sanitize_unicode): the sixteen replacements do not
    interfere: every code point is translated on its own (to its
    replacement if the table has one, to itself if it is ASCII, to
    nothing otherwise); the result is ASCII, ASCII text is left as it
    is, and sanitising twice is sanitising once. *)
Theorem sanitize_unicode_translates_each_point (t : ustr) :
  sanitize_unicode t = flat_map (translate qa_replacements) t /\
  Forall (fun c => is_ascii_point c = true) (sanitize_unicode t) /\
  (Forall (fun c => is_ascii_point c = true) t -> sanitize_unicode t = t) /\
  sanitize_unicode (sanitize_unicode t) = sanitize_unicode t.
Proof.
  assert (Hfix : forall u, Forall (fun c => is_ascii_point c = true) u ->
                           sanitize_unicode u = u).
  { intros u Hu. unfold sanitize_unicode.
    rewrite (replace_all_ascii _ _ qa_keys_not_ascii Hu). now apply filter_all. }
  assert (Hascii : Forall (fun c => is_ascii_point c = true) (sanitize_unicode t))
    by apply filter_holds.
  split; [apply sanitize_unicode_flat|]. split; [exact Hascii|].
  split; [apply Hfix|now apply Hfix].
Qed.

Lemma splitlines_from_nil (line t : ustr) :
  splitlines_from line t = [] <-> line = [] /\ t = [].
Proof.
  revert line. induction t as [|c t IH]; intros line; cbn [splitlines_from].
  - destruct line; split; try tauto; try discriminate. now intros [[=] _].
  - destruct (is_line_boundary c).
    + destruct t as [|c' t'']; [|destruct (_ && _)];
        (split; [discriminate|now intros [_ [=]]]).
    + rewrite IH. split; [now intros [[=] _]|now intros [_ [=]]].
Qed.

Section Normalized.
Variable nfkd : ustr -> ustr.

(** X24 (ascii_only_ui): the result is ASCII whatever the
    normalisation does; and, NFKD leaving ASCII text as it is, ASCII
    text is returned unchanged, so the function is idempotent.  [None]
    stays [None]. *)
Theorem ascii_only_ui_is_ascii_and_idempotent :
  (forall t, Forall (fun c => is_ascii_point c = true) t -> nfkd t = t) ->
  ascii_only_ui nfkd None = None /\
  forall t, exists r,
    ascii_only_ui nfkd (Some t) = Some r /\
    Forall (fun c => is_ascii_point c = true) r /\
    (Forall (fun c => is_ascii_point c = true) t -> r = t) /\
    ascii_only_ui nfkd (Some r) = Some r.
Proof.
  intros Hnfkd.
  assert (Hfix : forall u, Forall (fun c => is_ascii_point c = true) u ->
                           ascii_only_ui nfkd (Some u) = Some u).
  { intros u Hu. unfold ascii_only_ui.
    rewrite (replace_all_ascii _ _ ui_keys_not_ascii Hu), (Hnfkd u Hu).
    f_equal. now apply filter_all. }
  split; [reflexivity|]. intros t. eexists. split; [reflexivity|].
  assert (Hascii : Forall (fun c => is_ascii_point c = true)
                     (ascii_ignore (nfkd (replace_all ASCII_UI_REPLACEMENTS t))))
    by apply filter_holds.
  split; [exact Hascii|]. split; [|now apply Hfix].
  intros Ht. specialize (Hfix t Ht). unfold ascii_only_ui in Hfix. congruence.
Qed.

(** X25 (_format_prompt_snippet, used by log_provider_error): the
    snippet raises IndexError exactly when the prompt is [None] or
    empty (an empty text has no first line); otherwise it returns at
    most 120 code points, all ASCII. *)
Theorem prompt_snippet_raises_on_empty_prompt (prompt : option ustr) :
  (format_prompt_snippet nfkd prompt = Raised "IndexError: list index out of range"
   <-> prompt = None \/ prompt = Some []) /\
  (forall r, format_prompt_snippet nfkd prompt = Returned r ->
             (length r <= 120)%nat /\ Forall (fun c => is_ascii_point c = true) r).
Proof.
  unfold format_prompt_snippet, splitlines.
  destruct (splitlines_from [] (default [] prompt)) as [|snippet rest] eqn:Hs.
  - apply splitlines_from_nil in Hs. destruct Hs as [_ Hs]. split; [|discriminate].
    split; [intros _|reflexivity].
    destruct prompt as [[|c t]|]; cbn in Hs; [now right|discriminate|now left].
  - split.
    + split; [discriminate|]. intros [->| ->]; cbn in Hs; discriminate.
    + intros r [= <-]. split; [rewrite length_take; lia|].
      cbn [ascii_only_ui default]. apply Forall_take, filter_holds.
Qed.

End Normalized.

End TextFacts.
(** ** agents/settings_agent.py: what makes the validation fail *)

Section SettingsFacts.
Import PyStr Py Settings.

Lemma truthy_default_set (env : Environment) (name : string) :
  truthy (default "" (getenv env name)) = true <-> is_set env name.
Proof.
  unfold is_set. destruct (getenv env name) as [[|c v]|]; cbn.
  - split; [discriminate|]. intros (v & [= <-] & Hv). contradiction.
  - split; [|reflexivity]. intros _. eexists. split; [reflexivity|discriminate].
  - split; [discriminate|]. now intros (v & [=] & _).
Qed.

Lemma no_missing_package (env : Environment) :
  check_dependencies env = [] <->
  Forall (fun p => importable env p = true) required_packages.
Proof.
  unfold check_dependencies.
  assert (H : List.filter (fun p => negb (importable env p)) required_packages = [] <->
              Forall (fun p => importable env p = true) required_packages).
  { induction required_packages as [|p l IH]; cbn; [split; [constructor|reflexivity]|].
    destruct (importable env p) eqn:Hp; cbn.
    - rewrite IH. split; [now constructor|now inversion 1].
    - split; [discriminate|]. inversion 1; congruence. }
  rewrite <- H. destruct (List.filter _ _); split; try discriminate; reflexivity.
Qed.

(** X26 (SettingsAgent.validate and its checks): the validation
    fails exactly when the [.env] file cannot be read, the output
    directory cannot be written or a required package is missing;
    API keys play no part in it: without any key the provider is
    Ollama with the key "ollama", and a warning.  The provider is
    OpenRouter whenever its key is set, Moonshot when only its key is
    set; with OpenRouter the model is whatever OPENROUTER_MODEL holds,
    [None] included. *)
Theorem validation_ignores_api_keys (env : Environment) :
  let '(success, config, errors, warnings) := validate env in
  (success = true <->
     (forall e, env_file env <> EnvUnreadable e) /\
     output_dir_error env = None /\
     Forall (fun p => importable env p = true) required_packages) /\
  (success = true <-> errors = []) /\
  (provider config = "openrouter" <-> is_set env "OPENROUTER_API_KEY") /\
  (provider config = "moonshot" <->
     ~ is_set env "OPENROUTER_API_KEY" /\ is_set env "MOONSHOT_API_KEY") /\
  (provider config = "ollama" <->
     ~ is_set env "OPENROUTER_API_KEY" /\ ~ is_set env "MOONSHOT_API_KEY") /\
  api_key config <> "" /\
  (provider config = "ollama" -> api_key config = "ollama" /\ warnings <> []) /\
  (provider config = "openrouter" -> model config = getenv env "OPENROUTER_MODEL").
Proof.
  unfold validate.
  destruct (check_env_file env) as [errors1 warnings1] eqn:Henv.
  destruct (check_api_keys env) as [[[prov key] base] warnings2] eqn:Hkeys.
  split; [|split].
  - pose proof (no_missing_package env) as Hdeps.
    unfold check_env_file in Henv. unfold check_output_directory.
    destruct (env_file env) as [|content|e]; injection Henv as <- <-;
      destruct (output_dir_error env) as [e'|]; cbn [app];
      try solve [split; [discriminate|intros (_ & [=] & _)]].
    + destruct (check_dependencies env) eqn:Hd.
      * split; [intros _|reflexivity]. split; [discriminate|]. split; [reflexivity|].
        now apply Hdeps.
      * split; [discriminate|]. intros (_ & _ & H). apply Hdeps in H. discriminate.
    + destruct (check_dependencies env) eqn:Hd.
      * split; [intros _|reflexivity]. split; [discriminate|]. split; [reflexivity|].
        now apply Hdeps.
      * split; [discriminate|]. intros (_ & _ & H). apply Hdeps in H. discriminate.
    + split; [discriminate|]. intros (H & _). now destruct (H e).
  - destruct (errors1 ++ _); split; try discriminate; reflexivity.
  - unfold check_api_keys in Hkeys.
    pose proof (truthy_default_set env "OPENROUTER_API_KEY") as Hor.
    pose proof (truthy_default_set env "MOONSHOT_API_KEY") as Hms.
    destruct (truthy (default "" (getenv env "OPENROUTER_API_KEY"))) eqn:H1.
    + injection Hkeys as <- <- <- <-. cbn.
      assert (Hset : is_set env "OPENROUTER_API_KEY") by now apply Hor.
      split; [tauto|]. split; [split; [discriminate|tauto]|].
      split; [split; [discriminate|tauto]|].
      split; [|split; [discriminate|reflexivity]].
      destruct Hset as (v & -> & Hv). exact Hv.
    + assert (Hunset : ~ is_set env "OPENROUTER_API_KEY").
      { intros H. apply Hor in H. discriminate. }
      destruct (truthy (default "" (getenv env "MOONSHOT_API_KEY"))) eqn:H2.
      * injection Hkeys as <- <- <- <-. cbn.
        assert (Hset : is_set env "MOONSHOT_API_KEY") by now apply Hms.
        split; [split; [discriminate|tauto]|]. split; [tauto|].
        split; [split; [discriminate|tauto]|].
        split; [|split; discriminate].
        destruct Hset as (v & -> & Hv). exact Hv.
      * injection Hkeys as <- <- <- <-. cbn.
        assert (Hunset2 : ~ is_set env "MOONSHOT_API_KEY").
        { intros H. apply Hms in H. discriminate. }
        split; [split; [discriminate|tauto]|].
        split; [split; [discriminate|tauto]|]. split; [tauto|].
        split; [discriminate|]. split; [|discriminate].
        intros _. split; [reflexivity|]. now destruct warnings1.
Qed.

End SettingsFacts.
(** ** agents/writer_agent.py: the units to write, the choice of a draft *)

Section WriterFacts.
Import PyStr Re Py Agents Writer.
Context {World Ctx : Type}.
Variable read_context : string -> World -> Ctx.
Variable process_unit : Ctx -> string * Z -> string -> World -> Outcome Z * World.
Variable judge : list string -> string * Z -> World -> Outcome (option string) * World.






End WriterFacts.
(** ** The orchestrator: gates that pass trigger no remediation *)

Section PassingGates.
Import PyStr Py Sessions Orchestrator Invariants.
Context {World QA : Type}.
Variable now_id : World -> string * World.
Variable now_iso : World -> string * World.
Variable settings_checks :
  World -> (gmap string string * list string * list string) * World.
Variable initialize : Value -> World -> Outcome unit * World.
Variable planner_plan : string -> World -> Outcome Dict * World.
Variable writer_write : Value -> string -> World -> Outcome Dict * World.
Variable qa_new : QA.
Variable qa_review_content : QA -> Value -> World -> Outcome (Dict * QA) * World.
Variable consistency_validate : Value -> World -> Outcome Dict * World.
(** Two choices of the remediation steps. *)
Variables qa_revise_if_needed qa_revise_if_needed' :
  QA -> Value -> Dict -> World -> Outcome (Dict * QA) * World.
Variables consistency_fix_if_needed consistency_fix_if_needed' :
  Value -> Dict -> World -> Outcome Dict * World.

(** Every review and every validation that returns is approved. *)
Hypothesis reviews_approve :
  forall agent project_path w d agent' w',
    qa_review_content agent project_path w = (Returned (d, agent'), w') ->
    truth (get d "approved" (VBool false)) = true.
Hypothesis validations_approve :
  forall project_path w d w',
    consistency_validate project_path w = (Returned d, w') ->
    truth (get d "approved" (VBool false)) = true.

Lemma revision_loop_approved
    (revise : QA -> Value -> Dict -> World -> Outcome (Dict * QA) * World)
    (fuel cycle : nat) (project_path : Value) (qa_agent : QA) (qa_result : Dict)
    (st : Manager * World) :
  truth (get qa_result "approved" (VBool false)) = true ->
  revision_loop qa_review_content revise fuel cycle project_path qa_agent qa_result st
  = (Returned (qa_result, qa_agent, cycle), st).
Proof.
  intros Happroved. destruct fuel as [|fuel]; cbn [revision_loop]; [reflexivity|].
  now rewrite Happroved.
Qed.

Lemma consistency_stage_same (prompt sid : string)
    (settings planning writing_result qa_result : option Dict) (project_path : Value)
    (st : Manager * World) :
  consistency_stage now_iso consistency_validate consistency_fix_if_needed
    prompt sid settings planning writing_result qa_result project_path st
  = consistency_stage now_iso consistency_validate consistency_fix_if_needed'
      prompt sid settings planning writing_result qa_result project_path st.
Proof.
  unfold consistency_stage, bind. destruct st as [m w].
  cbn [sm_should_skip]. destruct (should_skip_stage "consistency" m); cbn [negb];
    [reflexivity|].
  destruct (agent (consistency_validate project_path) (m, w)) as [[d|e] st'] eqn:Ha;
    [|reflexivity].
  assert (Happroved : truth (get d "approved" (VBool false)) = true).
  { unfold agent in Ha.
    destruct (consistency_validate project_path w) as [o w'] eqn:Hv.
    injection Ha as -> <-. exact (validations_approve _ _ _ _ Hv). }
  now rewrite Happroved.
Qed.

Lemma qa_stage_same (prompt sid : string)
    (settings planning_result writing_result : option Dict) (st : Manager * World) :
  qa_stage now_iso qa_new qa_review_content qa_revise_if_needed
    consistency_validate consistency_fix_if_needed
    prompt sid settings planning_result writing_result st
  = qa_stage now_iso qa_new qa_review_content qa_revise_if_needed'
      consistency_validate consistency_fix_if_needed'
      prompt sid settings planning_result writing_result st.
Proof.
  unfold qa_stage, bind.
  destruct (get_of planning_result "project_path" (VStr "") st)
    as [[project_path|e] [m w]]; [|reflexivity].
  cbn [sm_should_skip]. destruct (should_skip_stage "qa" m); cbn [negb].
  - cbn [sm_stage_result]. apply consistency_stage_same.
  - destruct (agent (qa_review_content qa_new project_path) (m, w))
      as [[[d a]|e] st'] eqn:Ha; [|reflexivity].
    assert (Happroved : truth (get d "approved" (VBool false)) = true).
    { unfold agent in Ha.
      destruct (qa_review_content qa_new project_path w) as [o w'] eqn:Hr.
      injection Ha as -> <-. exact (reviews_approve _ _ _ _ _ _ Hr). }
    rewrite !(revision_loop_approved _ _ _ _ _ _ _ Happroved).
    destruct (sm_update now_iso "qa" d (get d "success" (VBool false)) st')
      as [[[]|e] st'']; [|reflexivity].
    apply consistency_stage_same.
Qed.

Lemma writing_stage_same (prompt sid : string) (settings planning_result : option Dict)
    (st : Manager * World) :
  writing_stage now_iso writer_write qa_new qa_review_content qa_revise_if_needed
    consistency_validate consistency_fix_if_needed prompt sid settings planning_result st
  = writing_stage now_iso writer_write qa_new qa_review_content qa_revise_if_needed'
      consistency_validate consistency_fix_if_needed' prompt sid settings
      planning_result st.
Proof.
  unfold writing_stage, bind. destruct st as [m w].
  cbn [sm_should_skip]. destruct (should_skip_stage "writing" m); cbn [negb].
  - cbn [sm_stage_result]. apply qa_stage_same.
  - destruct (get_of planning_result "project_path" (VStr "") (m, w))
      as [[project_path|e] st1]; [|reflexivity].
    destruct (agent (writer_write project_path prompt) st1)
      as [[writing_result|e] st2]; [|reflexivity].
    destruct (item_of (Some writing_result) "success" st2) as [[success|e] st3];
      [|reflexivity].
    destruct (sm_update now_iso "writing" writing_result success st3)
      as [[[]|e] st4]; [|reflexivity].
    destruct (truth success); cbn [negb]; [apply qa_stage_same|reflexivity].
Qed.

Lemma planning_stage_same (prompt sid : string) (settings : option Dict)
    (st : Manager * World) :
  planning_stage now_iso planner_plan writer_write qa_new qa_review_content
    qa_revise_if_needed consistency_validate consistency_fix_if_needed
    prompt sid settings st
  = planning_stage now_iso planner_plan writer_write qa_new qa_review_content
      qa_revise_if_needed' consistency_validate consistency_fix_if_needed'
      prompt sid settings st.
Proof.
  unfold planning_stage, bind. destruct st as [m w].
  cbn [sm_should_skip]. destruct (should_skip_stage "planning" m); cbn [negb].
  - cbn [sm_stage_result]. apply writing_stage_same.
  - destruct (agent (planner_plan prompt) (m, w)) as [[planning_result|e] st1];
      [|reflexivity].
    destruct (item_of (Some planning_result) "success" st1) as [[success|e] st2];
      [|reflexivity].
    destruct (sm_update now_iso "planning" planning_result success st2)
      as [[[]|e] st3]; [|reflexivity].
    destruct (truth success); cbn [negb]; [apply writing_stage_same|reflexivity].
Qed.

Lemma settings_stage_same (prompt sid : string) (st : Manager * World) :
  settings_stage now_iso settings_checks initialize planner_plan writer_write
    qa_new qa_review_content qa_revise_if_needed consistency_validate
    consistency_fix_if_needed prompt sid st
  = settings_stage now_iso settings_checks initialize planner_plan writer_write
      qa_new qa_review_content qa_revise_if_needed' consistency_validate
      consistency_fix_if_needed' prompt sid st.
Proof.
  unfold settings_stage, bind. destruct st as [m w].
  cbn [sm_should_skip]. destruct (should_skip_stage "settings" m); cbn [negb].
  - cbn [sm_stage_result].
    destruct (item_of (get_stage_result "settings" m) "config" (m, w))
      as [[config|e] st1]; [|reflexivity].
    destruct (agent (initialize config) st1) as [[[]|e] st2]; [|reflexivity].
    apply planning_stage_same.
  - destruct (agent _ (m, w)) as [[[[config errors] warnings]|e] st1]; [|reflexivity].
    destruct (sm_update now_iso "settings" _ _ st1) as [[[]|e] st2]; [|reflexivity].
    destruct errors; cbn [negb]; [|reflexivity].
    destruct (agent (initialize (VConfig config)) st2) as [[[]|e] st3]; [|reflexivity].
    apply planning_stage_same.
Qed.

(** X29 (StoryForgeOrchestrator.run, the auto-revision loop and the
    auto-fix): when every review and every validation that returns is
    approved, a run calls neither [revise_if_needed] nor
    [fix_if_needed]: its outcome, the manager and the world it leaves
    are the same whatever these two would do. *)
Theorem approved_gates_trigger_no_remediation (prompt : string)
    (resume_session_id : option string) (st : Manager * World) :
  run now_id now_iso settings_checks initialize planner_plan writer_write
      qa_new qa_review_content qa_revise_if_needed consistency_validate
      consistency_fix_if_needed prompt resume_session_id st
  = run now_id now_iso settings_checks initialize planner_plan writer_write
        qa_new qa_review_content qa_revise_if_needed' consistency_validate
        consistency_fix_if_needed' prompt resume_session_id st.
Proof.
  unfold run. destruct st as [m w].
  destruct (create_session now_id now_iso prompt m w) as [[s0 m0] w0].
  destruct resume_session_id as [id|]; [destruct (truthy id)|];
    try apply settings_stage_same.
  destruct (load_session id m) as [[s|] m']; apply settings_stage_same.
Qed.

End PassingGates.
(** ** The properties on concrete inputs *)

Section Instances.
Import PyStr Py Chat Agents Sessions Orchestrator Lifecycle Scenario Samples.
Import Re Project Unicode Writer.

#[local] Ltac valid_calls :=
  repeat (apply List.Forall_cons; [first [exact I|intros _; cbn; tauto]|]);
  apply List.Forall_nil.

Lemma session_survives_restart_witness :
  Forall valid_call [UpdateStage "settings" ∅ (VBool true);
                     MarkFailed "planning" "Story planning failed"] /\
  exists s0 m1 w1 m2 w2 s,
    create_session (World:=unit) clock_id clock_iso "A lighthouse story"
                   (new_manager ∅) tt = (s0, m1, w1) /\
    Lifecycle.calls clock_iso
      [UpdateStage "settings" ∅ (VBool true);
       MarkFailed "planning" "Story planning failed"] m1 w1 = (Returned m2, w2) /\
    current_session m2 = Some s /\
    session_id s = session_id s0 /\ user_prompt s = "A lighthouse story" /\
    created_at s = created_at s0 /\
    (load_session (session_id s0) (restart m2)).1 = Some s /\
    current_session (load_session (session_id s0) (restart m2)).2 = Some s.
Proof.
  assert (H : Forall valid_call [UpdateStage "settings" ∅ (VBool true);
                                 MarkFailed "planning" "Story planning failed"]).
  { valid_calls. }
  split; [exact H|].
  exact (session_survives_restart clock_id clock_iso "A lighthouse story" _
           (new_manager ∅) tt H).
Defined.

Lemma update_stage_round_trip_witness :
  current_session (holding fresh_session) = Some fresh_session /\
  (truth (VBool false) = true -> In "qa" STAGES) /\
  exists m' w',
    update_stage (World:=unit) clock_iso "qa" weak_review (VBool false)
                 (holding fresh_session) tt = (Returned m', w') /\
    get_stage_result "qa" m' = Some weak_review /\
    should_skip_stage "qa" m'
    = (should_skip_stage "qa" (holding fresh_session) || truth (VBool false)) /\
    forall other, other <> "qa" ->
      get_stage_result other m' = get_stage_result other (holding fresh_session) /\
      should_skip_stage other m' = should_skip_stage other (holding fresh_session).
Proof.
  assert (H : truth (VBool false) = true -> In "qa" STAGES) by discriminate.
  split; [reflexivity|]. split; [exact H|].
  exact (update_stage_round_trip clock_iso "qa" weak_review (VBool false)
           (holding fresh_session) tt fresh_session eq_refl H).
Defined.

Lemma completed_stages_only_grow_witness :
  NoDup (completed_stages fresh_session) /\
  exists m' w' s' added,
    Lifecycle.calls (World:=unit) clock_iso
      [UpdateStage "settings" ∅ (VBool true); UpdateStage "settings" ∅ (VBool true);
       UpdateStage "planning" ∅ (VBool true)] (holding fresh_session) tt
      = (Returned m', w') /\
    current_session m' = Some s' /\
    completed_stages s' = completed_stages fresh_session ++ added /\
    NoDup (completed_stages s') /\ Forall (fun stage => In stage STAGES) added.
Proof.
  assert (Hnd : NoDup (completed_stages fresh_session)) by constructor.
  split; [exact Hnd|].
  refine (completed_stages_only_grow clock_iso _ (holding fresh_session) tt
            fresh_session _ _ eq_refl eq_refl Hnd).
  valid_calls.
Defined.

Lemma closed_session_stays_closed_witness :
  status failed_session <> "in_progress" /\
  exists m' w' s',
    Lifecycle.calls (World:=unit) clock_iso
      [UpdateStage "planning" ∅ (VBool true); UpdateStage "writing" ∅ (VBool true)]
      (holding failed_session) tt = (Returned m', w') /\
    current_session m' = Some s' /\
    disk m' !! file_of (session_id failed_session) = Some s' /\
    status s' <> "in_progress" /\ ~ In s' (get_incomplete_sessions m') /\
    forall g, g <> file_of (session_id failed_session) ->
              disk m' !! g = disk (holding failed_session) !! g.
Proof.
  assert (Hst : status failed_session <> "in_progress") by discriminate.
  split; [exact Hst|].
  refine (closed_session_stays_closed clock_iso _ (holding failed_session) tt
            failed_session _ _ eq_refl eq_refl _ Hst).
  - valid_calls.
  - apply lookup_singleton_eq.
Defined.

Lemma resumed_run_skips_completed_stages_witness :
  truthy "20250101_000000" = true /\
  run (World:=unit) (QA:=unit) clock_id clock_iso checks_pass client_starts
      planner_fails writer_writes tt review_approves revise_raises
      validation_approves fix_raises "A lighthouse story" (Some "20250101_000000")
      (directory_with written_session, tt)
  = run clock_id clock_iso checks_fail client_starts planner_raises writer_raises tt
        review_approves revise_raises validation_approves fix_raises
        "A lighthouse story" (Some "20250101_000000")
        (directory_with written_session, tt).
Proof.
  split; [reflexivity|].
  refine (resumed_run_skips_completed_stages clock_id clock_iso client_starts tt
            review_approves revise_raises validation_approves fix_raises
            checks_pass checks_fail planner_fails planner_raises
            writer_writes writer_raises "A lighthouse story" "20250101_000000"
            written_session (directory_with written_session) tt eq_refl _ _ _ _).
  - apply lookup_singleton_eq.
  - cbn. tauto.
  - cbn. tauto.
  - cbn. tauto.
Defined.

Lemma failed_planning_stops_the_run_witness :
  (forall w0, exists d v w1,
      planner_fails "A lighthouse story" w0 = (Returned d, w1) /\
      d !! "success" = Some v /\ truth v = false) /\
  exists r m' w' s,
    run (World:=unit) (QA:=unit) clock_id clock_iso checks_pass client_starts
        planner_fails writer_raises tt review_approves revise_raises
        validation_approves fix_raises "A lighthouse story" None (new_manager ∅, tt)
      = (Returned r, (m', w')) /\
    r_success r = VBool false /\ r_partial_success r = None /\
    r_writing r = None /\ r_qa r = None /\ r_consistency r = None /\
    current_session m' = Some s /\ disk m' !! file_of (session_id s) = Some s /\
    status s = "failed" /\ current_stage s = "planning" /\
    error s = Some "Story planning failed" /\ completed_stages s = ["settings"].
Proof.
  assert (Hplan : forall w0 : unit, exists d v w1,
             planner_fails "A lighthouse story" w0 = (Returned d, w1) /\
             d !! "success" = Some v /\ truth v = false).
  { intros w0. eexists _, (VBool false), _. split; [reflexivity|]. split; reflexivity. }
  split; [exact Hplan|].
  refine (failed_planning_stops_the_run clock_id clock_iso checks_pass client_starts
            planner_fails writer_raises tt review_approves revise_raises
            validation_approves fix_raises "A lighthouse story" (new_manager ∅) tt
            _ _ Hplan).
  - intros w0. now exists ∅, [], w0.
  - intros config w0. now exists w0.
Defined.

Lemma fix_is_reported_only_after_verification_witness :
  (forall w0,
     (validate_consistency decode counting_endpoint tools no_prompts
        (VStr "output/lighthouse") w0).1 !! "approved" = Some (VBool false)) /\
  (fix_if_needed decode counting_endpoint tools no_prompts
     (VStr "output/lighthouse") one_error (tt, 0%nat)).2.2 = 20%nat /\
  match (fix_if_needed decode counting_endpoint tools no_prompts
           (VStr "output/lighthouse") one_error (tt, 0%nat)).1 with
  | Returned d =>
      d !! "fixed" = Some (VBool false) /\
      d !! "reason" = Some (VStr "Max iterations reached")
  | Raised _ => False
  end.
Proof.
  assert (Hnever : forall w0,
            (validate_consistency decode counting_endpoint tools no_prompts
               (VStr "output/lighthouse") w0).1 !! "approved" = Some (VBool false)).
  { intros [[] n]. vm_compute. reflexivity. }
  split; [exact Hnever|]. split; [vm_compute; reflexivity|].
  pose proof (fix_is_reported_only_after_verification decode counting_endpoint tools
                no_prompts (VStr "output/lighthouse") one_error (tt, 0%nat)) as H.
  destruct (fix_if_needed decode counting_endpoint tools no_prompts
              (VStr "output/lighthouse") one_error (tt, 0%nat)) as [[d|e] w'] eqn:Hfix;
    cbn [fst] in *.
  - split.
    + apply H. intros w0. now rewrite Hnever.
    + pose proof (f_equal (fun x => match x.1 with
                                    | Returned d0 => d0 !! "reason"
                                    | Raised _ => None
                                    end) Hfix) as Hreason.
      vm_compute in Hreason. symmetry. exact Hreason.
  - pose proof (f_equal (fun x => match x.1 with
                                  | Returned _ => true
                                  | Raised _ => false
                                  end) Hfix) as Hreturned.
    vm_compute in Hreturned. discriminate Hreturned.
Defined.

Lemma sanitized_name_is_safe_witness :
  all_chars is_ascii (default "" (Some "  My Novel: Part 2/3 ")) = true /\
  match sanitize_folder_name (Some "  My Novel: Part 2/3 ") with
  | Returned r => safe_name r
  | Raised e => e <> "Invalid project name: reserved name"
  end.
Proof.
  split; [reflexivity|].
  exact (sanitized_name_is_safe (Some "  My Novel: Part 2/3 ") eq_refl).
Defined.

Lemma sanitize_folder_name_is_idempotent_witness :
  safe_name "My_Novel_Part_2_3" /\
  sanitize_folder_name (Some "My_Novel_Part_2_3") = Returned "My_Novel_Part_2_3".
Proof.
  assert (H : safe_name "My_Novel_Part_2_3").
  { split; [discriminate|]. split; [reflexivity|].
    split; intros c [= <-]; reflexivity. }
  split; [exact H|]. exact (sanitize_folder_name_is_idempotent _ H).
Defined.

Lemma ascii_only_ui_is_ascii_and_idempotent_witness :
  ascii_only_ui (fun t => t) None = None /\
  forall t, exists r,
    ascii_only_ui (fun t => t) (Some t) = Some r /\
    Forall (fun c => is_ascii_point c = true) r /\
    (Forall (fun c => is_ascii_point c = true) t -> r = t) /\
    ascii_only_ui (fun t => t) (Some r) = Some r.
Proof.
  exact (ascii_only_ui_is_ascii_and_idempotent (fun t => t) (fun t _ => eq_refl)).
Defined.



Lemma approved_gates_trigger_no_remediation_witness :
  approved_run revise_raises fix_raises = approved_run revise_revises fix_fixes /\
  match (approved_run revise_raises fix_raises).1 with
  | Returned r =>
      r_success r = VBool true /\
      option_map (fun d => d !! "approved") (r_qa r) = Some (Some (VBool true)) /\
      option_map (fun d => d !! "approved") (r_consistency r)
      = Some (Some (VBool true))
  | Raised _ => False
  end.
Proof.
  split; [|vm_compute; repeat split; reflexivity].
  unfold approved_run.
  refine (approved_gates_trigger_no_remediation clock_id clock_iso checks_pass
            client_starts planner_plans writer_writes tt review_approves
            validation_approves revise_raises revise_revises fix_raises fix_fixes
            _ _ "A lighthouse story" None (new_manager ∅, tt)).
  - intros agent project_path w d agent' w' [= <- _ _]. reflexivity.
  - intros project_path w d w' [= <- _]. reflexivity.
Defined.

End Instances.
